(** * Ollama Compass CLI: hardware classification, scoring and broadcast loop

    A shallow embedding of the hardware detector (class [HardwareDetector],
    the variant with the VRAM table and the sorted GPU list) and of the
    realtime part of the API server (class [ApiServer]), with the properties
    the specification states about them; then of the realtime sample, the
    routes and the socket handlers of the server, the classifiers of the
    simpler variant of the detector and the Ollama monitor (class
    [OllamaMonitor]), with properties of the code itself.

    Conventions of the embedding.
    - JavaScript numbers: a number that is measured or divided is a rational
      [Q], a number that the code obtains as a count or from [Math.round] is
      an integer [Z].  [NaN] and the infinities have no counterpart: a field
      whose absence would yield [NaN] is an [option].
    - Arithmetic: in the detector as a whole the arithmetic of these numbers
      is exact.  The overall score is a rounded sum of products with the
      weights 0.35, 0.30 and 0.10, which are not binary fractions, so that
      its value depends on the rounding of IEEE doubles; the scorer is
      therefore embedded a second time, in module [Binary64], where every
      operation rounds its exact result to the nearest binary64 number, and
      the property of the overall score is stated of that embedding.
    - A JavaScript string is a [string] whose characters are the code units
      U+0000 to U+00FF.
    - [undefined] and [null] fields of collaborator records are [None].
    - An [async] method is a function of the instance that returns the
      instance it leaves and what it returned or threw; the collaborators'
      answers are inputs.
    - Console output is left out. *)

From Stdlib Require Import ZArith QArith Qround Qminmax Qabs Qpower Lia Lqa Bool List Sorted Ascii String DecimalString.
From stdpp Require Import base list gmap.
Import ListNotations.

Local Open Scope string_scope.
Local Open Scope Z_scope.

(** ** JavaScript primitives used by the sources *)

Module JS.
Local Open Scope Q_scope.

(** [Math.round]: the nearest integer, a tie going to the larger one. *)
Definition Math_round (x : Q) : Z := Qfloor (x + (1 # 2)).

Definition Math_min (x y : Q) : Q := Qmin x y.

(** [x >= y] on numbers. *)
Definition geq (x y : Q) : bool := Qle_bool y x.

(** [x > y] on numbers. *)
Definition gt (x y : Q) : bool := negb (Qle_bool x y).

(** Truthiness of a number: every number but zero. *)
Definition truthy (x : Q) : bool := negb (Qeq_bool x 0).

(** [o && o > k] for a numeric field [o] that may be absent. *)
Definition present_gt (o : option Q) (k : Q) : bool :=
  match o with
  | Some v => truthy v && gt v k
  | None => false
  end.

(** [o || d] for a numeric field. *)
Definition num_or (o : option Q) (d : Q) : Q :=
  match o with
  | Some v => if truthy v then v else d
  | None => d
  end.

(** [o || d] for a string field: the empty string is falsy. *)
Definition str_or (o : option string) (d : string) : string :=
  match o with
  | Some EmptyString | None => d
  | Some v => v
  end.

(** [!o] for a string field. *)
Definition str_not (o : option string) : bool :=
  match o with
  | Some EmptyString | None => true
  | Some _ => false
  end.

(** Case mapping of one code unit of U+0000..U+00FF: the letters A-Z and
    the capital letters U+00C0..U+00DE (U+00D7, the multiplication sign,
    apart) have their small letter 32 places further. *)
Definition lower_unit (c : ascii) : ascii :=
  let n := N_of_ascii c in
  if ((65 <=? n) && (n <=? 90))%N then ascii_of_N (n + 32)
  else if ((192 <=? n) && (n <=? 222) && negb (n =? 215))%N
       then ascii_of_N (n + 32)
  else c.

Fixpoint toLowerCase (s : string) : string :=
  match s with
  | EmptyString => EmptyString
  | String c s' => String (lower_unit c) (toLowerCase s')
  end.

(** [s.includes(t)]: [t] occurs in [s] as a contiguous run. *)
Fixpoint includes (s t : string) : bool :=
  if String.prefix t s then true
  else match s with
       | EmptyString => false
       | String _ s' => includes s' t
       end.

(** A number in a template literal; the detector formats integers only. *)
Definition Number_toString (n : Z) : string :=
  NilZero.string_of_int (Z.to_int n).

(** [Array.prototype.sort(compare)].  The sort is stable: an element goes
    before the first element of the sorted rest that does not have to
    precede it. *)
Section Sort.
Context {A : Type} (compare : A -> A -> Z).

Fixpoint sort_insert (x : A) (l : list A) : list A :=
  match l with
  | [] => [x]
  | y :: l' => if (compare x y <=? 0)%Z then x :: y :: l'
               else y :: sort_insert x l'
  end.

Definition Array_sort (l : list A) : list A := foldr sort_insert [] l.
End Sort.

(** [Buffer.from(s)]: the UTF-8 bytes of a string of code units up to
    U+00FF; a unit from U+0080 on takes two bytes. *)
Definition utf8_unit (c : ascii) : list N :=
  let n := N_of_ascii c in
  if (n <? 128)%N then [n] else [192 + n / 64; 128 + n mod 64]%N.

Fixpoint Buffer_from (s : string) : list N :=
  match s with
  | EmptyString => []
  | String c s' => utf8_unit c ++ Buffer_from s'
  end.

Definition base64_alphabet : string :=
  "ABCDEFGHIJKLMNOPQRSTUVWXYZabcdefghijklmnopqrstuvwxyz0123456789+/".

Definition base64_digit (n : N) : ascii :=
  match String.get (N.to_nat n) base64_alphabet with
  | Some c => c
  | None => "="%char
  end.

(** [buffer.toString('base64')]: three bytes give four digits; a last
    group of one or two bytes is padded with [=]. *)
Fixpoint toString_base64 (bytes : list N) : string :=
  match bytes with
  | [] => EmptyString
  | [a] =>
      String (base64_digit (a / 4))
     (String (base64_digit (a mod 4 * 16)) "==")
  | [a; b] =>
      String (base64_digit (a / 4))
     (String (base64_digit (a mod 4 * 16 + b / 16))
     (String (base64_digit (b mod 16 * 4)) "="))
  | a :: b :: c :: rest =>
      String (base64_digit (a / 4))
     (String (base64_digit (a mod 4 * 16 + b / 16))
     (String (base64_digit (b mod 16 * 4 + c / 64))
     (String (base64_digit (c mod 64)) (toString_base64 rest))))
  end%N.

(** [s.substring(0, n)]. *)
Definition substring0 (n : nat) (s : string) : string := String.substring 0 n s.

End JS.

(** ** Promises and the asynchronous methods of a class

    An [async] method of a class with instance state [S] runs against the
    current instance, may change it, and either returns a value or throws.
    A collaborator call has already settled when it is awaited: it is
    fulfilled with a value or rejected, at some instant, with an error
    carrying a message. *)

Module Async.

Inductive Settled (T : Type) :=
| Fulfilled (value : T)
| Rejected (instant : nat) (message : string).
Arguments Fulfilled {T} value.
Arguments Rejected {T} instant message.

Inductive Outcome (A : Type) :=
| Returned (value : A)
| Thrown (message : string).
Arguments Returned {A} value.
Arguments Thrown {A} message.

Definition M (S A : Type) : Type := S -> S * Outcome A.

Definition ret {S A} (a : A) : M S A := fun this => (this, Returned a).

Definition bind {S A B} (m : M S A) (k : A -> M S B) : M S B :=
  fun this =>
    match m this with
    | (this', Returned a) => k a this'
    | (this', Thrown e) => (this', Thrown e)
    end.

Definition throw {S A} (message : string) : M S A :=
  fun this => (this, Thrown message).

(** [try { body } catch (error) { handler(error.message) }]: what the body
    did to the instance before it threw stays done. *)
Definition try_catch {S A} (body : M S A) (handler : string -> M S A) : M S A :=
  fun this =>
    match body this with
    | (this', Returned a) => (this', Returned a)
    | (this', Thrown e) => handler e this'
    end.

Definition await {S T} (p : Settled T) : M S T :=
  match p with
  | Fulfilled v => ret v
  | Rejected _ e => throw e
  end.

(** The assignment [this.f = v], given as the update of the instance. *)
Definition assign {S} (update : S -> S) : M S unit :=
  fun this => (update this, Returned tt).

(** [Promise.all] of a promise and the [Promise.all] of those after it in
    the array: fulfilled with every value, or rejected with the earliest
    rejection, the first in the array among simultaneous ones. *)
Definition Promise_all {A B} (p : Settled A) (rest : Settled B) : Settled (A * B) :=
  match p, rest with
  | Fulfilled a, Fulfilled b => Fulfilled (a, b)
  | Rejected t e, Fulfilled _ => Rejected t e
  | Fulfilled _, Rejected t e => Rejected t e
  | Rejected t e, Rejected t' e' =>
      if (t' <? t)%nat then Rejected t' e' else Rejected t e
  end.

End Async.

#[global] Instance async_ret {S} : MRet (Async.M S) := @Async.ret S.
#[global] Instance async_bind {S} : MBind (Async.M S) :=
  fun A B k m => Async.bind m k.

(** ** The hardware detector *)

Module HardwareDetector.
Import JS Async.
Local Open Scope Q_scope.

Inductive GPUType := dedicated | integrated | apple_unified.
Inductive DriveType := SSD | HDD.
Inductive HardwareTier := HIGH | MEDIUM | LOW | VERY_LOW.

(** *** Records of the [systeminformation] collaborator *)

Record SiCache := {
  l1d : option Q; l1i : option Q; l2 : option Q; l3 : option Q
}.

Record SiCpu := {
  si_cpu_brand : option string;
  si_cpu_model : option string;
  si_cpu_physicalCores : option Z;
  cores : Z;
  speed : option Q;
  speedMax : option Q;
  family : option string;
  cache : option SiCache
}.

Record SiMem := { total : Q; available : Q; used : Q }.

(** A controller of [si.graphics()]. *)
Record Controller := {
  model : option string;
  vendor : option string;
  vram : option Q;
  memoryTotal : option Q;
  driverVersion : option string;
  temperatureGpu : option Q
}.

Record SiOsInfo := { platform : string; release : string; arch : string }.
Record SiSystem := { si_manufacturer : string; si_system_model : string }.
Record SiDisk := {
  disk_type : string; disk_size : Q; name : string; interfaceType : string
}.
Record SiNetworkInterface := {
  iface : string; iface_type : string; iface_speed : option Q; internal : bool
}.
Record SiBattery := { si_hasBattery : bool; si_percent : Q; si_isCharging : bool }.
Record SiLoad := { currentLoad : option Q }.
Record SiTemperature := { main : option Q }.
Record SiMemModule := { clockSpeed : option Q }.
Record SiFs := { fs_available : Q }.

(** Every call the detector awaits, with the way it settles. *)
Record Collaborators := {
  si_cpu : Settled SiCpu;
  si_mem : Settled SiMem;
  si_graphics : Settled (list Controller);  (* its [controllers] *)
  si_osInfo : Settled SiOsInfo;
  si_system : Settled SiSystem;
  si_diskLayout : Settled (list SiDisk);
  si_networkInterfaces : Settled (list SiNetworkInterface);
  si_battery : Settled (option SiBattery);
  si_currentLoad : Settled SiLoad;
  si_cpuTemperature : Settled SiTemperature;
  si_memLayout : Settled (list SiMemModule);
  si_fsSize : Settled (list SiFs)
}.

(** What the detector reads of the process: [process.arch],
    [os.hostname()], [os.uptime()] and the two readings of the clock. *)
Record Env := {
  process_arch : string;
  os_hostname : string;
  os_uptime : Q;
  clock_analysis : string;
  clock_stored : string
}.

(** *** Records the detector builds *)

Record CpuInfo := {
  cpu_brand : string;
  cpu_model : string;
  physicalCores : Z;
  logicalCores : Z;
  baseFrequencyGHz : Q;
  maxFrequencyGHz : Q;
  architecture : string;
  cacheSizeMB : Z;
  currentUsage : Z;
  cpu_temperature : Q
}.

(** [memoryType], an upper-cased string, and [usagePercentage], which is
    not a number when [total] is zero, are left out: no property below
    reads them. *)
Record MemoryInfo := {
  totalMemoryGB : Z;
  availableMemoryGB : Z;
  usedMemoryGB : Z;
  memorySpeedMHz : Q;
  modules : nat
}.

(** An entry of [gpuInfo]; the object that stands for a missing GPU has
    the first four fields only. *)
Record GpuInfo := {
  gpu_brand : string;
  gpu_model : string;
  vramGB : Z;
  type : GPUType;
  driver : option string;
  gpu_temperature : option Q;
  gpu_vendor : option string;
  rawModel : option string
}.

Record Drive := {
  drive_type : DriveType;
  sizeGB : Z;
  drive_model : string;
  drive_interface : string
}.

Record StorageInfo := {
  totalSpaceGB : Z;
  availableSpaceGB : Z;
  storageType : DriveType;
  drives : list Drive
}.

Record SystemInfo := {
  os : string;
  osVersion : string;
  system_platform : string;
  hostname : string;
  uptime : Z;
  manufacturer : string;
  system_model : string
}.

Record NetworkInterface := {
  net_name : string; net_type : string; net_speed : option Q
}.

Record Battery := { hasBattery : bool; percent : Q; isCharging : bool }.

Record PerformanceScores := {
  overallScore : Z;
  cpuScore : Z;
  memoryScore : Z;
  gpuScore : Z;
  storageScore : Z
}.

Record HardwareSpecs := {
  cpu : CpuInfo;
  memory : MemoryInfo;
  gpu : GpuInfo;
  storage : StorageInfo;
  system : SystemInfo
}.

Record Analysis := {
  hardwareFingerprint : string;
  hardwareSpecs : HardwareSpecs;
  performanceScores : PerformanceScores;
  hardwareTier : HardwareTier;
  analysisTimestamp : string;
  networkInterfaces : list NetworkInterface;
  battery : option Battery
}.

(** The instance state of the class. *)
Record Detector := {
  lastAnalysis : option Analysis;
  this_analysisTimestamp : option string
}.

Definition constructor : Detector :=
  {| lastAnalysis := None; this_analysisTimestamp := None |}.

(** The arguments of the scorer as it reads them: an entry of [gpuInfo]
    or of [storageInfo], or the empty object [{}], whose [type] is
    absent and whose other fields are not read. *)
Record GpuArg := { gpu_type : option GPUType; gpu_vramGB : Z }.
Record StorageArg := { storage_type : option DriveType }.

Definition GiB : Q := 1024 * 1024 * 1024.

(** [Math.round(x) || 0] where [x] is not a number when a summand is
    absent. *)
Definition round_or_0 (x : option Q) : Z :=
  match x with
  | Some x => Math_round x
  | None => 0%Z
  end.

Definition extractGPUBrand (vendor : option string) : string :=
  match vendor with
  | Some EmptyString | None => "Unknown"
  | Some vendor =>
    let vendorLower := toLowerCase vendor in
    if includes vendorLower "nvidia" || includes vendorLower "geforce" then "NVIDIA"
    else if includes vendorLower "amd" || includes vendorLower "ati"
            || includes vendorLower "radeon" then "AMD"
    else if includes vendorLower "intel" && negb (includes vendorLower "nvidia")
         then "Intel"
    else if includes vendorLower "apple" then "Apple"
    else vendor
  end.

Definition getGPUVRAM (gpu : Controller) : Z :=
  let model := toLowerCase (str_or (model gpu) "") in
  let vendor := toLowerCase (str_or (vendor gpu) "") in
  (* NVIDIA RTX series *)
  if includes model "ga107m" || includes model "3050 ti" then 4%Z
  else if includes model "3060" then 6%Z
  else if includes model "3070" then 8%Z
  else if includes model "3080" then 10%Z
  else if includes model "4060" then 8%Z
  else if includes model "4070" then 12%Z
  else if includes model "4080" then 16%Z
  (* AMD estimates *)
  else if includes model "rx 6600" then 8%Z
  else if includes model "rx 6700" then 12%Z
  else if includes model "rx 6800" then 16%Z
  (* Intel Arc *)
  else if includes model "arc" then 6%Z
  (* More NVIDIA patterns *)
  else if includes vendor "nvidia" && includes model "mobile" then 4%Z
  else if includes vendor "nvidia" && includes model "geforce" then 4%Z
  (* system reported VRAM, only above 512 MB *)
  else if present_gt (vram gpu) 512 then Math_round (num_or (vram gpu) 0 / 1024)
  (* memory field *)
  else if present_gt (memoryTotal gpu) 512
       then Math_round (num_or (memoryTotal gpu) 0 / 1024)
  (* Intel integrated fallback *)
  else if includes vendor "intel" then 0%Z
  else 0%Z.

Definition detectMemorySpeed (memLayout : list SiMemModule) : Q :=
  match memLayout with
  | [] => 0
  | firstModule :: _ => num_or (clockSpeed firstModule) 0
  end.

Definition determineGPUType (model vendor : option string) : GPUType :=
  if str_not model then integrated
  else
    let modelLower := toLowerCase (str_or model "") in
    let vendorLower := toLowerCase (str_or vendor "") in
    (* NVIDIA dedicated GPUs *)
    if includes modelLower "geforce" || includes modelLower "rtx"
       || includes modelLower "gtx" || includes modelLower "quadro" then dedicated
    else if includes vendorLower "nvidia" && negb (includes modelLower "integrated")
         then dedicated
    (* AMD dedicated GPUs *)
    else if includes modelLower "radeon" && negb (includes modelLower "graphics")
         then dedicated
    else if includes modelLower "rx " || includes modelLower "vega" then dedicated
    else if includes vendorLower "amd" && negb (includes modelLower "integrated")
         then dedicated
    (* Intel dedicated GPUs *)
    else if includes modelLower "arc" then dedicated
    (* Apple Silicon *)
    else if includes modelLower "apple" || includes modelLower "m1"
            || includes modelLower "m2" || includes modelLower "m3"
         then apple_unified
    else integrated.

Definition calculatePerformanceScores
    (cpu : CpuInfo) (memory : MemoryInfo) (gpu : GpuArg) (storage : StorageArg)
    : PerformanceScores :=
  (* CPU Score *)
  let cpuScore :=
    Math_min 100
      (inject_Z (logicalCores cpu) * 5
       + baseFrequencyGHz cpu * 10
       + inject_Z (cacheSizeMB cpu) * 0.5) in
  (* Memory Score *)
  let memoryScore :=
    Math_min 100
      (inject_Z (totalMemoryGB memory) * 4
       + memorySpeedMHz memory / 100) in
  (* GPU Score *)
  let gpuScore :=
    match gpu_type gpu with
    | Some dedicated => 60 + inject_Z (gpu_vramGB gpu) * 4
    | Some apple_unified => 50 + inject_Z (gpu_vramGB gpu) * 3
    | _ => 30
    end in
  let gpuScore := Math_min 100 gpuScore in
  (* Storage Score *)
  let storageScore : Q :=
    match storage_type storage with Some SSD => 85 | _ => 60 end in
  (* Overall Score (weighted average) *)
  let overallScore :=
    Math_round
      (cpuScore * 0.35
       + memoryScore * 0.25
       + gpuScore * 0.30
       + storageScore * 0.10) in
  {| overallScore := overallScore;
     cpuScore := Math_round cpuScore;
     memoryScore := Math_round memoryScore;
     gpuScore := Math_round gpuScore;
     storageScore := Math_round storageScore |}.

Definition calculateHardwareTier (overallScore : Q) : HardwareTier :=
  if geq overallScore 80 then HIGH
  else if geq overallScore 60 then MEDIUM
  else if geq overallScore 40 then LOW
  else VERY_LOW.

Definition getAvailableStorage (si : Collaborators) : M Detector Z :=
  try_catch
    (fsSize ← await (si_fsSize si);
     if (0 <? length fsSize)%nat
     then
       let totalAvailable := foldl (fun sum fs => sum + fs_available fs) 0 fsSize in
       mret (Math_round (totalAvailable / GiB))
     else mret 0%Z)
    (fun _ => mret 0%Z).

Definition is_dedicated (g : GpuInfo) : bool :=
  match type g with dedicated => true | _ => false end.

(** The comparison the detector sorts [allGPUs] with. *)
Definition compareGPUs (a b : GpuInfo) : Z :=
  if is_dedicated a && negb (is_dedicated b) then (-1)%Z
  else if is_dedicated b && negb (is_dedicated a) then 1%Z
  else (vramGB b - vramGB a)%Z.

Definition gpu_arg (g : option GpuInfo) : GpuArg :=
  match g with
  | Some g => {| gpu_type := Some (type g); gpu_vramGB := vramGB g |}
  | None => {| gpu_type := None; gpu_vramGB := 0 |}
  end.

Definition storage_arg (d : option Drive) : StorageArg :=
  {| storage_type := drive_type <$> d |}.

(** The string the fingerprint encodes. *)
Definition fingerprintData
    (cpuInfo : CpuInfo) (memoryInfo : MemoryInfo)
    (gpuInfo : list GpuInfo) (systemInfo : SystemInfo) : string :=
  (Number_toString (logicalCores cpuInfo) ++ "-"
   ++ Number_toString (totalMemoryGB memoryInfo) ++ "-"
   ++ str_or (gpu_model <$> head gpuInfo) "integrated" ++ "-"
   ++ os systemInfo)%string.

Definition detectHardware (si : Collaborators) (env : Env) : M Detector Analysis :=
  try_catch
    ('(cpu, (memory, (graphics, (osInfo, (system, (diskLayout,
        (networkInterfaces, battery))))))) ←
       await
         (Promise_all (si_cpu si) (Promise_all (si_mem si)
         (Promise_all (si_graphics si) (Promise_all (si_osInfo si)
         (Promise_all (si_system si) (Promise_all (si_diskLayout si)
         (Promise_all (si_networkInterfaces si) (si_battery si))))))));
     (* real-time CPU usage *)
     load ← await (si_currentLoad si);
     cpuTemp ← await (si_cpuTemperature si);
     (* CPU information *)
     let cpuInfo :=
       {| cpu_brand := str_or (si_cpu_brand cpu) "Unknown";
          cpu_model := str_or (si_cpu_model cpu) (str_or (si_cpu_brand cpu) "Unknown");
          physicalCores :=
            match si_cpu_physicalCores cpu with
            | Some 0%Z | None => cores cpu
            | Some n => n
            end;
          logicalCores := cores cpu;
          baseFrequencyGHz := num_or (speed cpu) 0;
          maxFrequencyGHz := num_or (speedMax cpu) 0;
          architecture := str_or (family cpu) (process_arch env);
          cacheSizeMB :=
            round_or_0
              (c ← cache cpu;
               a ← l1d c; b ← l1i c; c2 ← l2 c; c3 ← l3 c;
               Some ((a + b + c2 + c3) / (1024 * 1024)));
          currentUsage := round_or_0 (currentLoad load);
          cpu_temperature := num_or (main cpuTemp) 0 |} in
     (* memory layout *)
     memLayout ← await (si_memLayout si);
     (* Memory information *)
     let memoryInfo :=
       {| totalMemoryGB := Math_round (total memory / GiB);
          availableMemoryGB := Math_round (available memory / GiB);
          usedMemoryGB := Math_round (used memory / GiB);
          memorySpeedMHz := detectMemorySpeed memLayout;
          modules := length memLayout |} in
     (* GPU information *)
     let allGPUs :=
       (fun gpu : Controller =>
          {| gpu_brand :=
               extractGPUBrand
                 (if str_not (vendor gpu) then model gpu else vendor gpu);
             gpu_model := str_or (model gpu) "Unknown GPU";
             vramGB := getGPUVRAM gpu;
             type := determineGPUType (model gpu) (vendor gpu);
             driver := Some (str_or (driverVersion gpu) "Unknown");
             gpu_temperature := Some (num_or (temperatureGpu gpu) 0);
             gpu_vendor := vendor gpu;
             rawModel := model gpu |}) <$> graphics in
     (* dedicated first, then by VRAM *)
     let gpuInfo := Array_sort compareGPUs allGPUs in
     (* Storage information *)
     let storageInfo :=
       (fun disk : SiDisk =>
          {| drive_type := if String.eqb (disk_type disk) "SSD" then SSD else HDD;
             sizeGB := Math_round (disk_size disk / GiB);
             drive_model := name disk;
             drive_interface := interfaceType disk |}) <$> diskLayout in
     (* System information *)
     let systemInfo :=
       {| os := platform osInfo;
          osVersion := release osInfo;
          system_platform := arch osInfo;
          hostname := os_hostname env;
          uptime := Math_round (os_uptime env / 3600);
          manufacturer := si_manufacturer system;
          system_model := si_system_model system |} in
     (* performance scores *)
     let performanceScores :=
       calculatePerformanceScores cpuInfo memoryInfo
         (gpu_arg (head gpuInfo)) (storage_arg (head storageInfo)) in
     (* hardware tier *)
     let hardwareTier :=
       calculateHardwareTier (inject_Z (overallScore performanceScores)) in
     (* hardware fingerprint *)
     let hardwareFingerprint :=
       substring0 16
         (toString_base64
            (Buffer_from (fingerprintData cpuInfo memoryInfo gpuInfo systemInfo))) in
     availableSpaceGB ← getAvailableStorage si;
     let analysis :=
       {| hardwareFingerprint := hardwareFingerprint;
          hardwareSpecs :=
            {| cpu := cpuInfo;
               memory := memoryInfo;
               gpu :=
                 default
                   {| gpu_brand := "Unknown";
                      gpu_model := "Integrated Graphics";
                      vramGB := 0;
                      type := integrated;
                      driver := None;
                      gpu_temperature := None;
                      gpu_vendor := None;
                      rawModel := None |}
                   (head gpuInfo);
               storage :=
                 {| totalSpaceGB :=
                      foldl (fun sum disk => (sum + sizeGB disk)%Z) 0%Z storageInfo;
                    availableSpaceGB := availableSpaceGB;
                    storageType := default SSD (drive_type <$> head storageInfo);
                    drives := storageInfo |};
               system := systemInfo |};
          performanceScores := performanceScores;
          hardwareTier := hardwareTier;
          analysisTimestamp := clock_analysis env;
          networkInterfaces :=
            (fun iface0 : SiNetworkInterface =>
               {| net_name := iface iface0;
                  net_type := iface_type iface0;
                  net_speed := iface_speed iface0 |})
              <$> filter (fun iface0 => internal iface0 = false) networkInterfaces;
          battery :=
            (fun b : SiBattery =>
               {| hasBattery := si_hasBattery b;
                  percent := si_percent b;
                  isCharging := si_isCharging b |}) <$> battery |} in
     assign (fun this =>
               {| lastAnalysis := Some analysis;
                  this_analysisTimestamp := this_analysisTimestamp this |});;
     assign (fun this =>
               {| lastAnalysis := lastAnalysis this;
                  this_analysisTimestamp := Some (clock_stored env) |});;
     mret analysis)
    (fun message => throw ("Hardware detection failed: " ++ message)%string).

(** The [Promise.all] of the eight inventory queries. *)
Definition inventory (si : Collaborators) :=
  Promise_all (si_cpu si) (Promise_all (si_mem si)
  (Promise_all (si_graphics si) (Promise_all (si_osInfo si)
  (Promise_all (si_system si) (Promise_all (si_diskLayout si)
  (Promise_all (si_networkInterfaces si) (si_battery si))))))).

(** The message of a rejected promise. *)
Definition rejected_message {T} (p : Settled T) : list string :=
  match p with
  | Fulfilled _ => []
  | Rejected _ message => [message]
  end.

(** The messages of the rejected queries among those [detectHardware]
    awaits outside of a [try] of their own; [si.fsSize()] is awaited inside
    the [try] of [getAvailableStorage]. *)
Definition awaited_rejections (si : Collaborators) : list string :=
  rejected_message (si_cpu si) ++ rejected_message (si_mem si)
  ++ rejected_message (si_graphics si) ++ rejected_message (si_osInfo si)
  ++ rejected_message (si_system si) ++ rejected_message (si_diskLayout si)
  ++ rejected_message (si_networkInterfaces si) ++ rejected_message (si_battery si)
  ++ rejected_message (si_currentLoad si) ++ rejected_message (si_cpuTemperature si)
  ++ rejected_message (si_memLayout si).

(** The rejection that [detectHardware] meets first, in the order of its
    [await]s. *)
Definition first_failure (si : Collaborators) : option string :=
  match inventory si with
  | Rejected _ message => Some message
  | Fulfilled _ =>
  match si_currentLoad si with
  | Rejected _ message => Some message
  | Fulfilled _ =>
  match si_cpuTemperature si with
  | Rejected _ message => Some message
  | Fulfilled _ =>
  match si_memLayout si with
  | Rejected _ message => Some message
  | Fulfilled _ => None
  end end end end.

End HardwareDetector.

(** ** The scorer in the arithmetic of IEEE 754 binary64

    A JavaScript number is a binary64 value.  A finite one is a rational
    [m * 2^e] with [|m| < 2^53] and [-1074 <= e]; the sum, product or
    quotient of two of them is the exact result rounded to the nearest such
    number, a tie going to the even [m].  The numbers of the scorer stay far
    below [2^1024] unless a fact is that large, and then the scorer takes the
    minimum of 100 and the result: the overflow to [Infinity] is not
    embedded, a result beyond the range is rounded as if the exponent had no
    upper limit. *)

Module Binary64.
Import JS HardwareDetector.
Local Open Scope Q_scope.

Definition pow2 (e : Z) : Q := Qpower 2 e.

(** The exponent [k] with [2^k <= x < 2^(k+1)], for [0 < x]. *)
Definition ilog2 (x : Q) : Z :=
  let k := (Z.log2 (Qnum x) - Z.log2 (Z.pos (Qden x)))%Z in
  if Qle_bool (pow2 k) x then k else (k - 1)%Z.

(** The nearest integer, a tie going to the even one. *)
Definition round_half_even (x : Q) : Z :=
  let f := Qfloor x in
  match Qcompare (x - inject_Z f) (1 # 2) with
  | Lt => f
  | Gt => (f + 1)%Z
  | Eq => if Z.even f then f else (f + 1)%Z
  end.

(** The nearest binary64 number: 53 significant bits, the unit in the last
    place not below [2^-1074]. *)
Definition round64 (x : Q) : Q :=
  if Qeq_bool x 0 then 0
  else
    let e := Z.max (ilog2 (Qabs x) - 52) (-1074) in
    inject_Z (round_half_even (x / pow2 e)) * pow2 e.

(** The operators [+], [*] and [/] of the language. *)
Definition add (x y : Q) : Q := round64 (x + y).
Definition mul (x y : Q) : Q := round64 (x * y).
Definition div (x y : Q) : Q := round64 (x / y).

(** A decimal literal of the source denotes the binary64 number nearest to
    it; an integer literal of the scorer is a binary64 number as it is. *)
Definition literal (x : Q) : Q := round64 x.

(** The unit roundoff [2^-53], the greatest relative error of one
    rounding. *)
Definition unit_roundoff : Q := 1 # 9007199254740992.

Local Notation "x [+] y" := (add x y) (at level 50, left associativity).
Local Notation "x [*] y" := (mul x y) (at level 40, left associativity).
Local Notation "x [/] y" := (div x y) (at level 40, left associativity).

(** [calculatePerformanceScores], every operation of it rounded.
    [Math.min] and [Math.round] are exact on binary64 numbers. *)
Definition calculatePerformanceScores
    (cpu : CpuInfo) (memory : MemoryInfo) (gpu : GpuArg) (storage : StorageArg)
    : PerformanceScores :=
  (* CPU Score *)
  let cpuScore :=
    Math_min 100
      (inject_Z (logicalCores cpu) [*] 5
       [+] baseFrequencyGHz cpu [*] 10
       [+] inject_Z (cacheSizeMB cpu) [*] literal 0.5) in
  (* Memory Score *)
  let memoryScore :=
    Math_min 100
      (inject_Z (totalMemoryGB memory) [*] 4
       [+] memorySpeedMHz memory [/] 100) in
  (* GPU Score *)
  let gpuScore :=
    match gpu_type gpu with
    | Some dedicated => 60 [+] inject_Z (gpu_vramGB gpu) [*] 4
    | Some apple_unified => 50 [+] inject_Z (gpu_vramGB gpu) [*] 3
    | _ => 30
    end in
  let gpuScore := Math_min 100 gpuScore in
  (* Storage Score *)
  let storageScore : Q :=
    match storage_type storage with Some SSD => 85 | _ => 60 end in
  (* Overall Score (weighted average) *)
  let overallScore :=
    Math_round
      (cpuScore [*] literal 0.35
       [+] memoryScore [*] literal 0.25
       [+] gpuScore [*] literal 0.30
       [+] storageScore [*] literal 0.10) in
  {| overallScore := overallScore;
     cpuScore := Math_round cpuScore;
     memoryScore := Math_round memoryScore;
     gpuScore := Math_round gpuScore;
     storageScore := Math_round storageScore |}.

End Binary64.

(** ** The API server: the realtime part

    The server object keeps the set of connected sockets and the handle of
    the interval timer.  The timers themselves, the clock, the sockets'
    [readyState] and the calls in flight belong to the runtime; they are part
    of the state here so that a timer the server has lost track of would
    show.  The log [sent] records every [client.send] of a realtime sample;
    the messages that answer a request ([hardware_info], [ollama_status],
    [error]) are not part of it. *)

Module ApiServer.

Definition Ws := nat.
Definition Handle := nat.

(** A realtime sample as [broadcast] sends it: the message string. *)
Definition Stats := string.

(** A timer armed by [setInterval]: its delay and the instant it is due. *)
Record Interval := { delay : Z; due : Z }.

Record State := {
  (* the server object *)
  clients : list Ws;
  realtimeInterval : option Handle;
  (* the runtime *)
  now : Z;
  intervals : gmap Handle Interval;
  next_handle : Handle;
  next_ws : Ws;
  open_sockets : gset Ws;
  in_flight : nat;
  sent : list (Ws * Stats)
}.

Definition set_server (clients' : list Ws) (realtimeInterval' : option Handle)
    (s : State) : State :=
  {| clients := clients'; realtimeInterval := realtimeInterval';
     now := now s; intervals := intervals s; next_handle := next_handle s;
     next_ws := next_ws s; open_sockets := open_sockets s;
     in_flight := in_flight s; sent := sent s |}.

(** [new ApiServer()] at instant [t0]. *)
Definition constructor (t0 : Z) : State :=
  {| clients := []; realtimeInterval := None;
     now := t0; intervals := ∅; next_handle := 1%nat; next_ws := 0%nat;
     open_sockets := ∅; in_flight := 0; sent := [] |}.

(** [setInterval(callback, delay)]: a new handle, first due one delay
    from now. *)
Definition setInterval (delay : Z) (s : State) : Handle * State :=
  let h := next_handle s in
  (h,
   {| clients := clients s; realtimeInterval := realtimeInterval s;
      now := now s;
      intervals := <[h := {| delay := delay; due := now s + delay |}]> (intervals s);
      next_handle := S h;
      next_ws := next_ws s; open_sockets := open_sockets s;
      in_flight := in_flight s; sent := sent s |}).

Definition clearInterval (h : Handle) (s : State) : State :=
  {| clients := clients s; realtimeInterval := realtimeInterval s;
     now := now s;
     intervals := delete h (intervals s);
     next_handle := next_handle s;
     next_ws := next_ws s; open_sockets := open_sockets s;
     in_flight := in_flight s; sent := sent s |}.

Definition startRealtimeUpdates (s : State) : State :=
  match realtimeInterval s with
  | Some _ => s
  | None =>
      let '(h, s) := setInterval 2000 s in
      set_server (clients s) (Some h) s
  end.

Definition stopRealtimeUpdates (s : State) : State :=
  match realtimeInterval s with
  | Some h =>
      let s := clearInterval h s in
      set_server (clients s) None s
  | None => s
  end.

(** [clients.add(ws)] and [clients.delete(ws)] on a set kept in insertion
    order. *)
Definition Set_add (ws : Ws) (l : list Ws) : list Ws :=
  if bool_decide (ws ∈ l) then l else l ++ [ws].

Definition Set_delete (ws : Ws) (l : list Ws) : list Ws :=
  filter (fun c => c ≠ ws) l.

(** [broadcast(message)]: one send to every client whose socket is open. *)
Definition broadcast (messageStr : Stats) (s : State) : State :=
  {| clients := clients s; realtimeInterval := realtimeInterval s;
     now := now s; intervals := intervals s; next_handle := next_handle s;
     next_ws := next_ws s; open_sockets := open_sockets s;
     in_flight := in_flight s;
     sent := sent s
             ++ ((fun client => (client, messageStr))
                   <$> filter (fun client => client ∈ open_sockets s) (clients s)) |}.

Inductive ClientMessage :=
| start_realtime
| stop_realtime
| get_hardware
| get_ollama_status
| other_type (type : string).

(** [handleWebSocketMessage]: the two realtime cases; the other cases
    answer the sender and leave the loop alone. *)
Definition handleWebSocketMessage (ws : Ws) (data : ClientMessage) (s : State) : State :=
  match data with
  | start_realtime => startRealtimeUpdates s
  | stop_realtime => stopRealtimeUpdates s
  | _ => s
  end.

(** The ['connection'] handler, for a new socket, which is open. *)
Definition on_connection (s : State) : State :=
  let ws := next_ws s in
  {| clients := Set_add ws (clients s); realtimeInterval := realtimeInterval s;
     now := now s; intervals := intervals s; next_handle := next_handle s;
     next_ws := S ws; open_sockets := {[ws]} ∪ open_sockets s;
     in_flight := in_flight s; sent := sent s |}.

(** The ['close'] handler of a socket, which is no longer open. *)
Definition on_close (ws : Ws) (s : State) : State :=
  let s :=
    {| clients := Set_delete ws (clients s); realtimeInterval := realtimeInterval s;
       now := now s; intervals := intervals s; next_handle := next_handle s;
       next_ws := next_ws s; open_sockets := open_sockets s ∖ {[ws]};
       in_flight := in_flight s; sent := sent s |} in
  (* Stop realtime updates if no clients *)
  match clients s, realtimeInterval s with
  | [], Some h =>
      let s := clearInterval h s in
      set_server (clients s) None s
  | _, _ => s
  end.

(** The runtime runs the callback of a due timer: the timer is armed
    again and the callback waits for [getRealtimeStats()]. *)
Definition timer_fires (h : Handle) (s : State) : State :=
  match intervals s !! h with
  | Some iv =>
      if due iv <=? now s then
        {| clients := clients s; realtimeInterval := realtimeInterval s;
           now := now s;
           intervals := <[h := {| delay := delay iv; due := now s + delay iv |}]> (intervals s);
           next_handle := next_handle s;
           next_ws := next_ws s; open_sockets := open_sockets s;
           in_flight := S (in_flight s); sent := sent s |}
      else s
  | None => s
  end.

(** A waiting callback goes on with the sample, or with nothing when
    [getRealtimeStats()] gave [null]. *)
Definition stats_settled (stats : option Stats) (s : State) : State :=
  match in_flight s with
  | O => s
  | S n =>
      let s :=
        {| clients := clients s; realtimeInterval := realtimeInterval s;
           now := now s; intervals := intervals s; next_handle := next_handle s;
           next_ws := next_ws s; open_sockets := open_sockets s;
           in_flight := n; sent := sent s |} in
      match stats with
      | Some messageStr => broadcast messageStr s
      | None => s
      end
  end.

Inductive Event :=
| Connection
| Closing (ws : Ws)
| Close (ws : Ws)
| Message (ws : Ws) (data : ClientMessage)
| TimerFires (h : Handle)
| StatsSettled (stats : option Stats)
| Elapse (dt : Z)
| Stop.

(** What the runtime does with an event.  The handlers of a socket exist
    from its connection to its ['close'] event. *)
Definition step (s : State) (e : Event) : State :=
  match e with
  | Connection => on_connection s
  | Closing ws =>
      (* the socket starts to close: its [readyState] is no longer OPEN *)
      {| clients := clients s; realtimeInterval := realtimeInterval s;
         now := now s; intervals := intervals s; next_handle := next_handle s;
         next_ws := next_ws s; open_sockets := open_sockets s ∖ {[ws]};
         in_flight := in_flight s; sent := sent s |}
  | Close ws => if bool_decide (ws ∈ clients s) then on_close ws s else s
  | Message ws data =>
      if bool_decide (ws ∈ clients s) then handleWebSocketMessage ws data s else s
  | TimerFires h => timer_fires h s
  | StatsSettled stats => stats_settled stats s
  | Elapse dt =>
      {| clients := clients s; realtimeInterval := realtimeInterval s;
         now := now s + Z.max 0 dt; intervals := intervals s;
         next_handle := next_handle s;
         next_ws := next_ws s; open_sockets := open_sockets s;
         in_flight := in_flight s; sent := sent s |}
  | Stop => stopRealtimeUpdates s
  end.

Definition run (t0 : Z) (events : list Event) : State :=
  foldl step (constructor t0) events.

Inductive LoopState := IDLE | ACTIVE.

(** The loop is active while the server holds a timer. *)
Definition loop_state (s : State) : LoopState :=
  match realtimeInterval s with
  | Some _ => ACTIVE
  | None => IDLE
  end.

(** The server knows every armed timer: the one it holds, which ticks every
    2000 ms, or none. *)
Definition timers_tracked (s : State) : Prop :=
  match realtimeInterval s with
  | Some h => exists t, intervals s = {[h := {| delay := 2000; due := t |}]}
  | None => intervals s = ∅
  end.

(** Every client is a socket that has connected. *)
Definition clients_allocated (s : State) : Prop :=
  Forall (fun ws => (ws < next_ws s)%nat) (clients s).

(** The events that ask for the loop to start. *)
Definition asks_start (e : Event) : bool :=
  match e with
  | Message _ start_realtime => true
  | _ => false
  end.

(** A socket that has connected and is not a client any more. *)
Definition gone (ws : Ws) (s : State) : Prop :=
  (ws ∉ clients s) /\ (ws < next_ws s)%nat.

(** A loop at rest: no timer, no callback waiting. *)
Definition at_rest (s : State) : Prop :=
  realtimeInterval s = None /\ intervals s = ∅ /\ in_flight s = 0%nat.

(** What has been sent to one socket. *)
Definition sent_to (ws : Ws) (s : State) : list (Ws * Stats) :=
  filter (fun delivery => delivery.1 = ws) (sent s).

End ApiServer.

(** ** The specification's formulas, written from its words *)

Module Spec.
Import JS HardwareDetector.
Local Open Scope Q_scope.

(** Section 4.3, the four sub-scores. *)
Definition cpuScore (logicalCores baseFrequencyGHz cacheSizeMB : Q) : Q :=
  Qmin 100 (logicalCores * 5 + baseFrequencyGHz * 10 + cacheSizeMB * 0.5).

Definition memoryScore (totalGB speedMHz : Q) : Q :=
  Qmin 100 (totalGB * 4 + speedMHz / 100).

Definition gpuScore (type : GPUType) (vramGB : Q) : Q :=
  Qmin 100
    match type with
    | integrated => 30
    | dedicated => 60 + vramGB * 4
    | apple_unified => 50 + vramGB * 3
    end.

Definition storageScore (primary_is_SSD : bool) : Q :=
  if primary_is_SSD then 85 else 60.

(** Round half up: a fraction of one half or more goes up. *)
Definition round_half_up (x : Q) : Z :=
  if Qle_bool (1 # 2) (x - inject_Z (Qfloor x)) then (Qfloor x + 1)%Z else Qfloor x.

Definition clamp (lo hi x : Z) : Z := Z.max lo (Z.min hi x).

(** Section 3: the weighted sum, rounded, clamped to [0,100]. *)
Definition overallScore (cpu memory gpu storage : Q) : Z :=
  clamp 0 100
    (round_half_up
       (0.35 * cpu + 0.25 * memory + 0.30 * gpu + 0.10 * storage)).

(** The facts of the scorer's arguments, as the formulas take them: an
    absent GPU counts as integrated, an absent drive as not SSD. *)
Definition overallScore_of
    (cpu : CpuInfo) (memory : MemoryInfo) (gpu : GpuArg) (storage : StorageArg) : Z :=
  overallScore
    (cpuScore (inject_Z (logicalCores cpu)) (baseFrequencyGHz cpu)
              (inject_Z (cacheSizeMB cpu)))
    (memoryScore (inject_Z (totalMemoryGB memory)) (memorySpeedMHz memory))
    (gpuScore (default integrated (gpu_type gpu)) (inject_Z (gpu_vramGB gpu)))
    (storageScore match storage_type storage with Some SSD => true | _ => false end).

(** The ranges of the data model for the facts the scorer reads. *)
Record facts_in_range
    (cpu : CpuInfo) (memory : MemoryInfo) (gpu : GpuArg) : Prop := {
  range_cores : (1 <= logicalCores cpu)%Z;
  range_frequency : 0 <= baseFrequencyGHz cpu;
  range_cache : (0 <= cacheSizeMB cpu)%Z;
  range_total : (0 < totalMemoryGB memory)%Z;
  range_speed : 0 <= memorySpeedMHz memory;
  range_vram : (0 <= gpu_vramGB gpu)%Z
}.

(** The weighted sum of the four sub-scores of the facts, before it is
    rounded. *)
Definition weightedSum_of
    (cpu : CpuInfo) (memory : MemoryInfo) (gpu : GpuArg) (storage : StorageArg) : Q :=
  0.35 * cpuScore (inject_Z (logicalCores cpu)) (baseFrequencyGHz cpu)
                  (inject_Z (cacheSizeMB cpu))
  + 0.25 * memoryScore (inject_Z (totalMemoryGB memory)) (memorySpeedMHz memory)
  + 0.30 * gpuScore (default integrated (gpu_type gpu)) (inject_Z (gpu_vramGB gpu))
  + 0.10 * storageScore match storage_type storage with Some SSD => true | _ => false end.

(** A number is clear of the ties of rounding when no [k + 1/2] is nearer to
    it than [tolerance]: the fraction of [x + 1/2] lies between [tolerance]
    and [1 - tolerance]. *)
Definition tolerance : Q := 1 # 1000000000000.

Definition clear_of_ties (x : Q) : bool :=
  let fraction := x + (1 # 2) - inject_Z (Qfloor (x + (1 # 2))) in
  Qle_bool tolerance fraction && Qle_bool fraction (1 - tolerance).

(** The overall score of a scorer is the rounded weighted sum, whatever the
    facts in range. *)
Definition overall_is_weighted_round
    (scorer : CpuInfo -> MemoryInfo -> GpuArg -> StorageArg -> PerformanceScores)
    : Prop :=
  forall cpu memory gpu storage,
    facts_in_range cpu memory gpu ->
    HardwareDetector.overallScore (scorer cpu memory gpu storage)
    = overallScore_of cpu memory gpu storage.

(** Numeric fields that are not negative. *)
Record facts_non_negative
    (cpu : CpuInfo) (memory : MemoryInfo) (gpu : GpuArg) : Prop := {
  nonneg_cores : (0 <= logicalCores cpu)%Z;
  nonneg_frequency : 0 <= baseFrequencyGHz cpu;
  nonneg_cache : (0 <= cacheSizeMB cpu)%Z;
  nonneg_total : (0 <= totalMemoryGB memory)%Z;
  nonneg_speed : 0 <= memorySpeedMHz memory;
  nonneg_vram : (0 <= gpu_vramGB gpu)%Z
}.

(** Section 4.3, the tier: breakpoints 80/60/40, a boundary value in the
    higher tier. *)
Inductive tier_of (score : Q) : HardwareTier -> Prop :=
| tier_high : 80 <= score -> tier_of score HIGH
| tier_medium : 60 <= score -> score < 80 -> tier_of score MEDIUM
| tier_low : 40 <= score -> score < 60 -> tier_of score LOW
| tier_very_low : score < 40 -> tier_of score VERY_LOW.

(** Section 4.2, VRAM estimation.  Step (1) is the table of known models:
    the tokens looked for in the lower-cased model, first match first, then
    the two NVIDIA patterns that also look at the vendor. *)
Definition model_table : list (string * Z) :=
  [ ("ga107m", 4); ("3050 ti", 4); ("3060", 6); ("3070", 8); ("3080", 10);
    ("4060", 8); ("4070", 12); ("4080", 16);
    ("rx 6600", 8); ("rx 6700", 12); ("rx 6800", 16);
    ("arc", 6) ]%Z.

Definition vendor_table : list (string * string * Z) :=
  [ ("nvidia", "mobile", 4); ("nvidia", "geforce", 4) ]%Z.

Definition known_model (model vendor : string) : option Z :=
  match find (fun entry => includes model entry.1) model_table with
  | Some entry => Some entry.2
  | None =>
      snd <$> find (fun entry => includes vendor entry.1.1 && includes model entry.1.2)
                   vendor_table
  end.

(** A reported amount of memory in MB, above the floor of 512 MB, in GB. *)
Definition reported_GB (reported : option Q) : option Z :=
  if present_gt reported 512 then Some (Math_round (num_or reported 0 / 1024))
  else None.

Definition integrated_vendor (vendor : string) : bool := includes vendor "intel".

(** The resolution order as section 4.2 gives it: table, integrated vendor,
    raw VRAM, alternate field, zero. *)
Definition vram_resolution (gpu : Controller) : Z :=
  let model := toLowerCase (str_or (model gpu) "") in
  let vendor := toLowerCase (str_or (vendor gpu) "") in
  match known_model model vendor with
  | Some gb => gb
  | None =>
      if integrated_vendor vendor then 0%Z
      else match reported_GB (vram gpu) with
           | Some gb => gb
           | None => default 0%Z (reported_GB (memoryTotal gpu))
           end
  end.

(** The same order without the integrated-vendor step. *)
Definition vram_resolution_sensors_first (gpu : Controller) : Z :=
  let model := toLowerCase (str_or (model gpu) "") in
  let vendor := toLowerCase (str_or (vendor gpu) "") in
  match known_model model vendor with
  | Some gb => gb
  | None =>
      match reported_GB (vram gpu) with
      | Some gb => gb
      | None => default 0%Z (reported_GB (memoryTotal gpu))
      end
  end.

(** Section 4.2, GPU type: the rules (a) to (d) on lower-cased strings. *)
Definition has_any (s : string) (tokens : list string) : bool :=
  existsb (includes s) tokens.

Definition apple_tokens : list string := ["apple"; "m1"; "m2"; "m3"].

Definition rule_a (model vendor : string) : bool :=
  has_any model apple_tokens || has_any vendor apple_tokens.

Definition rule_b (model vendor : string) : bool :=
  has_any model ["geforce"; "rtx"; "gtx"; "quadro"]
  || (includes vendor "nvidia" && negb (includes model "integrated")).

Definition rule_c (model vendor : string) : bool :=
  (includes model "radeon" && negb (includes model "graphics"))
  || has_any model ["rx "; "vega"]
  || (includes vendor "amd" && negb (includes model "integrated")).

Definition rule_d (model : string) : bool := includes model "arc".

(** The priority order as section 4.2 gives it: (a), (b), (c), (d), (e). *)
Definition gpu_type_by_priority (model vendor : option string) : GPUType :=
  let model := toLowerCase (str_or model "") in
  let vendor := toLowerCase (str_or vendor "") in
  if rule_a model vendor then apple_unified
  else if rule_b model vendor then dedicated
  else if rule_c model vendor then dedicated
  else if rule_d model then dedicated
  else integrated.

(** Section 4.4: the canonical string
    logicalCores-totalMemoryGB-primaryGpuModelOrIntegrated-osPlatform and its
    encoding. *)
Definition canonical (logicalCores totalMemoryGB : Z)
    (primaryGpuModelOrIntegrated osPlatform : string) : string :=
  (Number_toString logicalCores ++ "-" ++ Number_toString totalMemoryGB ++ "-"
   ++ primaryGpuModelOrIntegrated ++ "-" ++ osPlatform)%string.

Definition encode (s : string) : string := toString_base64 (Buffer_from s).

(** Whether a GPU is present, in the inventory and as the analysis shows
    it: the object that stands for a missing GPU has no driver. *)
Definition has_gpu (graphics : list Controller) : bool :=
  match graphics with [] => false | _ :: _ => true end.

Definition shows_gpu (analysis : Analysis) : bool :=
  match driver (gpu (hardwareSpecs analysis)) with
  | Some _ => true
  | None => false
  end.

(** The primary GPU model of an analysis, or the literal "integrated" when
    no GPU is present. *)
Definition primaryGpuModelOrIntegrated (analysis : Analysis) : string :=
  if shows_gpu analysis then gpu_model (gpu (hardwareSpecs analysis))
  else "integrated".

Definition canonical_of (analysis : Analysis) : string :=
  canonical
    (logicalCores (cpu (hardwareSpecs analysis)))
    (totalMemoryGB (memory (hardwareSpecs analysis)))
    (primaryGpuModelOrIntegrated analysis)
    (os (system (hardwareSpecs analysis))).

(** [s] is the first [n] characters of [t], all of [t] when it has fewer. *)
Definition first_characters (n : nat) (t s : string) : Prop :=
  (exists rest, t = (s ++ rest)%string)
  /\ String.length s = Nat.min n (String.length t).

(** Section 4.4 as stated: two analyses with the same logical core count,
    total memory, primary GPU model and OS have the same fingerprint. *)
Definition same_model_same_fingerprint : Prop :=
  forall (si1 si2 : Collaborators) (env1 env2 : Env)
         (this1 this1' this2 this2' : Detector) (a1 a2 : Analysis),
    detectHardware si1 env1 this1 = (this1', Async.Returned a1) ->
    detectHardware si2 env2 this2 = (this2', Async.Returned a2) ->
    logicalCores (cpu (hardwareSpecs a1)) = logicalCores (cpu (hardwareSpecs a2)) ->
    totalMemoryGB (memory (hardwareSpecs a1))
    = totalMemoryGB (memory (hardwareSpecs a2)) ->
    gpu_model (gpu (hardwareSpecs a1)) = gpu_model (gpu (hardwareSpecs a2)) ->
    os (system (hardwareSpecs a1)) = os (system (hardwareSpecs a2)) ->
    hardwareFingerprint a1 = hardwareFingerprint a2.

(** The encoding is reversible: this is its inverse, base64 first, UTF-8
    for code units up to U+00FF next. *)
Definition base64_value (c : ascii) : option N :=
  let n := N_of_ascii c in
  if ((65 <=? n) && (n <=? 90))%N then Some (n - 65)%N
  else if ((97 <=? n) && (n <=? 122))%N then Some (n - 71)%N
  else if ((48 <=? n) && (n <=? 57))%N then Some (n + 4)%N
  else if (n =? 43)%N then Some 62%N
  else if (n =? 47)%N then Some 63%N
  else None.

Definition is_pad (c : ascii) : bool := Ascii.eqb c "=".

Definition is_empty (s : string) : bool :=
  match s with EmptyString => true | _ => false end.

Fixpoint base64_decode (s : string) : option (list N) :=
  match s with
  | EmptyString => Some []
  | String c1 (String c2 (String c3 (String c4 rest))) =>
      v1 ← base64_value c1;
      v2 ← base64_value c2;
      if is_pad c3 then
        if is_pad c4 && is_empty rest then Some [v1 * 4 + v2 / 16]%N else None
      else
        v3 ← base64_value c3;
        if is_pad c4 then
          if is_empty rest
          then Some [v1 * 4 + v2 / 16; v2 mod 16 * 16 + v3 / 4]%N
          else None
        else
          v4 ← base64_value c4;
          bytes ← base64_decode rest;
          Some ((v1 * 4 + v2 / 16) :: (v2 mod 16 * 16 + v3 / 4)
                  :: (v3 mod 4 * 64 + v4) :: bytes)%N
  | _ => None
  end.

Fixpoint utf8_decode (bytes : list N) : option string :=
  match bytes with
  | [] => Some EmptyString
  | b :: rest =>
      if (b <? 128)%N then String (ascii_of_N b) <$> utf8_decode rest
      else
        match rest with
        | [] => None
        | b2 :: rest' =>
            String (ascii_of_N ((b - 192) * 64 + (b2 - 128))) <$> utf8_decode rest'
        end
  end.

Definition decode (s : string) : option string :=
  bytes ← base64_decode s; utf8_decode bytes.

(** Section 4.6 as stated: the first subscriber to attach makes the loop
    active. *)
Definition attach_activates : Prop :=
  forall (t0 : Z) (events : list ApiServer.Event),
    ApiServer.clients (ApiServer.run t0 events) = [] ->
    ApiServer.loop_state (ApiServer.step (ApiServer.run t0 events) ApiServer.Connection)
    = ApiServer.ACTIVE.

End Spec.

(** ** Concrete facts, inventories and runs *)

Module Examples.
Import JS Async HardwareDetector.

(** The facts of the end-to-end example of the specification. *)
Definition cpu8 : CpuInfo :=
  {| cpu_brand := "Unknown"; cpu_model := "Unknown"; physicalCores := 8;
     logicalCores := 8; baseFrequencyGHz := 3.0%Q; maxFrequencyGHz := 0%Q;
     architecture := "x64"; cacheSizeMB := 16; currentUsage := 0;
     cpu_temperature := 0%Q |}.

Definition memory32 : MemoryInfo :=
  {| totalMemoryGB := 32; availableMemoryGB := 16; usedMemoryGB := 16;
     memorySpeedMHz := 3200%Q; modules := 2 |}.

Definition rtx8 : GpuArg := {| gpu_type := Some dedicated; gpu_vramGB := 8 |}.

Definition ssd : StorageArg := {| storage_type := Some SSD |}.

Definition rtx4 : GpuArg := {| gpu_type := Some dedicated; gpu_vramGB := 4 |}.



Definition no_gpu : GpuArg := {| gpu_type := None; gpu_vramGB := 0 |}.


Definition controller (model vendor : string) (vram : option Q) : Controller :=
  {| model := Some model; vendor := Some vendor; vram := vram;
     memoryTotal := None; driverVersion := None; temperatureGpu := None |}.

(** An RTX 3060 whose reported VRAM is 16. *)
Definition rtx3060 : Controller := controller "NVIDIA GeForce RTX 3060" "NVIDIA" (Some 16%Q).

(** An integrated Intel GPU that reports 1024 MB. *)
Definition uhd630 : Controller := controller "UHD Graphics 630" "Intel" (Some 1024%Q).

(** A card that is in no table and reports 2048 MB. *)
Definition matrox : Controller := controller "Matrox G200eW" "Matrox" (Some 2048%Q).

(** An inventory: an Intel integrated GPU and an NVIDIA card, 32 GB, an SSD;
    the file systems cannot be listed. *)
Definition inventory_ok : Collaborators :=
  {| si_cpu :=
       Fulfilled
         {| si_cpu_brand := Some "Intel"; si_cpu_model := None;
            si_cpu_physicalCores := Some 4; cores := 8; speed := Some 3.0%Q;
            speedMax := None; family := None;
            cache := Some {| l1d := Some 0%Q; l1i := Some 0%Q; l2 := Some 0%Q;
                             l3 := Some 16777216%Q |} |};
     si_mem := Fulfilled {| total := 34359738368%Q; available := 17179869184%Q;
                            used := 17179869184%Q |};
     si_graphics :=
       Fulfilled [uhd630; controller "NVIDIA GeForce RTX 3070" "NVIDIA" (Some 16%Q)];
     si_osInfo := Fulfilled {| platform := "linux"; release := "6.1"; arch := "x64" |};
     si_system := Fulfilled {| si_manufacturer := "Dell"; si_system_model := "XPS" |};
     si_diskLayout :=
       Fulfilled [{| disk_type := "SSD"; disk_size := 512000000000%Q;
                     name := "Samsung"; interfaceType := "NVMe" |}];
     si_networkInterfaces :=
       Fulfilled [{| iface := "lo"; iface_type := "virtual"; iface_speed := None;
                     internal := true |};
                  {| iface := "eth0"; iface_type := "wired";
                     iface_speed := Some 1000%Q; internal := false |}];
     si_battery := Fulfilled None;
     si_currentLoad := Fulfilled {| currentLoad := Some 12.5%Q |};
     si_cpuTemperature := Fulfilled {| main := None |};
     si_memLayout := Fulfilled [{| clockSpeed := Some 3200%Q |}];
     si_fsSize := Rejected 0 "no file systems" |}.

(** The same inventory when the graphics query fails. *)
Definition no_graphics : Collaborators :=
  {| si_cpu := si_cpu inventory_ok;
     si_mem := si_mem inventory_ok;
     si_graphics := Rejected 3 "graphics unavailable";
     si_osInfo := si_osInfo inventory_ok;
     si_system := si_system inventory_ok;
     si_diskLayout := si_diskLayout inventory_ok;
     si_networkInterfaces := si_networkInterfaces inventory_ok;
     si_battery := si_battery inventory_ok;
     si_currentLoad := si_currentLoad inventory_ok;
     si_cpuTemperature := si_cpuTemperature inventory_ok;
     si_memLayout := si_memLayout inventory_ok;
     si_fsSize := si_fsSize inventory_ok |}.

Definition env : Env :=
  {| process_arch := "x64"; os_hostname := "host"; os_uptime := 7200%Q;
     clock_analysis := "2024-01-01T00:00:00.000Z";
     clock_stored := "2024-01-01T00:00:00.001Z" |}.

(** A detector after one successful analysis. *)
Definition analysed : Detector :=
  (detectHardware inventory_ok env HardwareDetector.constructor).1.

(** The analysis that it returned. *)
Definition analysis : Analysis.
Proof.
  let outcome :=
    eval vm_compute in (detectHardware inventory_ok env HardwareDetector.constructor).2 in
  match outcome with
  | Returned ?a => exact a
  end.
Defined.

(** The same machine later: the integrated GPU is disabled, the disk has
    been replaced, the host renamed. *)
Definition inventory_later : Collaborators :=
  {| si_cpu := si_cpu inventory_ok;
     si_mem := si_mem inventory_ok;
     si_graphics := Fulfilled [controller "NVIDIA GeForce RTX 3070" "NVIDIA" None];
     si_osInfo := si_osInfo inventory_ok;
     si_system := si_system inventory_ok;
     si_diskLayout :=
       Fulfilled [{| disk_type := "HD"; disk_size := 2000000000000%Q;
                     name := "Seagate"; interfaceType := "SATA" |}];
     si_networkInterfaces := Fulfilled [];
     si_battery := si_battery inventory_ok;
     si_currentLoad := Fulfilled {| currentLoad := Some 80%Q |};
     si_cpuTemperature := si_cpuTemperature inventory_ok;
     si_memLayout := si_memLayout inventory_ok;
     si_fsSize := Fulfilled [{| fs_available := 1500000000000%Q |}] |}.

Definition env_later : Env :=
  {| process_arch := "x64"; os_hostname := "renamed"; os_uptime := 90000%Q;
     clock_analysis := "2024-06-01T00:00:00.000Z";
     clock_stored := "2024-06-01T00:00:00.001Z" |}.

Definition analysis_later : Analysis.
Proof.
  let outcome :=
    eval vm_compute in (detectHardware inventory_later env_later analysed).2 in
  match outcome with
  | Returned ?a => exact a
  end.
Defined.

(** One client has connected. *)
Definition attached : ApiServer.State := ApiServer.run 0 [ApiServer.Connection].

(** One client has connected and asked for realtime updates. *)
Definition streaming : ApiServer.State :=
  ApiServer.run 0
    [ApiServer.Connection; ApiServer.Message 0%nat ApiServer.start_realtime].

(** Two seconds after the start: the timer is due. *)
Definition tick_due : ApiServer.State :=
  ApiServer.run 0
    [ApiServer.Connection; ApiServer.Message 0%nat ApiServer.start_realtime;
     ApiServer.Elapse 2000].

End Examples.

(** ** The stages of the full analysis, by name

    [detectHardware] builds its records in place; the same expressions are
    named here so that properties of the analysis can speak of them. *)

Module Pipeline.
Import JS Async HardwareDetector.
Local Open Scope Q_scope.

Definition cpuInfo_of (cpu : SiCpu) (load : SiLoad) (cpuTemp : SiTemperature)
    (env : Env) : CpuInfo :=
  {| cpu_brand := str_or (si_cpu_brand cpu) "Unknown";
     cpu_model := str_or (si_cpu_model cpu) (str_or (si_cpu_brand cpu) "Unknown");
     physicalCores :=
       match si_cpu_physicalCores cpu with
       | Some 0%Z | None => cores cpu
       | Some n => n
       end;
     logicalCores := cores cpu;
     baseFrequencyGHz := num_or (speed cpu) 0;
     maxFrequencyGHz := num_or (speedMax cpu) 0;
     architecture := str_or (family cpu) (process_arch env);
     cacheSizeMB :=
       round_or_0
         (c ← cache cpu;
          a ← l1d c; b ← l1i c; c2 ← l2 c; c3 ← l3 c;
          Some ((a + b + c2 + c3) / (1024 * 1024)));
     currentUsage := round_or_0 (currentLoad load);
     cpu_temperature := num_or (main cpuTemp) 0 |}.

Definition memoryInfo_of (memory : SiMem) (memLayout : list SiMemModule) : MemoryInfo :=
  {| totalMemoryGB := Math_round (total memory / GiB);
     availableMemoryGB := Math_round (available memory / GiB);
     usedMemoryGB := Math_round (used memory / GiB);
     memorySpeedMHz := detectMemorySpeed memLayout;
     modules := length memLayout |}.

(** The entry of [allGPUs] for a controller. *)
Definition gpu_entry (gpu : Controller) : GpuInfo :=
  {| gpu_brand :=
       extractGPUBrand (if str_not (vendor gpu) then model gpu else vendor gpu);
     gpu_model := str_or (model gpu) "Unknown GPU";
     vramGB := getGPUVRAM gpu;
     type := determineGPUType (model gpu) (vendor gpu);
     driver := Some (str_or (driverVersion gpu) "Unknown");
     gpu_temperature := Some (num_or (temperatureGpu gpu) 0);
     gpu_vendor := vendor gpu;
     rawModel := model gpu |}.

(** [gpuInfo]: the entries, dedicated first, then by VRAM. *)
Definition gpuInfo_of (graphics : list Controller) : list GpuInfo :=
  Array_sort compareGPUs (gpu_entry <$> graphics).

(** The entry of [storageInfo] for a disk. *)
Definition drive_of (disk : SiDisk) : Drive :=
  {| drive_type := if String.eqb (disk_type disk) "SSD" then SSD else HDD;
     sizeGB := Math_round (disk_size disk / GiB);
     drive_model := name disk;
     drive_interface := interfaceType disk |}.

Definition systemInfo_of (osInfo : SiOsInfo) (system : SiSystem) (env : Env)
    : SystemInfo :=
  {| os := platform osInfo;
     osVersion := release osInfo;
     system_platform := arch osInfo;
     hostname := os_hostname env;
     uptime := Math_round (os_uptime env / 3600);
     manufacturer := si_manufacturer system;
     system_model := si_system_model system |}.

(** The object that stands for the GPU when there is none. *)
Definition no_gpu : GpuInfo :=
  {| gpu_brand := "Unknown";
     gpu_model := "Integrated Graphics";
     vramGB := 0;
     type := integrated;
     driver := None;
     gpu_temperature := None;
     gpu_vendor := None;
     rawModel := None |}.

(** What [getAvailableStorage] returns for an answer of [si.fsSize()]. *)
Definition available_GB (fsSize : Settled (list SiFs)) : Z :=
  match fsSize with
  | Fulfilled (fs :: rest) =>
      Math_round (foldl (fun sum fs => sum + fs_available fs) 0 (fs :: rest) / GiB)
  | _ => 0%Z
  end.

Definition network_of (iface0 : SiNetworkInterface) : NetworkInterface :=
  {| net_name := iface iface0;
     net_type := iface_type iface0;
     net_speed := iface_speed iface0 |}.

Definition battery_of (b : SiBattery) : Battery :=
  {| hasBattery := si_hasBattery b;
     percent := si_percent b;
     isCharging := si_isCharging b |}.

(** The answers of the collaborators that a successful analysis read. *)
Record Answers := {
  a_cpu : SiCpu;
  a_memory : SiMem;
  a_graphics : list Controller;
  a_osInfo : SiOsInfo;
  a_system : SiSystem;
  a_diskLayout : list SiDisk;
  a_networkInterfaces : list SiNetworkInterface;
  a_battery : option SiBattery;
  a_load : SiLoad;
  a_cpuTemp : SiTemperature;
  a_memLayout : list SiMemModule;
  a_fsSize : Settled (list SiFs)
}.

(** The collaborators have answered with [x]. *)
Definition answered (si : Collaborators) (x : Answers) : Prop :=
  si_cpu si = Fulfilled (a_cpu x)
  /\ si_mem si = Fulfilled (a_memory x)
  /\ si_graphics si = Fulfilled (a_graphics x)
  /\ si_osInfo si = Fulfilled (a_osInfo x)
  /\ si_system si = Fulfilled (a_system x)
  /\ si_diskLayout si = Fulfilled (a_diskLayout x)
  /\ si_networkInterfaces si = Fulfilled (a_networkInterfaces x)
  /\ si_battery si = Fulfilled (a_battery x)
  /\ si_currentLoad si = Fulfilled (a_load x)
  /\ si_cpuTemperature si = Fulfilled (a_cpuTemp x)
  /\ si_memLayout si = Fulfilled (a_memLayout x)
  /\ si_fsSize si = a_fsSize x.

(** The analysis that [detectHardware] builds from these answers. *)
Definition analysis_of (x : Answers) (env : Env) : Analysis :=
  let cpuInfo := cpuInfo_of (a_cpu x) (a_load x) (a_cpuTemp x) env in
  let memoryInfo := memoryInfo_of (a_memory x) (a_memLayout x) in
  let gpuInfo := gpuInfo_of (a_graphics x) in
  let storageInfo := drive_of <$> a_diskLayout x in
  let systemInfo := systemInfo_of (a_osInfo x) (a_system x) env in
  let performanceScores :=
    calculatePerformanceScores cpuInfo memoryInfo
      (gpu_arg (head gpuInfo)) (storage_arg (head storageInfo)) in
  {| hardwareFingerprint :=
       substring0 16
         (toString_base64
            (Buffer_from (fingerprintData cpuInfo memoryInfo gpuInfo systemInfo)));
     hardwareSpecs :=
       {| cpu := cpuInfo;
          memory := memoryInfo;
          gpu := default no_gpu (head gpuInfo);
          storage :=
            {| totalSpaceGB :=
                 foldl (fun sum disk => (sum + sizeGB disk)%Z) 0%Z storageInfo;
               availableSpaceGB := available_GB (a_fsSize x);
               storageType := default SSD (drive_type <$> head storageInfo);
               drives := storageInfo |};
          system := systemInfo |};
     performanceScores := performanceScores;
     hardwareTier := calculateHardwareTier (inject_Z (overallScore performanceScores));
     analysisTimestamp := clock_analysis env;
     networkInterfaces :=
       network_of <$> filter (fun iface0 => internal iface0 = false)
                        (a_networkInterfaces x);
     battery := battery_of <$> a_battery x |}.

(** The string that the fingerprint of this analysis encodes. *)
Definition fingerprintData_of (x : Answers) (env : Env) : string :=
  fingerprintData
    (cpuInfo_of (a_cpu x) (a_load x) (a_cpuTemp x) env)
    (memoryInfo_of (a_memory x) (a_memLayout x))
    (gpuInfo_of (a_graphics x))
    (systemInfo_of (a_osInfo x) (a_system x) env).




End Pipeline.

(** ** The simpler variant of the detector

    The repository holds a second [HardwareDetector] with shorter
    classifiers; this is its GPU type classifier. *)

Module SimpleDetector.
Import JS HardwareDetector.

Definition determineGPUType (model vendor : option string) : GPUType :=
  if str_not model then integrated
  else
    let modelLower := toLowerCase (str_or model "") in
    let vendorLower := toLowerCase (str_or vendor "") in
    (* Dedicated GPU indicators *)
    if includes modelLower "geforce" || includes modelLower "rtx"
       || includes modelLower "gtx" then dedicated
    else if includes modelLower "radeon" && negb (includes modelLower "graphics")
         then dedicated
    else if includes modelLower "arc" then dedicated
    else if includes vendorLower "nvidia" && negb (includes modelLower "integrated")
         then dedicated
    (* Apple Silicon *)
    else if includes modelLower "apple" || includes modelLower "m1"
            || includes modelLower "m2" || includes modelLower "m3"
         then apple_unified
    else integrated.

Definition extractGPUBrand (vendor : option string) : string :=
  match vendor with
  | Some EmptyString | None => "Unknown"
  | Some vendor =>
    let vendorLower := toLowerCase vendor in
    if includes vendorLower "nvidia" then "NVIDIA"
    else if includes vendorLower "amd" || includes vendorLower "ati" then "AMD"
    else if includes vendorLower "intel" then "Intel"
    else if includes vendorLower "apple" then "Apple"
    else vendor
  end.

End SimpleDetector.

(** ** The realtime sample of the detector *)

Module Realtime.
Import JS Async HardwareDetector.
Local Open Scope Q_scope.

(** What [getRealtimeStats] reads of the answers of [si.currentLoad()] and
    of [si.graphics()]; the loads are numbers. *)
Record SiCore := { load : Q }.

Record SiCurrentLoad := {
  load_currentLoad : option Q;
  cpus : option (list SiCore)
}.

Record SiController := {
  controller_model : option string;
  controller_temperatureGpu : option Q;
  controller_utilizationGpu : option Q;
  controller_utilizationMemory : option Q
}.

(** The four calls [getRealtimeStats] awaits, with the way they settle, and
    the reading of the clock. *)
Record Queries := {
  q_currentLoad : Settled SiCurrentLoad;
  q_mem : Settled SiMem;
  q_cpuTemperature : Settled SiTemperature;
  q_graphics : Settled (list SiController);  (* its [controllers] *)
  q_clock : string
}.

Record CpuStats := {
  usage : Z;
  temperature : Q;
  stats_cores : list Z
}.

(** [usagePercentage] is not a finite number when [total] is zero; it is
    absent then. *)
Record MemoryStats := {
  usagePercentage : option Z;
  usedGB : Z;
  availableGB : Z
}.

Record GpuStats := {
  stats_model : option string;
  stats_temperature : Q;
  utilizationGpu : Q;
  utilizationMemory : Q
}.

Record RealtimeStats := {
  timestamp : string;
  stats_cpu : CpuStats;
  stats_memory : MemoryStats;
  stats_gpu : list GpuStats
}.

(** [Math.round((used / total) * 100)]. *)
Definition percentage (used total : Q) : option Z :=
  if Qeq_bool total 0 then None else Some (Math_round (used / total * 100)).

(** The sample, or [null]. *)
Definition getRealtimeStats (si : Queries) : M Detector (option RealtimeStats) :=
  try_catch
    ('(currentLoad, (memory, (cpuTemp, gpu))) ←
       await
         (Promise_all (q_currentLoad si) (Promise_all (q_mem si)
         (Promise_all (q_cpuTemperature si) (q_graphics si))));
     mret
       (Some
          {| timestamp := q_clock si;
             stats_cpu :=
               {| usage := round_or_0 (load_currentLoad currentLoad);
                  temperature := num_or (main cpuTemp) 0;
                  stats_cores :=
                    match cpus currentLoad with
                    | Some cores => (fun core => Math_round (load core)) <$> cores
                    | None => []
                    end |};
             stats_memory :=
               {| usagePercentage := percentage (used memory) (total memory);
                  usedGB := Math_round (used memory / GiB);
                  availableGB := Math_round (available memory / GiB) |};
             stats_gpu :=
               (fun controller =>
                  {| stats_model := controller_model controller;
                     stats_temperature := num_or (controller_temperatureGpu controller) 0;
                     utilizationGpu := num_or (controller_utilizationGpu controller) 0;
                     utilizationMemory :=
                       num_or (controller_utilizationMemory controller) 0 |})
                 <$> gpu |}))
    (fun _ => mret None).

(** The messages of the rejected queries among the four. *)
Definition rejections (si : Queries) : list string :=
  rejected_message (q_currentLoad si) ++ rejected_message (q_mem si)
  ++ rejected_message (q_cpuTemperature si) ++ rejected_message (q_graphics si).

End Realtime.

(** ** The hardware routes of the API server

    The server holds one detector; the three hardware routes and the two
    places of the WebSocket part that read or run an analysis work on it.
    A handler is an [async] function of the detector that returns what it
    answers. *)

Module Routes.
Import JS Async HardwareDetector.

Inductive Data :=
| analysis_data (analysis : Analysis)
| stats_data (stats : option Realtime.RealtimeStats).

(** The body [{ success: true, data }] or [{ success: false, error }]. *)
Inductive Body :=
| success (data : Data)
| failure (error : string).

Record Response := { status : Z; body : Body }.

(** [res.json(body)] and [res.status(code).json(body)]. *)
Definition res_json (body : Body) : Response := {| status := 200; body := body |}.

Definition res_status_json (code : Z) (body : Body) : Response :=
  {| status := code; body := body |}.

(** [GET /api/hardware/analyze]. *)
Definition hardware_analyze (si : Collaborators) (env : Env) : M Detector Response :=
  try_catch
    (analysis ← detectHardware si env;
     mret (res_json (success (analysis_data analysis))))
    (fun message => mret (res_status_json 500 (failure message))).

(** [GET /api/hardware/info]. *)
Definition hardware_info : M Detector Response :=
  fun this =>
    match lastAnalysis this with
    | Some analysis => ret (res_json (success (analysis_data analysis))) this
    | None =>
        ret (res_status_json 404
               (failure "No hardware analysis available. Run /api/hardware/analyze first."))
          this
    end.

(** [GET /api/hardware/realtime]. *)
Definition hardware_realtime (si : Realtime.Queries) : M Detector Response :=
  try_catch
    (stats ← Realtime.getRealtimeStats si;
     mret (res_json (success (stats_data stats))))
    (fun message => mret (res_status_json 500 (failure message))).

(** A message the server sends on a socket in answer to the client. *)
Inductive WsMessage :=
| hardware_info_message (data : Analysis)
| error_message (message : string).

(** The [get_hardware] case of [handleWebSocketMessage] inside the [try] of
    the ['message'] handler. *)
Definition ws_get_hardware (si : Collaborators) (env : Env) : M Detector (list WsMessage) :=
  try_catch
    (hardware ← detectHardware si env;
     mret [hardware_info_message hardware])
    (fun message => mret [error_message message]).

(** The hardware part of [sendInitialData]. *)
Definition ws_initial_hardware : M Detector (list WsMessage) :=
  fun this =>
    match lastAnalysis this with
    | Some analysis => ret [hardware_info_message analysis] this
    | None => ret [] this
    end.

Inductive Request :=
| GET_analyze (si : Collaborators) (env : Env)
| GET_info
| GET_realtime (si : Realtime.Queries)
| WS_connection
| WS_get_hardware (si : Collaborators) (env : Env).

Inductive Reply :=
| Http (response : Response)
| Ws (messages : list WsMessage).

Definition handle (request : Request) : M Detector Reply :=
  match request with
  | GET_analyze si env => response ← hardware_analyze si env; mret (Http response)
  | GET_info => response ← hardware_info; mret (Http response)
  | GET_realtime si => response ← hardware_realtime si; mret (Http response)
  | WS_connection => messages ← ws_initial_hardware; mret (Ws messages)
  | WS_get_hardware si env => messages ← ws_get_hardware si env; mret (Ws messages)
  end.

(** The requests are handled one after the other, in the order in which
    their handlers finish. *)
Fixpoint serve (requests : list Request) (this : Detector) : Detector * list Reply :=
  match requests with
  | [] => (this, [])
  | request :: rest =>
      match handle request this with
      | (this', Returned reply) =>
          let '(this'', replies) := serve rest this' in (this'', reply :: replies)
      | (this', Thrown _) => serve rest this'
      end
  end.

(** The analysis that a reply carries. *)
Definition carried (reply : Reply) : option Analysis :=
  match reply with
  | Http {| body := success (analysis_data analysis) |} => Some analysis
  | Ws [hardware_info_message analysis] => Some analysis
  | _ => None
  end.

(** The analysis that the last reply with an analysis carries. *)
Definition last_carried (replies : list Reply) : option Analysis :=
  last (omap carried replies).

End Routes.

(** ** The Ollama monitor

    Class [OllamaMonitor].  The answers of the Ollama server and of the
    process list are inputs; a request that carries a model name or a prompt
    is a function of them.  The responses are well formed: [response.data]
    is an object. *)

Module OllamaMonitor.
Import JS Async.

(** An error of axios, as the monitor reads it. *)
Record AxiosError := { code : option string; message : option string }.

Inductive Answer (T : Type) :=
| Resolved (value : T)
| Failed (error : AxiosError).
Arguments Resolved {T} value.
Arguments Failed {T} error.

(** A value of a JSON request body, or of a route parameter; [undefined]
    is a property that the body does not have. *)
#[warnings="-register-all"] Inductive Value :=
| undefined
| null
| boolean (b : bool)
| number (n : Q)
| text (s : string)
| array (items : list Value)
| object (properties : list (string * Value)).




(** [value[name]], for a name that no prototype defines: the property of
    an object, the last one of that name as [JSON.parse] keeps it, and
    [undefined] where there is none. *)
Definition get (name : string) (value : Value) : Value :=
  match value with
  | object properties =>
      foldl (fun found property =>
               if String.eqb property.1 name then property.2 else found)
            undefined properties
  | _ => undefined
  end.



(** A model of [GET /api/tags]. *)
Record Model := {
  name : string;
  size : Q;
  modified_at : string;
  digest : string
}.

Record TagsData := { models : option (list Model) }.
Record VersionData := { version : option string }.
Record GenerateData := { response : option string }.

(** What the monitor reads of the world. *)
Record World := {
  OLLAMA_HOST : option string;
  process_platform : string;
  get_tags : Answer TagsData;
  get_version : Settled VersionData;
  execAsync : Settled string;                       (* its [stdout] *)
  post_pull : Value -> Settled unit;
  delete_delete : Value -> Settled unit;
  post_generate : Value -> Value -> Settled GenerateData;
  clock : string;
  Date_now_start : Z;
  Date_now_end : Z
}.

Record ProcessInfo := {
  isRunning : bool;
  processCount : option nat;
  process_error : option string;
  details : string
}.

Record ErrorInfo := {
  error_type : string;
  error_message : string;
  suggestion : string
}.

Record InstalledModel := {
  installed_name : string;
  installed_size : Q;
  modifiedAt : string;
  installed_digest : string
}.

(** The status object; the fields that one of its two shapes does not
    have are absent. *)
Record Status := {
  status_isRunning : bool;
  isReachable : bool;
  host : string;
  status_version : option string;
  modelsCount : option nat;
  installedModels : option (list InstalledModel);
  status_error : option ErrorInfo;
  processInfo : ProcessInfo;
  lastChecked : string
}.

(** The instance state of the class. *)
Record Monitor := {
  ollamaHost : string;
  lastStatus : option Status
}.

Definition constructor (w : World) : Monitor :=
  {| ollamaHost := str_or (OLLAMA_HOST w) "http://localhost:11434";
     lastStatus := None |}.

(** White space and line terminators among the code units up to U+00FF. *)
Definition is_space (c : ascii) : bool :=
  let n := N_of_ascii c in
  ((9 <=? n) && (n <=? 13) || (n =? 32) || (n =? 160))%N.

Fixpoint trimStart (s : string) : string :=
  match s with
  | EmptyString => EmptyString
  | String c s' => if is_space c then trimStart s' else s
  end.

Fixpoint trimEnd (s : string) : string :=
  match s with
  | EmptyString => EmptyString
  | String c s' =>
      match trimEnd s' with
      | EmptyString => if is_space c then EmptyString else String c EmptyString
      | rest => String c rest
      end
  end.

(** [s.trim()]. *)
Definition trim (s : string) : string := trimEnd (trimStart s).

Definition newline : ascii := ascii_of_N 10.

(** [s.split('\n')]: the parts between the line feeds, at least one. *)
Fixpoint split_lines (s : string) : list string :=
  match s with
  | EmptyString => [EmptyString]
  | String c s' =>
      if Ascii.eqb c newline then EmptyString :: split_lines s'
      else match split_lines s' with
           | line :: lines => String c line :: lines
           | [] => [String c EmptyString]
           end
  end.

Definition getOllamaProcessInfo (w : World) : M Monitor ProcessInfo :=
  try_catch
    (stdout ← await (execAsync w);
     if String.eqb (process_platform w) "win32" then
       let isRunning := includes (toLowerCase stdout) "ollama.exe" in
       mret {| isRunning := isRunning;
               processCount := None;
               process_error := None;
               details := if isRunning then "Ollama process found in Windows task list"
                          else "No Ollama process found" |}
     else
       let processes :=
         List.filter (fun line => includes line "ollama") (split_lines (trim stdout)) in
       let isRunning := (0 <? length processes)%nat in
       mret {| isRunning := isRunning;
               processCount := Some (length processes);
               process_error := None;
               details :=
                 if isRunning
                 then ("Found " ++ Number_toString (Z.of_nat (length processes))
                       ++ " Ollama process(es)")%string
                 else "No Ollama processes found" |})
    (fun message =>
       mret {| isRunning := false;
               processCount := None;
               process_error := Some "Could not check process status";
               details := message |}).

(** [error.code === name]. *)
Definition code_is (error : AxiosError) (name : string) : bool :=
  match code error with
  | Some c => String.eqb c name
  | None => false
  end.

Definition categorizeError (error : AxiosError) : ErrorInfo :=
  if code_is error "ECONNREFUSED" then
    {| error_type := "CONNECTION_REFUSED";
       error_message := "Ollama is not running or not accepting connections";
       suggestion := "Try starting Ollama with: ollama serve" |}
  else if code_is error "ENOTFOUND" then
    {| error_type := "HOST_NOT_FOUND";
       error_message := "Cannot resolve Ollama host";
       suggestion := "Check your OLLAMA_HOST environment variable" |}
  else if code_is error "ETIMEDOUT" then
    {| error_type := "TIMEOUT";
       error_message := "Connection to Ollama timed out";
       suggestion := "Ollama may be starting up or overloaded" |}
  else
    {| error_type := "UNKNOWN";
       error_message := str_or (message error) "Unknown error occurred";
       suggestion := "Check Ollama installation and try restarting" |}.

Definition set_lastStatus (status : Status) : M Monitor unit :=
  assign (fun this => {| ollamaHost := ollamaHost this; lastStatus := Some status |}).

Definition checkOllamaStatus (w : World) : M Monitor Status :=
  fun this =>
    match get_tags w with
    | Resolved data =>
        (let models := default [] (models data) in
         (* system info from Ollama *)
         let systemInfo :=
           match get_version w with
           | Fulfilled info => Some info
           | Rejected _ _ => None
           end in
         (* is the Ollama process running *)
         processInfo ← getOllamaProcessInfo w;
         let status :=
           {| status_isRunning := true;
              isReachable := true;
              host := ollamaHost this;
              status_version := Some (str_or (systemInfo ≫= version) "Unknown");
              modelsCount := Some (length models);
              installedModels :=
                Some ((fun model =>
                         {| installed_name := name model;
                            installed_size := size model;
                            modifiedAt := modified_at model;
                            installed_digest := digest model |}) <$> models);
              status_error := None;
              processInfo := processInfo;
              lastChecked := clock w |} in
         set_lastStatus status;;
         mret status) this
    | Failed error =>
        ((* does the process exist although the API is not reachable *)
         processInfo ← getOllamaProcessInfo w;
         let status :=
           {| status_isRunning := isRunning processInfo;
              isReachable := false;
              host := ollamaHost this;
              status_version := None;
              modelsCount := None;
              installedModels := None;
              status_error := Some (categorizeError error);
              processInfo := processInfo;
              lastChecked := clock w |} in
         set_lastStatus status;;
         mret status) this
    end.



(** The result of [installModel] and of [deleteModel]. *)
Record ModelResult := {
  success : bool;
  result_model : Value;
  result_message : option string;
  result_error : option string
}.



(** The result of [testModelGeneration]; [tokensPerSecond], a formatted
    number, is left out. *)
Record TestResult := {
  test_success : bool;
  test_model : Value;
  responseTime : option Z;
  test_response : option string;
  tokensGenerated : option nat;
  test_error : option string
}.



(** *** The Ollama routes of the API server *)

Inductive Data :=
| status_data (status : Status)
| model_data (result : ModelResult)
| test_data (result : TestResult).

(** The body [{ success, data }] or [{ success, error }]. *)
Record Body := {
  body_success : bool;
  body_data : option Data;
  body_error : option string
}.

Record Response := { status : Z; body : Body }.

Definition res_json (body : Body) : Response := {| status := 200; body := body |}.

Definition res_status_json (code : Z) (body : Body) : Response :=
  {| status := code; body := body |}.

Definition failure (error : option string) : Body :=
  {| body_success := false; body_data := None; body_error := error |}.

(** [GET /api/ollama/status]. *)
Definition ollama_status (w : World) : M Monitor Response :=
  try_catch
    (status ← checkOllamaStatus w;
     mret (res_json {| body_success := true;
                       body_data := Some (status_data status);
                       body_error := None |}))
    (fun message => mret (res_status_json 500 (failure (Some message)))).




End OllamaMonitor.

(** ** What the server sends on a socket in answer to its client

    The handlers of one socket work on the detector and the monitor of the
    server; [sent] lists the calls of [ws.send] on this socket, oldest
    first. *)

Module Socket.
Import JS Async HardwareDetector.

Inductive Message :=
| hardware_info (data : Analysis)
| ollama_status (data : OllamaMonitor.Status)
| error (message : string).

Record Server := {
  hardwareDetector : Detector;
  ollamaMonitor : OllamaMonitor.Monitor;
  sent : list Message
}.

Definition ws_send (message : Message) : M Server unit :=
  assign (fun this =>
            {| hardwareDetector := hardwareDetector this;
               ollamaMonitor := ollamaMonitor this;
               sent := sent this ++ [message] |}).

(** A method of the detector, and of the monitor, called on the server's. *)
Definition on_detector {A} (m : M Detector A) : M Server A :=
  fun this =>
    let '(detector, outcome) := m (hardwareDetector this) in
    ({| hardwareDetector := detector;
        ollamaMonitor := ollamaMonitor this;
        sent := sent this |}, outcome).

Definition on_monitor {A} (m : M OllamaMonitor.Monitor A) : M Server A :=
  fun this =>
    let '(monitor, outcome) := m (ollamaMonitor this) in
    ({| hardwareDetector := hardwareDetector this;
        ollamaMonitor := monitor;
        sent := sent this |}, outcome).


(** The cases of [handleWebSocketMessage] by what they send; the two
    realtime cases, which are the loop's, send nothing. *)
Definition handleWebSocketMessage
    (si : Collaborators) (env : Env) (w : OllamaMonitor.World)
    (data : ApiServer.ClientMessage) : M Server unit :=
  match data with
  | ApiServer.start_realtime => mret tt
  | ApiServer.stop_realtime => mret tt
  | ApiServer.get_hardware =>
      hardware ← on_detector (detectHardware si env);
      ws_send (hardware_info hardware)
  | ApiServer.get_ollama_status =>
      status ← on_monitor (OllamaMonitor.checkOllamaStatus w);
      ws_send (ollama_status status)
  | ApiServer.other_type type =>
      ws_send (error ("Unknown message type: " ++ type)%string)
  end.


End Socket.

(** ** Facts of the states the server reaches *)

Module Reached.
Import ApiServer.

(** The clients are distinct sockets, every open socket the server knows is
    one of them, and the server holds a timer only while it has a client. *)
Definition clients_attached (s : State) : Prop :=
  NoDup (clients s)
  /\ (forall ws, ws ∈ open_sockets s -> ws ∈ clients s)
  /\ (realtimeInterval s <> None -> clients s <> []).

(** A socket that has connected and is not open any more. *)
Definition not_open (ws : Ws) (s : State) : Prop :=
  (ws ∉ open_sockets s) /\ (ws < next_ws s)%nat.

(** The deliveries of one broadcast of [messageStr] to the socket [ws]. *)
Definition delivery (ws : Ws) (messageStr : Stats) (s : State) : list (Ws * Stats) :=
  if bool_decide (ws ∈ clients s /\ ws ∈ open_sockets s) then [(ws, messageStr)]
  else [].

End Reached.

(** ** More concrete facts *)

Module Cases.
Import JS Async HardwareDetector.

(** Facts whose weighted sum is a tie: 8 logical cores at 2.5 GHz with 2 MB
    of cache, 8 GB at 800 MHz, a dedicated GPU with 2 GB, an HDD; the
    sub-scores are 66, 40, 68 and 60, the weighted sum is 59.5. *)
Definition cpu_tie : CpuInfo :=
  {| cpu_brand := "Unknown"; cpu_model := "Unknown"; physicalCores := 4;
     logicalCores := 8; baseFrequencyGHz := 2.5%Q; maxFrequencyGHz := 0%Q;
     architecture := "x64"; cacheSizeMB := 2; currentUsage := 0;
     cpu_temperature := 0%Q |}.

Definition memory_tie : MemoryInfo :=
  {| totalMemoryGB := 8; availableMemoryGB := 4; usedMemoryGB := 4;
     memorySpeedMHz := 800%Q; modules := 1 |}.

Definition gpu_tie : GpuArg := {| gpu_type := Some dedicated; gpu_vramGB := 2 |}.

Definition hdd : StorageArg := {| storage_type := Some HDD |}.






(** An integrated Intel GPU as a Linux inventory names its vendor. *)
Definition intel_corporation : string := "Intel Corporation".

(** The inventory of the examples without a controller, and with one
    controller that calls itself as the analysis calls a missing GPU. *)
Definition with_graphics (graphics : list Controller) : Collaborators :=
  {| si_cpu := si_cpu Examples.inventory_ok;
     si_mem := si_mem Examples.inventory_ok;
     si_graphics := Fulfilled graphics;
     si_osInfo := si_osInfo Examples.inventory_ok;
     si_system := si_system Examples.inventory_ok;
     si_diskLayout := si_diskLayout Examples.inventory_ok;
     si_networkInterfaces := si_networkInterfaces Examples.inventory_ok;
     si_battery := si_battery Examples.inventory_ok;
     si_currentLoad := si_currentLoad Examples.inventory_ok;
     si_cpuTemperature := si_cpuTemperature Examples.inventory_ok;
     si_memLayout := si_memLayout Examples.inventory_ok;
     si_fsSize := si_fsSize Examples.inventory_ok |}.

Definition no_controller : Collaborators := with_graphics [].

Definition named_integrated : Collaborators :=
  with_graphics [Examples.controller "Integrated Graphics" "Intel" None].

Definition no_controller_analysis : Analysis.
Proof.
  let outcome :=
    eval vm_compute in
      (detectHardware no_controller Examples.env HardwareDetector.constructor).2 in
  match outcome with
  | Returned ?a => exact a
  end.
Defined.

Definition named_integrated_analysis : Analysis.
Proof.
  let outcome :=
    eval vm_compute in
      (detectHardware named_integrated Examples.env HardwareDetector.constructor).2 in
  match outcome with
  | Returned ?a => exact a
  end.
Defined.

(** The inventory of the examples with an NVMe drive as [si.diskLayout()]
    names its type. *)
Definition nvme : Collaborators :=
  {| si_cpu := si_cpu Examples.inventory_ok;
     si_mem := si_mem Examples.inventory_ok;
     si_graphics := si_graphics Examples.inventory_ok;
     si_osInfo := si_osInfo Examples.inventory_ok;
     si_system := si_system Examples.inventory_ok;
     si_diskLayout :=
       Fulfilled [{| disk_type := "NVMe"; disk_size := 1000000000000%Q;
                     name := "WD Black"; interfaceType := "PCIe" |}];
     si_networkInterfaces := si_networkInterfaces Examples.inventory_ok;
     si_battery := si_battery Examples.inventory_ok;
     si_currentLoad := si_currentLoad Examples.inventory_ok;
     si_cpuTemperature := si_cpuTemperature Examples.inventory_ok;
     si_memLayout := si_memLayout Examples.inventory_ok;
     si_fsSize := si_fsSize Examples.inventory_ok |}.

Definition nvme_analysis : Analysis.
Proof.
  let outcome :=
    eval vm_compute in
      (detectHardware nvme Examples.env HardwareDetector.constructor).2 in
  match outcome with
  | Returned ?a => exact a
  end.
Defined.

(** Another machine with 8 logical cores and 32 GB: a workstation card,
    Windows, an HDD. *)
Definition workstation : Collaborators :=
  {| si_cpu :=
       Fulfilled
         {| si_cpu_brand := Some "AMD"; si_cpu_model := Some "Ryzen 7";
            si_cpu_physicalCores := Some 8; cores := 8; speed := Some 3.6%Q;
            speedMax := Some 4.4%Q; family := Some "23"; cache := None |};
     si_mem := Fulfilled {| total := 34359738368%Q; available := 8589934592%Q;
                            used := 25769803776%Q |};
     si_graphics := Fulfilled [Examples.controller "NVIDIA Quadro P400" "NVIDIA" None];
     si_osInfo := Fulfilled {| platform := "win32"; release := "10.0"; arch := "x64" |};
     si_system := Fulfilled {| si_manufacturer := "HP"; si_system_model := "Z2" |};
     si_diskLayout :=
       Fulfilled [{| disk_type := "HD"; disk_size := 2000000000000%Q;
                     name := "Seagate"; interfaceType := "SATA" |}];
     si_networkInterfaces := Fulfilled [];
     si_battery := Fulfilled None;
     si_currentLoad := Fulfilled {| currentLoad := None |};
     si_cpuTemperature := Fulfilled {| main := None |};
     si_memLayout := Fulfilled [];
     si_fsSize := Fulfilled [] |}.

Definition workstation_analysis : Analysis.
Proof.
  let outcome :=
    eval vm_compute in
      (detectHardware workstation Examples.env_later HardwareDetector.constructor).2 in
  match outcome with
  | Returned ?a => exact a
  end.
Defined.

(** The answers that the analyses of the two machines read. *)
Definition answers_ok : Pipeline.Answers :=
  {| Pipeline.a_cpu :=
       {| si_cpu_brand := Some "Intel"; si_cpu_model := None;
          si_cpu_physicalCores := Some 4; cores := 8; speed := Some 3.0%Q;
          speedMax := None; family := None;
          cache := Some {| l1d := Some 0%Q; l1i := Some 0%Q; l2 := Some 0%Q;
                           l3 := Some 16777216%Q |} |};
     Pipeline.a_memory := {| total := 34359738368%Q; available := 17179869184%Q;
                             used := 17179869184%Q |};
     Pipeline.a_graphics :=
       [Examples.uhd630;
        Examples.controller "NVIDIA GeForce RTX 3070" "NVIDIA" (Some 16%Q)];
     Pipeline.a_osInfo := {| platform := "linux"; release := "6.1"; arch := "x64" |};
     Pipeline.a_system := {| si_manufacturer := "Dell"; si_system_model := "XPS" |};
     Pipeline.a_diskLayout :=
       [{| disk_type := "SSD"; disk_size := 512000000000%Q;
           name := "Samsung"; interfaceType := "NVMe" |}];
     Pipeline.a_networkInterfaces :=
       [{| iface := "lo"; iface_type := "virtual"; iface_speed := None;
           internal := true |};
        {| iface := "eth0"; iface_type := "wired";
           iface_speed := Some 1000%Q; internal := false |}];
     Pipeline.a_battery := None;
     Pipeline.a_load := {| currentLoad := Some 12.5%Q |};
     Pipeline.a_cpuTemp := {| main := None |};
     Pipeline.a_memLayout := [{| clockSpeed := Some 3200%Q |}];
     Pipeline.a_fsSize := Rejected 0 "no file systems" |}.

Definition answers_workstation : Pipeline.Answers :=
  {| Pipeline.a_cpu :=
       {| si_cpu_brand := Some "AMD"; si_cpu_model := Some "Ryzen 7";
          si_cpu_physicalCores := Some 8; cores := 8; speed := Some 3.6%Q;
          speedMax := Some 4.4%Q; family := Some "23"; cache := None |};
     Pipeline.a_memory := {| total := 34359738368%Q; available := 8589934592%Q;
                             used := 25769803776%Q |};
     Pipeline.a_graphics := [Examples.controller "NVIDIA Quadro P400" "NVIDIA" None];
     Pipeline.a_osInfo := {| platform := "win32"; release := "10.0"; arch := "x64" |};
     Pipeline.a_system := {| si_manufacturer := "HP"; si_system_model := "Z2" |};
     Pipeline.a_diskLayout :=
       [{| disk_type := "HD"; disk_size := 2000000000000%Q;
           name := "Seagate"; interfaceType := "SATA" |}];
     Pipeline.a_networkInterfaces := [];
     Pipeline.a_battery := None;
     Pipeline.a_load := {| currentLoad := None |};
     Pipeline.a_cpuTemp := {| main := None |};
     Pipeline.a_memLayout := [];
     Pipeline.a_fsSize := Fulfilled [] |}.

(** A machine on which the process list names Ollama with a capital
    letter only, and whose Ollama server refuses connections. *)
Definition mac : OllamaMonitor.World :=
  {| OllamaMonitor.OLLAMA_HOST := None;
     OllamaMonitor.process_platform := "darwin";
     OllamaMonitor.get_tags :=
       OllamaMonitor.Failed
         {| OllamaMonitor.code := Some "ECONNREFUSED";
            OllamaMonitor.message := Some "connect ECONNREFUSED 127.0.0.1:11434" |};
     OllamaMonitor.get_version := Rejected 0 "connect ECONNREFUSED 127.0.0.1:11434";
     OllamaMonitor.execAsync :=
       Fulfilled "user  501  0.0  /Applications/Ollama.app/Contents/MacOS/Ollama
";
     OllamaMonitor.post_pull := fun _ => Rejected 0 "connect ECONNREFUSED 127.0.0.1:11434";
     OllamaMonitor.delete_delete :=
       fun _ => Rejected 0 "connect ECONNREFUSED 127.0.0.1:11434";
     OllamaMonitor.post_generate :=
       fun _ _ => Rejected 0 "connect ECONNREFUSED 127.0.0.1:11434";
     OllamaMonitor.clock := "2024-01-01T00:00:00.000Z";
     OllamaMonitor.Date_now_start := 1704067200000;
     OllamaMonitor.Date_now_end := 1704067200005 |}.




(** A sample taken while 12 of 32 GB are in use. *)
Definition queries : Realtime.Queries :=
  {| Realtime.q_currentLoad :=
       Fulfilled {| Realtime.load_currentLoad := Some 12.5%Q;
                    Realtime.cpus := Some [{| Realtime.load := 10.4%Q |};
                                           {| Realtime.load := 14.6%Q |}] |};
     Realtime.q_mem := Fulfilled {| total := 34359738368%Q; available := 21474836480%Q;
                                    used := 12884901888%Q |};
     Realtime.q_cpuTemperature := Fulfilled {| main := Some 51%Q |};
     Realtime.q_graphics := Fulfilled [];
     Realtime.q_clock := "2024-01-01T00:00:02.000Z" |}.

(** The same when the temperature cannot be read. *)
Definition queries_failing : Realtime.Queries :=
  {| Realtime.q_currentLoad := Realtime.q_currentLoad queries;
     Realtime.q_mem := Realtime.q_mem queries;
     Realtime.q_cpuTemperature := Rejected 1 "sensors unavailable";
     Realtime.q_graphics := Realtime.q_graphics queries;
     Realtime.q_clock := Realtime.q_clock queries |}.

End Cases.

Import JS Async HardwareDetector.


(** ** The primitives are what they stand for *)

Section Primitives.

Lemma prefix_app (t s : string) :
  String.prefix t s = true <-> exists post, s = (t ++ post)%string.
Proof.
  revert s. induction t as [|c t IH]; intros [|c' s]; cbn.
  - split; [intros _; now exists "" | reflexivity].
  - split; [intros _; now exists (String c' s) | reflexivity].
  - split; [discriminate | intros [post [=]]].
  - destruct (ascii_dec c c') as [<-|Hne].
    + rewrite IH. split; intros [post E]; exists post; [now rewrite E | now injection E].
    + split; [discriminate|]. intros [post [= E _]]. now destruct Hne.
Qed.

(** [includes s t] holds exactly when [t] is a contiguous part of [s]. *)
Lemma includes_substring (s t : string) :
  includes s t = true <-> exists pre post, s = (pre ++ t ++ post)%string.
Proof.
  induction s as [|c s IH]; cbn [includes].
  - destruct (String.prefix t "") eqn:E.
    + split; [intros _|reflexivity].
      apply prefix_app in E as [post E]. now exists "", post.
    + split; [discriminate|]. intros (pre & post & H).
      destruct pre; [|discriminate H].
      assert (String.prefix t "" = true) as E' by (apply prefix_app; now exists post).
      congruence.
  - destruct (String.prefix t (String c s)) eqn:E.
    + split; [intros _|reflexivity].
      apply prefix_app in E as [post E]. now exists "", post.
    + rewrite IH. split.
      * intros (pre & post & ->). now exists (String c pre), post.
      * intros (pre & post & H). destruct pre as [|c' pre].
        -- assert (String.prefix t (String c s) = true) as E'
             by (apply prefix_app; now exists post).
           congruence.
        -- injection H as _ ->. now exists pre, post.
Qed.

Lemma sort_insert_Permutation {A} (compare : A -> A -> Z) x l :
  sort_insert compare x l ≡ₚ x :: l.
Proof.
  induction l as [|y l IH]; cbn [sort_insert]; [reflexivity|].
  destruct (compare x y <=? 0); [reflexivity|].
  rewrite IH. apply Permutation_swap.
Qed.

(** The sort rearranges the array and nothing else. *)
Lemma Array_sort_Permutation {A} (compare : A -> A -> Z) l :
  Array_sort compare l ≡ₚ l.
Proof.
  induction l as [|x l IH]; [reflexivity|].
  unfold Array_sort in *. cbn [foldr]. now rewrite sort_insert_Permutation, IH.
Qed.

End Primitives.

(** ** Rounding and clamping *)

Section Rounding.
Local Open Scope Q_scope.

Lemma Qfloor_unique (x : Q) (n : Z) :
  inject_Z n <= x -> x < inject_Z n + 1 -> Qfloor x = n.
Proof.
  intros Hlo Hhi.
  pose proof (Qfloor_le x) as Hf. pose proof (Qlt_floor x) as Hc.
  rewrite inject_Z_plus in Hc. change (inject_Z 1) with 1 in Hc.
  assert (inject_Z (Qfloor x) < inject_Z (n + 1)) as H1
    by (rewrite inject_Z_plus; change (inject_Z 1) with 1; lra).
  assert (inject_Z n < inject_Z (Qfloor x + 1)) as H2
    by (rewrite inject_Z_plus; change (inject_Z 1) with 1; lra).
  rewrite <- Zlt_Qlt in H1, H2. lia.
Qed.

Lemma Math_round_half_up (x : Q) : Math_round x = Spec.round_half_up x.
Proof.
  unfold Math_round, Spec.round_half_up.
  pose proof (Qfloor_le x) as Hf. pose proof (Qlt_floor x) as Hc.
  rewrite inject_Z_plus in Hc. change (inject_Z 1) with 1 in Hc.
  destruct (Qle_bool (1 # 2) (x - inject_Z (Qfloor x))) eqn:E.
  - apply Qle_bool_iff in E. apply Qfloor_unique.
    + rewrite inject_Z_plus. change (inject_Z 1) with 1. lra.
    + rewrite inject_Z_plus. change (inject_Z 1) with 1. lra.
  - assert (~ (1 # 2) <= x - inject_Z (Qfloor x)) as E'
      by (rewrite <- Qle_bool_iff, E; discriminate).
    apply Qfloor_unique; lra.
Qed.

Lemma Math_round_between (x : Q) (lo hi : Z) :
  inject_Z lo <= x -> x <= inject_Z hi -> (lo <= Math_round x <= hi)%Z.
Proof.
  intros Hlo Hhi. unfold Math_round.
  pose proof (Qfloor_le (x + (1 # 2))) as Hf.
  pose proof (Qlt_floor (x + (1 # 2))) as Hc.
  rewrite inject_Z_plus in Hc. change (inject_Z 1) with 1 in Hc.
  assert (inject_Z lo < inject_Z (Qfloor (x + (1 # 2)) + 1)) as H1
    by (rewrite inject_Z_plus; change (inject_Z 1) with 1; lra).
  assert (inject_Z (Qfloor (x + (1 # 2))) < inject_Z (hi + 1)) as H2
    by (rewrite inject_Z_plus; change (inject_Z 1) with 1; lra).
  rewrite <- Zlt_Qlt in H1, H2. lia.
Qed.

Lemma Math_round_integer (n : Z) : Math_round (inject_Z n) = n.
Proof.
  unfold Math_round. apply Qfloor_unique; lra.
Qed.

Lemma Math_round_mono (x y : Q) : x <= y -> (Math_round x <= Math_round y)%Z.
Proof.
  intros H. unfold Math_round. apply Qfloor_resp_le. lra.
Qed.

Lemma Math_round_eq (x y : Q) : x == y -> Math_round x = Math_round y.
Proof.
  intros H. apply Z.le_antisymm; apply Math_round_mono; lra.
Qed.

Lemma Math_round_at (x y : Q) (n : Z) :
  x == y -> Math_round y = n -> Math_round x = n.
Proof. intros E <-. now apply Math_round_eq. Qed.

Lemma Math_min_cases (x y : Q) :
  (x <= y /\ Math_min x y == x) \/ (y <= x /\ Math_min x y == y).
Proof.
  unfold Math_min.
  destruct (Q.min_spec x y) as [[H E] | [H E]]; [left | right]; split;
    try lra; rewrite E; reflexivity.
Qed.

End Rounding.

(** ** The performance scorer *)

(** Case analysis on every [Math.min] of the goal, each one then standing
    as a number of its own. *)
Ltac min_cases :=
  repeat match goal with
  | |- context [Math_min ?a ?b] =>
      let m := fresh "m" in
      let H := fresh "Hle" in
      let E := fresh "Emin" in
      destruct (Math_min_cases a b) as [[H E] | [H E]];
      remember (Math_min a b) as m;
      match goal with Hm : m = Math_min a b |- _ => clear Hm end
  end.

Section Scorer.
Local Open Scope Q_scope.

Lemma inject_Z_nonneg (n : Z) : (0 <= n)%Z -> 0 <= inject_Z n.
Proof. intros H. change 0 with (inject_Z 0). now rewrite <- Zle_Qle. Qed.

Lemma inject_Z_ge (k n : Z) : (k <= n)%Z -> inject_Z k <= inject_Z n.
Proof. intros H. now rewrite <- Zle_Qle. Qed.

Lemma weighted_sum_in_range (c m g s : Q) :
  0 <= c <= 100 -> 0 <= m <= 100 -> 0 <= g <= 100 -> 0 <= s <= 100 ->
  0 <= 0.35 * c + 0.25 * m + 0.30 * g + 0.10 * s <= 100.
Proof. intros. lra. Qed.

Lemma overallScore_unfold cpu memory gpu storage :
  overallScore (calculatePerformanceScores cpu memory gpu storage)
  = Math_round
      (Spec.cpuScore (inject_Z (logicalCores cpu)) (baseFrequencyGHz cpu)
                     (inject_Z (cacheSizeMB cpu)) * 0.35
       + Spec.memoryScore (inject_Z (totalMemoryGB memory)) (memorySpeedMHz memory)
         * 0.25
       + Spec.gpuScore (default integrated (gpu_type gpu)) (inject_Z (gpu_vramGB gpu))
         * 0.30
       + Spec.storageScore match storage_type storage with Some SSD => true | _ => false end
         * 0.10).
Proof.
  unfold calculatePerformanceScores, overallScore.
  unfold Spec.cpuScore, Spec.memoryScore, Spec.gpuScore, Spec.storageScore, Math_min.
  destruct (gpu_type gpu) as [[]|], (storage_type storage) as [[]|]; reflexivity.
Qed.

Lemma cpuScore_range (c f k : Q) :
  0 <= c -> 0 <= f -> 0 <= k -> 0 <= Spec.cpuScore c f k <= 100.
Proof.
  intros. unfold Spec.cpuScore. fold (Math_min 100 (c * 5 + f * 10 + k * 0.5)).
  min_cases; lra.
Qed.

Lemma memoryScore_range (t v : Q) :
  0 <= t -> 0 <= v -> 0 <= Spec.memoryScore t v <= 100.
Proof.
  intros. unfold Spec.memoryScore. fold (Math_min 100 (t * 4 + v / 100)).
  assert (0 <= v / 100) by (apply Qle_shift_div_l; lra).
  min_cases; lra.
Qed.

Lemma gpuScore_range (t : GPUType) (v : Q) :
  0 <= v -> 30 <= Spec.gpuScore t v <= 100.
Proof.
  intros. unfold Spec.gpuScore.
  match goal with |- context [Qmin 100 ?x] => fold (Math_min 100 x) end.
  destruct t; min_cases; lra.
Qed.

Lemma storageScore_range (b : bool) : 60 <= Spec.storageScore b <= 85.
Proof. destruct b; unfold Spec.storageScore; lra. Qed.

Lemma facts_in_range_non_negative cpu memory gpu :
  Spec.facts_in_range cpu memory gpu -> Spec.facts_non_negative cpu memory gpu.
Proof. intros []. split; auto; lia. Qed.

Lemma overallScore_bounds cpu memory gpu storage :
  Spec.facts_non_negative cpu memory gpu ->
  (15 <= overallScore (calculatePerformanceScores cpu memory gpu storage) <= 100)%Z.
Proof.
  intros [Hc Hf Hk Ht Hv Hg].
  apply inject_Z_nonneg in Hc, Hk, Ht, Hg.
  rewrite overallScore_unfold.
  pose proof (cpuScore_range _ _ _ Hc Hf Hk).
  pose proof (memoryScore_range _ _ Ht Hv).
  pose proof (gpuScore_range (default integrated (gpu_type gpu)) _ Hg).
  pose proof (storageScore_range
                match storage_type storage with Some SSD => true | _ => false end).
  apply Math_round_between;
    [change (inject_Z 15) with 15 | change (inject_Z 100) with 100]; lra.
Qed.

End Scorer.

(** ** Binary64: the error of one rounding and of the scorer's sums *)

Section Binary64Facts.
Local Open Scope Q_scope.

Lemma pow2_pos (e : Z) : 0 < Binary64.pow2 e.
Proof. apply Qpower_0_lt. reflexivity. Qed.

Lemma pow2_minus (a b : Z) :
  Binary64.pow2 (a - b) == Binary64.pow2 a / Binary64.pow2 b.
Proof. apply Qpower_minus. discriminate. Qed.

Lemma pow2_inject (a : Z) : (0 <= a)%Z -> Binary64.pow2 a == inject_Z (2 ^ a).
Proof. intros H. unfold Binary64.pow2. now rewrite Zpower_Qpower. Qed.

Lemma ilog2_lower (x : Q) : 0 < x -> Binary64.pow2 (Binary64.ilog2 x) <= x.
Proof.
  intros Hx. unfold Binary64.ilog2.
  destruct (Qle_bool (Binary64.pow2 (Z.log2 (Qnum x) - Z.log2 (Z.pos (Qden x)))) x)
    eqn:E.
  - now apply Qle_bool_iff.
  - clear E. destruct x as [n d]. cbn [Qnum Qden].
    assert (0 < n)%Z as Hn by (unfold Qlt in Hx; cbn in Hx; lia).
    replace (Z.log2 n - Z.log2 (Z.pos d) - 1)%Z
      with (Z.log2 n - (Z.log2 (Z.pos d) + 1))%Z by lia.
    pose proof (Z.log2_nonneg n) as Ha.
    pose proof (Z.log2_nonneg (Z.pos d)) as Hb.
    rewrite pow2_minus, !pow2_inject by lia.
    destruct (Z.log2_spec n Hn) as [Hn1 _].
    destruct (Z.log2_spec (Z.pos d) eq_refl) as [_ Hd2].
    replace (Z.succ (Z.log2 (Z.pos d))) with (Z.log2 (Z.pos d) + 1)%Z in Hd2 by lia.
    assert (0 < 2 ^ (Z.log2 (Z.pos d) + 1))%Z as HM by lia.
    remember (2 ^ Z.log2 n)%Z as A. remember (2 ^ (Z.log2 (Z.pos d) + 1))%Z as M.
    apply Qle_shift_div_r.
    + change 0 with (inject_Z 0). rewrite <- Zlt_Qlt. exact HM.
    + unfold Qle, Qmult, inject_Z. cbn [Qnum Qden]. nia.
Qed.

Lemma ilog2_upper (x : Q) : 0 < x -> x < Binary64.pow2 (Binary64.ilog2 x + 1).
Proof.
  intros Hx. unfold Binary64.ilog2.
  destruct (Qle_bool (Binary64.pow2 (Z.log2 (Qnum x) - Z.log2 (Z.pos (Qden x)))) x)
    eqn:E.
  - clear E. destruct x as [n d]. cbn [Qnum Qden].
    assert (0 < n)%Z as Hn by (unfold Qlt in Hx; cbn in Hx; lia).
    replace (Z.log2 n - Z.log2 (Z.pos d) + 1)%Z
      with (Z.log2 n + 1 - Z.log2 (Z.pos d))%Z by lia.
    pose proof (Z.log2_nonneg n) as Ha.
    pose proof (Z.log2_nonneg (Z.pos d)) as Hb.
    rewrite pow2_minus, !pow2_inject by lia.
    destruct (Z.log2_spec n Hn) as [_ Hn2].
    destruct (Z.log2_spec (Z.pos d) eq_refl) as [Hd1 _].
    replace (Z.succ (Z.log2 n)) with (Z.log2 n + 1)%Z in Hn2 by lia.
    assert (0 < 2 ^ Z.log2 (Z.pos d))%Z as HM by (apply Z.pow_pos_nonneg; lia).
    remember (2 ^ (Z.log2 n + 1))%Z as A. remember (2 ^ Z.log2 (Z.pos d))%Z as M.
    apply Qlt_shift_div_l.
    + change 0 with (inject_Z 0). rewrite <- Zlt_Qlt. exact HM.
    + unfold Qlt, Qmult, inject_Z. cbn [Qnum Qden]. nia.
  - replace (Z.log2 (Qnum x) - Z.log2 (Z.pos (Qden x)) - 1 + 1)%Z
      with (Z.log2 (Qnum x) - Z.log2 (Z.pos (Qden x)))%Z by lia.
    apply Qnot_le_lt. intros H. apply Qle_bool_iff in H. congruence.
Qed.

(** [ilog2 x] is the exponent of [x], whatever fraction denotes [x]. *)
Lemma ilog2_unique (x : Q) (k : Z) :
  Binary64.pow2 k <= x < Binary64.pow2 (k + 1) -> Binary64.ilog2 x = k.
Proof.
  intros [Hl Hu].
  assert (0 < x) as Hx by (pose proof (pow2_pos k); lra).
  pose proof (ilog2_lower x Hx) as Hl'. pose proof (ilog2_upper x Hx) as Hu'.
  destruct (Z.lt_trichotomy (Binary64.ilog2 x) k) as [H|[H|H]]; [|exact H|]; exfalso.
  - assert (Binary64.pow2 (Binary64.ilog2 x + 1) <= Binary64.pow2 k) as Hm
      by (apply Qpower_le_compat_l; [lia|discriminate]).
    lra.
  - assert (Binary64.pow2 (k + 1) <= Binary64.pow2 (Binary64.ilog2 x)) as Hm
      by (apply Qpower_le_compat_l; [lia|discriminate]).
    lra.
Qed.

Lemma ilog2_comp (x y : Q) : 0 < x -> x == y -> Binary64.ilog2 x = Binary64.ilog2 y.
Proof.
  intros Hx E. symmetry. apply ilog2_unique. rewrite <- E.
  split; [now apply ilog2_lower | now apply ilog2_upper].
Qed.

Lemma round_half_even_near (y : Q) :
  - (1 # 2) <= inject_Z (Binary64.round_half_even y) - y <= 1 # 2.
Proof.
  unfold Binary64.round_half_even.
  pose proof (Qfloor_le y) as H1. pose proof (Qlt_floor y) as H2.
  rewrite inject_Z_plus in H2. change (inject_Z 1) with 1 in H2.
  destruct (Qcompare (y - inject_Z (Qfloor y)) (1 # 2)) eqn:C.
  - apply Qeq_alt in C. destruct (Z.even (Qfloor y));
      rewrite ?inject_Z_plus; change (inject_Z 1) with 1; lra.
  - apply Qlt_alt in C. lra.
  - apply Qgt_alt in C. rewrite inject_Z_plus. change (inject_Z 1) with 1. lra.
Qed.

Lemma round_half_even_nonneg (y : Q) :
  0 <= y -> (0 <= Binary64.round_half_even y)%Z.
Proof.
  intros Hy. unfold Binary64.round_half_even.
  assert (0 <= Qfloor y)%Z as Hf
    by (change 0%Z with (Qfloor 0); now apply Qfloor_resp_le).
  destruct (Qcompare _ _); [destruct (Z.even _)| |]; lia.
Qed.

Lemma round_half_even_comp (x y : Q) :
  x == y -> Binary64.round_half_even x = Binary64.round_half_even y.
Proof.
  intros E. unfold Binary64.round_half_even. rewrite (Qfloor_comp _ _ E).
  assert (Qcompare (x - inject_Z (Qfloor y)) (1 # 2)
          = Qcompare (y - inject_Z (Qfloor y)) (1 # 2)) as ->
    by (apply Qcompare_comp; [now rewrite E | reflexivity]).
  reflexivity.
Qed.

(** The rounded number does not depend on the fraction that denotes the
    number rounded. *)
Lemma round64_comp (x y : Q) : x == y -> Binary64.round64 x = Binary64.round64 y.
Proof.
  intros E. unfold Binary64.round64.
  assert (Qeq_bool x 0 = Qeq_bool y 0) as E0.
  { destruct (Qeq_bool y 0) eqn:Ey.
    - apply Qeq_bool_iff. apply Qeq_bool_iff in Ey. now rewrite E.
    - destruct (Qeq_bool x 0) eqn:Ex; [|reflexivity].
      apply Qeq_bool_iff in Ex. apply Qeq_bool_neq in Ey. exfalso. apply Ey.
      now rewrite <- E. }
  rewrite E0. destruct (Qeq_bool y 0) eqn:Ey; [reflexivity|].
  assert (0 < Qabs x) as Hpos.
  { apply Qeq_bool_neq in Ey. pose proof (Qabs_nonneg x) as Hn.
    destruct (Qlt_le_dec 0 (Qabs x)) as [H|H]; [exact H|]. exfalso. apply Ey.
    rewrite <- E. assert (Qabs x == 0) as Ha by lra.
    revert Ha. apply Qabs_case; intros; lra. }
  rewrite (ilog2_comp (Qabs x) (Qabs y) Hpos (Qabs_wd _ _ E)).
  set (e := Z.max (Binary64.ilog2 (Qabs y) - 52) (-1074)).
  rewrite (round_half_even_comp (x / Binary64.pow2 e) (y / Binary64.pow2 e));
    [reflexivity|].
  now rewrite E.
Qed.

(** One rounding: the relative error is at most [2^-53], or the absolute
    error at most [2^-1075]. *)
Lemma round64_bounds (x : Q) :
  0 <= x ->
  0 <= Binary64.round64 x
  /\ x * (1 - Binary64.unit_roundoff) - Binary64.pow2 (-1075)
     <= Binary64.round64 x
     <= x * (1 + Binary64.unit_roundoff) + Binary64.pow2 (-1075).
Proof.
  intros Hx. unfold Binary64.round64. pose proof (pow2_pos (-1075)) as Heta.
  assert (Binary64.pow2 (-1074) / 2 == Binary64.pow2 (-1075)) as Hhalf by reflexivity.
  remember (Binary64.pow2 (-1075)) as eta eqn:Eeta. clear Eeta.
  destruct (Qeq_bool x 0) eqn:E0.
  - apply Qeq_bool_iff in E0. unfold Binary64.unit_roundoff. split; [lra|]. lra.
  - assert (0 < x) as Hpos.
    { apply Qeq_bool_neq in E0. destruct (Qlt_le_dec 0 x); [assumption|].
      exfalso. apply E0. lra. }
    assert (Qabs x = x) as ->.
    { destruct x as [n d]. unfold Qabs. f_equal. apply Z.abs_eq.
      unfold Qle in Hx. cbn in Hx. lia. }
    set (e := Z.max (Binary64.ilog2 x - 52) (-1074)).
    pose proof (pow2_pos e) as Hp.
    pose proof (round_half_even_near (x / Binary64.pow2 e)) as Hr.
    assert (0 <= x / Binary64.pow2 e) as Hy by (apply Qle_shift_div_l; lra).
    pose proof (round_half_even_nonneg _ Hy) as Hn.
    rewrite Zle_Qle in Hn. change (inject_Z 0) with 0 in Hn.
    assert (x / Binary64.pow2 e * Binary64.pow2 e == x) as Hxy by (field; lra).
    assert (Binary64.pow2 e / 2 <= x * Binary64.unit_roundoff + eta) as Hulp.
    { subst e.
      destruct (Z.max_spec (Binary64.ilog2 x - 52) (-1074)) as [[_ ->]|[_ ->]].
      - rewrite Hhalf. unfold Binary64.unit_roundoff. nra.
      - rewrite pow2_minus. pose proof (ilog2_lower x Hpos) as Hl.
        assert (Binary64.pow2 52 == 4503599627370496) as -> by reflexivity.
        remember (Binary64.pow2 (Binary64.ilog2 x)) as q.
        assert (q / 4503599627370496 / 2 == q * Binary64.unit_roundoff) as ->
          by (unfold Binary64.unit_roundoff; field).
        unfold Binary64.unit_roundoff in *. lra. }
    remember (inject_Z (Binary64.round_half_even (x / Binary64.pow2 e))) as r.
    remember (x / Binary64.pow2 e) as y. remember (Binary64.pow2 e) as p.
    clear - Hx Heta Hp Hr Hn Hxy Hulp.
    assert (p / 2 == p * (1 # 2)) as Hdiv by field. rewrite Hdiv in Hulp.
    assert (0 <= r * p) as H0 by nra.
    assert ((r - y) * p <= (1 # 2) * p) as H1 by nra.
    assert (- (1 # 2) * p <= (r - y) * p) as H2 by nra.
    assert ((r - y) * p == r * p - x) as H3 by (rewrite <- Hxy; ring).
    unfold Binary64.unit_roundoff in *. lra.
Qed.

Lemma round64_spec (x : Q) :
  0 <= x ->
  exists eta, 0 < eta <= 1 # 1000000000000000000000000000000
    /\ 0 <= Binary64.round64 x
    /\ x * (1 - Binary64.unit_roundoff) - eta
       <= Binary64.round64 x
       <= x * (1 + Binary64.unit_roundoff) + eta.
Proof.
  intros H. exists (Binary64.pow2 (-1075)). split.
  - split; [apply pow2_pos | vm_compute; discriminate].
  - now apply round64_bounds.
Qed.

End Binary64Facts.

(** The rounded value of a number that is not negative, as a number of its
    own with the bounds of [round64_spec]. *)
Ltac rounded x r :=
  let H0 := fresh "Hnn" in
  let Hb := fresh "Hb" in
  let eta := fresh "eta" in
  let He := fresh "He" in
  let E := fresh "E" in
  assert (0 <= x)%Q as H0 by (unfold Binary64.unit_roundoff in *; lra);
  destruct (round64_spec x H0) as (eta & He & ? & Hb);
  remember (Binary64.round64 x) as r eqn:E; clear E; clear H0.

(** The same for the product with a literal whose binary64 value [Hw]
    gives. *)
Ltac weighted x w Hw r :=
  let Eh := fresh "Eh" in
  let Hn := fresh "Hn" in
  let Hb := fresh "Hb" in
  let eta := fresh "eta" in
  let He := fresh "He" in
  let E := fresh "E" in
  assert (x * Binary64.round64 w == x * _)%Q as Eh by (rewrite Hw; reflexivity);
  assert (0 <= x * Binary64.round64 w)%Q as Hn by (rewrite Eh; lra);
  destruct (round64_spec _ Hn) as (eta & He & ? & Hb);
  remember (Binary64.round64 (x * Binary64.round64 w)) as r eqn:E; clear E;
  rewrite Eh in Hb; clear Eh Hn.

Section Binary64Scorer.
Local Open Scope Q_scope.

(** The binary64 values of the literals of the scorer; one tenth and two
    tenths do not add up to three tenths. *)
Lemma literal_values :
  Binary64.round64 0.5 == 1 # 2
  /\ Binary64.round64 0.35 == 3152519739159347 # 9007199254740992
  /\ Binary64.round64 0.25 == 1 # 4
  /\ Binary64.round64 0.30 == 5404319552844595 # 18014398509481984
  /\ Binary64.round64 0.10 == 3602879701896397 # 36028797018963968
  /\ Binary64.add (Binary64.literal 0.1) (Binary64.literal 0.2)
     == 5404319552844596 # 18014398509481984.
Proof. repeat split; vm_compute; reflexivity. Qed.

Lemma cpu_error (c f k : Q) :
  0 <= c -> 0 <= f -> 0 <= k ->
  let s :=
    Math_min 100
      (Binary64.add (Binary64.add (Binary64.mul c 5) (Binary64.mul f 10))
                    (Binary64.mul k (Binary64.round64 0.5))) in
  0 <= s <= 100
  /\ - (1 # 10000000000000) <= s - Spec.cpuScore c f k <= 1 # 10000000000000.
Proof.
  intros Hc Hf Hk. unfold Binary64.add, Binary64.mul, Spec.cpuScore. cbv zeta.
  fold (Math_min 100 (c * 5 + f * 10 + k * 0.5)).
  destruct literal_values as (Hhalf & _).
  rounded (c * 5) a1. rounded (f * 10) a2. weighted k 0.5 Hhalf a3.
  rounded (a1 + a2) s1. rounded (s1 + a3) s2.
  unfold Binary64.unit_roundoff in *. min_cases; split; lra.
Qed.

Lemma memory_error (t v : Q) :
  0 <= t -> 0 <= v ->
  let s := Math_min 100 (Binary64.add (Binary64.mul t 4) (Binary64.div v 100)) in
  0 <= s <= 100
  /\ - (1 # 10000000000000) <= s - Spec.memoryScore t v <= 1 # 10000000000000.
Proof.
  intros Ht Hv. unfold Binary64.add, Binary64.mul, Binary64.div, Spec.memoryScore.
  cbv zeta. fold (Math_min 100 (t * 4 + v / 100)).
  change (v / 100) with (v * (1 # 100)).
  rounded (t * 4) a1. rounded (v * (1 # 100)) a2. rounded (a1 + a2) s1.
  unfold Binary64.unit_roundoff in *. min_cases; split; lra.
Qed.

Lemma gpu_error (base factor g : Q) :
  0 <= g -> 0 <= base <= 60 -> 0 <= factor ->
  let s := Math_min 100 (Binary64.add base (Binary64.mul g factor)) in
  let e := Math_min 100 (base + g * factor) in
  0 <= s <= 100 /\ - (1 # 10000000000000) <= s - e <= 1 # 10000000000000.
Proof.
  intros Hg Hb Hf. unfold Binary64.add, Binary64.mul. cbv zeta.
  assert (0 <= g * factor) as Hn by nra.
  destruct (round64_spec _ Hn) as (eta1 & He1 & H1 & Hb1).
  remember (Binary64.round64 (g * factor)) as a1 eqn:E1. clear E1.
  remember (g * factor) as p eqn:Ep. clear Ep.
  rounded (base + a1) s1.
  unfold Binary64.unit_roundoff in *. min_cases; split; lra.
Qed.

Lemma weighted_error (c c' m m' g g' s : Q) :
  0 <= c' <= 100 -> 0 <= m' <= 100 -> 0 <= g' <= 100 -> 0 <= s <= 85 ->
  - (1 # 10000000000000) <= c' - c <= 1 # 10000000000000 ->
  - (1 # 10000000000000) <= m' - m <= 1 # 10000000000000 ->
  - (1 # 10000000000000) <= g' - g <= 1 # 10000000000000 ->
  let sum' :=
    Binary64.add
      (Binary64.add
         (Binary64.add (Binary64.mul c' (Binary64.round64 0.35))
                       (Binary64.mul m' (Binary64.round64 0.25)))
         (Binary64.mul g' (Binary64.round64 0.30)))
      (Binary64.mul s (Binary64.round64 0.10)) in
  let sum := 0.35 * c + 0.25 * m + 0.30 * g + 0.10 * s in
  0 <= sum' <= 99 /\ - Spec.tolerance < sum' - sum < Spec.tolerance.
Proof.
  intros Hc Hm Hg Hs Ec Em Eg. unfold Binary64.add, Binary64.mul. cbv zeta.
  destruct literal_values as (_ & H35 & H25 & H30 & H10 & _).
  weighted c' 0.35 H35 p1. weighted m' 0.25 H25 p2.
  weighted g' 0.30 H30 p3. weighted s 0.10 H10 p4.
  rounded (p1 + p2) s1. rounded (s1 + p3) s2. rounded (s2 + p4) s3.
  unfold Spec.tolerance, Binary64.unit_roundoff in *. split; lra.
Qed.

(** The sum that the scorer rounds to the overall score: below 99 and
    nearer to the exact weighted sum than the tolerance. *)
Lemma binary64_weighted_sum cpu memory gpu storage :
  Spec.facts_in_range cpu memory gpu ->
  exists sum',
    overallScore (Binary64.calculatePerformanceScores cpu memory gpu storage)
    = Math_round sum'
    /\ 0 <= sum' <= 99
    /\ - Spec.tolerance < sum' - Spec.weightedSum_of cpu memory gpu storage
       < Spec.tolerance.
Proof.
  intros Hrange.
  destruct (facts_in_range_non_negative _ _ _ Hrange) as [Hc Hf Hk Ht Hv Hg].
  apply inject_Z_nonneg in Hc, Hk, Ht, Hg.
  unfold Binary64.calculatePerformanceScores, overallScore, Binary64.literal.
  eexists. split; [reflexivity|].
  unfold Spec.weightedSum_of.
  pose proof (cpu_error _ _ _ Hc Hf Hk) as [Rc Ec].
  pose proof (memory_error _ _ Ht Hv) as [Rm Em].
  assert (0 <= match storage_type storage with Some SSD => 85 | _ => 60 end <= 85
          /\ Spec.storageScore
               match storage_type storage with Some SSD => true | _ => false end
             = match storage_type storage with Some SSD => 85 | _ => 60 end)
    as [Rs ->]
    by (destruct (storage_type storage) as [[]|]; (split; [lra|reflexivity])).
  match goal with
  | |- context [Binary64.mul (Math_min 100 ?score) (Binary64.round64 0.30)] =>
      assert (0 <= Math_min 100 score <= 100
              /\ - (1 # 10000000000000)
                 <= Math_min 100 score
                    - Spec.gpuScore (default integrated (gpu_type gpu))
                        (inject_Z (gpu_vramGB gpu))
                 <= 1 # 10000000000000) as [Rg Eg]
  end.
  { unfold Spec.gpuScore.
    destruct (gpu_type gpu) as [[]|]; cbv beta iota delta [default from_option id].
    - apply (gpu_error 60 4); [assumption | lra | lra].
    - fold (Math_min 100 30). min_cases; lra.
    - apply (gpu_error 50 3); [assumption | lra | lra].
    - fold (Math_min 100 30). min_cases; lra. }
  now apply weighted_error.
Qed.

(** In exact arithmetic the scorer's overall score is the rounded weighted
    sum. *)
Lemma exact_overall_is_weighted_round :
  Spec.overall_is_weighted_round calculatePerformanceScores.
Proof.
  intros cpu memory gpu storage Hrange.
  pose proof (overallScore_bounds cpu memory gpu storage
                (facts_in_range_non_negative _ _ _ Hrange)) as Hb.
  unfold Spec.overallScore_of, Spec.overallScore, Spec.clamp.
  rewrite <- Math_round_half_up.
  rewrite overallScore_unfold in Hb |- *.
  match goal with
  | |- Math_round ?x = Z.max _ (Z.min _ (Math_round ?y)) =>
      assert (Math_round x = Math_round y) as E by (apply Math_round_eq; lra)
  end.
  rewrite <- E. lia.
Qed.

Lemma overallScore_of_round cpu memory gpu storage :
  Spec.facts_in_range cpu memory gpu ->
  Spec.overallScore_of cpu memory gpu storage
  = Math_round (Spec.weightedSum_of cpu memory gpu storage).
Proof.
  intros Hrange. rewrite <- (exact_overall_is_weighted_round _ _ _ _ Hrange).
  rewrite overallScore_unfold. apply Math_round_eq.
  unfold Spec.weightedSum_of. ring.
Qed.

(** Two numbers less than one apart round to integers at most one apart. *)
Lemma Math_round_within_one (x y : Q) :
  -1 < x - y < 1 -> (Z.abs (Math_round x - Math_round y) <= 1)%Z.
Proof.
  intros H. unfold Math_round.
  pose proof (Qfloor_le (x + (1 # 2))) as Hx1.
  pose proof (Qlt_floor (x + (1 # 2))) as Hx2.
  pose proof (Qfloor_le (y + (1 # 2))) as Hy1.
  pose proof (Qlt_floor (y + (1 # 2))) as Hy2.
  rewrite inject_Z_plus in Hx2, Hy2. change (inject_Z 1) with 1 in Hx2, Hy2.
  assert (inject_Z (Qfloor (x + (1 # 2))) < inject_Z (Qfloor (y + (1 # 2)) + 2)) as H1
    by (rewrite inject_Z_plus; change (inject_Z 2) with 2; lra).
  assert (inject_Z (Qfloor (y + (1 # 2))) < inject_Z (Qfloor (x + (1 # 2)) + 2)) as H2
    by (rewrite inject_Z_plus; change (inject_Z 2) with 2; lra).
  rewrite <- Zlt_Qlt in H1, H2. lia.
Qed.

(** A number clear of the ties rounds as every number nearer to it than the
    tolerance. *)
Lemma Math_round_clear (x y : Q) :
  Spec.clear_of_ties y = true ->
  - Spec.tolerance < x - y < Spec.tolerance ->
  Math_round x = Math_round y.
Proof.
  unfold Spec.clear_of_ties, Math_round. intros Hclear H.
  apply andb_true_iff in Hclear as [H1 H2].
  apply Qle_bool_iff in H1, H2.
  apply Qfloor_unique; lra.
Qed.

End Binary64Scorer.

(** C1, amended.  The scorer computes in binary64 arithmetic, each product
    and each sum rounded.  With facts in the ranges of the data model, the
    overall score lies in [0,100] and differs by at most 1 from the weighted
    sum 0.35 cpu + 0.25 memory + 0.30 gpu + 0.10 storage of the four
    sub-scores of section 4.3, rounded half up and clamped to [0,100]; the
    two are equal when the exact weighted sum is clear of the ties, that is
    when no k + 1/2 is nearer to it than 10^-12.  The facts of the end-to-end
    example (8 logical cores, 3.0 GHz, 16 MB of cache, 32 GB at 3200 MHz, a
    dedicated GPU with 8 GB, an SSD) have the sub-scores 78, 100, 92, 85 and
    the overall score 88. *)
Theorem overall_score_weighted_round :
  (forall cpu memory gpu storage,
      Spec.facts_in_range cpu memory gpu ->
      (0 <= overallScore (Binary64.calculatePerformanceScores cpu memory gpu storage)
       <= 100)%Z
      /\ (Z.abs (overallScore
                   (Binary64.calculatePerformanceScores cpu memory gpu storage)
                 - Spec.overallScore_of cpu memory gpu storage) <= 1)%Z
      /\ (Spec.clear_of_ties (Spec.weightedSum_of cpu memory gpu storage) = true ->
          overallScore (Binary64.calculatePerformanceScores cpu memory gpu storage)
          = Spec.overallScore_of cpu memory gpu storage))
  /\ (forall cpu memory gpu storage,
      logicalCores cpu = 8 -> (baseFrequencyGHz cpu == 3)%Q -> cacheSizeMB cpu = 16 ->
      totalMemoryGB memory = 32 -> (memorySpeedMHz memory == 3200)%Q ->
      gpu_type gpu = Some dedicated -> gpu_vramGB gpu = 8 ->
      storage_type storage = Some SSD ->
      Binary64.calculatePerformanceScores cpu memory gpu storage
      = {| overallScore := 88; cpuScore := 78; memoryScore := 100;
           gpuScore := 92; storageScore := 85 |}).
Proof.
  split.
  - intros cpu memory gpu storage Hrange.
    destruct (binary64_weighted_sum cpu memory gpu storage Hrange)
      as (sum' & -> & Hsum & Hnear).
    rewrite (overallScore_of_round _ _ _ _ Hrange).
    split; [|split].
    + apply Math_round_between;
        [change (inject_Z 0) with 0%Q | change (inject_Z 100) with 100%Q]; lra.
    + apply Math_round_within_one. unfold Spec.tolerance in Hnear. lra.
    + intros Hclear. now apply Math_round_clear.
  - intros cpu memory gpu storage Hc Hf Hk Ht Hv Hty Hg Hs.
    unfold Binary64.calculatePerformanceScores, Binary64.mul, Binary64.div.
    rewrite Hc, Hk, Ht, Hty, Hg, Hs.
    rewrite (round64_comp (baseFrequencyGHz cpu * 10) (3 * 10))
      by (rewrite Hf; reflexivity).
    rewrite (round64_comp (memorySpeedMHz memory / 100) (3200 / 100))
      by (rewrite Hv; reflexivity).
    vm_compute. reflexivity.
Qed.

Lemma overall_score_weighted_round_witness :
  overallScore
    (Binary64.calculatePerformanceScores Examples.cpu8 Examples.memory32
       Examples.rtx8 Examples.ssd)
  = Spec.overallScore_of Examples.cpu8 Examples.memory32 Examples.rtx8 Examples.ssd
  /\ Binary64.calculatePerformanceScores Examples.cpu8 Examples.memory32
       Examples.rtx8 Examples.ssd
     = {| overallScore := 88; cpuScore := 78; memoryScore := 100;
          gpuScore := 92; storageScore := 85 |}.
Proof.
  split.
  - apply (proj1 overall_score_weighted_round).
    + split; vm_compute; discriminate || reflexivity.
    + vm_compute. reflexivity.
  - apply (proj2 overall_score_weighted_round); reflexivity.
Defined.

(** C1 as stated fails on a tie.  With 8 logical cores at 2.5 GHz and 2 MB of
    cache, 8 GB at 800 MHz, a dedicated GPU with 2 GB and an HDD, every fact
    a binary64 number, the weighted sum of the sub-scores 66, 40, 68 and 60
    is 59.5, which rounds half up to 60; the scorer adds 23.099999999999998,
    10, 20.4 and 6 to 59.49999999999999 and returns 59. *)
Lemma overall_score_weighted_round_counterexample :
  Spec.facts_in_range Cases.cpu_tie Cases.memory_tie Cases.gpu_tie
  /\ (Binary64.round64 (baseFrequencyGHz Cases.cpu_tie)
      == baseFrequencyGHz Cases.cpu_tie)%Q
  /\ (Spec.weightedSum_of Cases.cpu_tie Cases.memory_tie Cases.gpu_tie Cases.hdd
      == 59.5)%Q
  /\ Spec.overallScore_of Cases.cpu_tie Cases.memory_tie Cases.gpu_tie Cases.hdd = 60
  /\ Binary64.calculatePerformanceScores
       Cases.cpu_tie Cases.memory_tie Cases.gpu_tie Cases.hdd
     = {| overallScore := 59; cpuScore := 66; memoryScore := 40;
          gpuScore := 68; storageScore := 60 |}
  /\ ~ Spec.overall_is_weighted_round Binary64.calculatePerformanceScores.
Proof.
  assert (Spec.facts_in_range Cases.cpu_tie Cases.memory_tie Cases.gpu_tie) as Hrange
    by (split; vm_compute; discriminate || reflexivity).
  split; [exact Hrange|].
  split; [vm_compute; reflexivity|].
  split; [vm_compute; reflexivity|].
  split; [vm_compute; reflexivity|].
  split; [vm_compute; reflexivity|].
  intros H. specialize (H _ _ _ Cases.hdd Hrange). vm_compute in H. discriminate.
Qed.

(** C2.  The tier of a score has the breakpoints 80, 60 and 40, a boundary
    value belonging to the higher tier: 80 and more is HIGH, from 60 up to 80
    MEDIUM, from 40 up to 60 LOW, less than 40 VERY_LOW; so 80 is HIGH, 79 and
    60 are MEDIUM, 59 and 40 are LOW, 39 is VERY_LOW. *)
Theorem hardware_tier_breakpoints :
  (forall score : Q, Spec.tier_of score (calculateHardwareTier score))
  /\ (forall (score : Q) (tier : HardwareTier),
        Spec.tier_of score tier -> calculateHardwareTier score = tier)
  /\ calculateHardwareTier 80 = HIGH
  /\ calculateHardwareTier 79 = MEDIUM
  /\ calculateHardwareTier 60 = MEDIUM
  /\ calculateHardwareTier 59 = LOW
  /\ calculateHardwareTier 40 = LOW
  /\ calculateHardwareTier 39 = VERY_LOW.
Proof.
  assert (forall score : Q, Spec.tier_of score (calculateHardwareTier score)) as Hsound.
  { intros score. unfold calculateHardwareTier, geq.
    destruct (Qle_bool 80 score) eqn:E80;
      [apply Qle_bool_iff in E80; now constructor|].
    destruct (Qle_bool 60 score) eqn:E60;
      [apply Qle_bool_iff in E60|];
      destruct (Qle_bool 40 score) eqn:E40;
      try apply Qle_bool_iff in E40;
      repeat match goal with
             | H : Qle_bool ?k score = false |- _ =>
                 assert (score < k)%Q
                   by (apply Qnot_le_lt; rewrite <- Qle_bool_iff, H; discriminate);
                 clear H
             end;
      constructor; lra. }
  split; [exact Hsound|]. split; [|repeat split].
  intros score tier H. specialize (Hsound score).
  destruct H; inversion Hsound; subst; try reflexivity; lra.
Qed.

Lemma hardware_tier_breakpoints_witness :
  calculateHardwareTier 80 = HIGH /\ calculateHardwareTier (119 # 2) = LOW.
Proof.
  split.
  - apply (proj1 (proj2 hardware_tier_breakpoints)). apply Spec.tier_high.
    vm_compute. discriminate.
  - apply (proj1 (proj2 hardware_tier_breakpoints)). apply Spec.tier_low.
    + vm_compute. discriminate.
    + vm_compute. reflexivity.
Defined.


Lemma dedicated_gpuScore cpu memory gpu storage :
  gpu_type gpu = Some dedicated ->
  gpuScore (calculatePerformanceScores cpu memory gpu storage)
  = Z.min 100 (60 + gpu_vramGB gpu * 4).
Proof.
  intros Hty. unfold calculatePerformanceScores, gpuScore. rewrite Hty.
  apply (Math_round_at _ (inject_Z (Z.min 100 (60 + gpu_vramGB gpu * 4))));
    [ | apply Math_round_integer ].
  assert (inject_Z (60 + gpu_vramGB gpu * 4) == 60 + inject_Z (gpu_vramGB gpu) * 4)%Q
    as Einj by (rewrite inject_Z_plus, inject_Z_mult; reflexivity).
  destruct (Z.min_spec 100 (60 + gpu_vramGB gpu * 4)) as [[H E] | [H E]];
    rewrite E.
  - apply Z.lt_le_incl, (inject_Z_ge 100) in H. change (inject_Z 100) with 100%Q in *.
    min_cases; lra.
  - apply (inject_Z_ge _ 100) in H. change (inject_Z 100) with 100%Q in *.
    min_cases; lra.
Qed.

(** C9.  For two dedicated GPUs that differ in [vramGB] only, the one with
    more VRAM has a GPU score that is at least the other's, and a greater one
    as long as the smaller score is below the clamp at 100: the score is
    min(100, 60 + vramGB x 4). *)
Theorem dedicated_gpu_score_monotone cpu memory storage (g1 g2 : GpuArg) :
  gpu_type g1 = Some dedicated ->
  gpu_type g2 = Some dedicated ->
  (gpu_vramGB g1 <= gpu_vramGB g2)%Z ->
  let score g := gpuScore (calculatePerformanceScores cpu memory g storage) in
  score g1 = Z.min 100 (60 + gpu_vramGB g1 * 4)
  /\ (score g1 <= score g2)%Z
  /\ ((gpu_vramGB g1 < gpu_vramGB g2)%Z -> (score g1 < 100)%Z ->
      (score g1 < score g2)%Z).
Proof.
  intros H1 H2 Hle score. subst score. cbv beta.
  rewrite !dedicated_gpuScore by assumption. lia.
Qed.

Lemma dedicated_gpu_score_monotone_witness :
  gpuScore (calculatePerformanceScores Examples.cpu8 Examples.memory32
              Examples.rtx4 Examples.ssd) = 76
  /\ (gpuScore (calculatePerformanceScores Examples.cpu8 Examples.memory32
                  Examples.rtx4 Examples.ssd)
       < gpuScore (calculatePerformanceScores Examples.cpu8 Examples.memory32
                     Examples.rtx8 Examples.ssd))%Z.
Proof.
  destruct (dedicated_gpu_score_monotone Examples.cpu8 Examples.memory32 Examples.ssd
              Examples.rtx4 Examples.rtx8 eq_refl eq_refl)
    as (Hscore & _ & Hlt).
  - simpl. lia.
  - split; [exact Hscore|]. apply Hlt; [simpl; lia|]. rewrite Hscore. simpl. lia.
Defined.



(** ** The heuristic classifiers *)

(** A case for each substring test of the goal. *)
Ltac includes_cases :=
  repeat match goal with
  | |- context [includes ?s ?t] =>
      let E := fresh "E" in
      destruct (includes s t) eqn:E; cbn [orb andb negb]
  end.

Lemma getGPUVRAM_sensors_first (gpu : Controller) :
  getGPUVRAM gpu = Spec.vram_resolution_sensors_first gpu.
Proof.
  unfold getGPUVRAM, Spec.vram_resolution_sensors_first, Spec.known_model,
    Spec.reported_GB.
  generalize (toLowerCase (str_or (model gpu) "")) as m.
  generalize (toLowerCase (str_or (vendor gpu) "")) as v.
  intros v m.
  cbn [find Spec.model_table Spec.vendor_table fst snd fmap option_fmap option_map].
  includes_cases; try reflexivity.
  all: destruct (present_gt (vram gpu) 512); try reflexivity.
  all: destruct (present_gt (memoryTotal gpu) 512); reflexivity.
Qed.

(** C3, amended.  The VRAM of a controller is resolved in this order: the
    table of known models, by substring of the lower-cased model; else the
    reported VRAM when above 512 MB, in GB by rounding; else the alternate
    memory field under the same floor; else 0.  The table outranks the
    reported values (a model with 3060, and neither ga107m nor 3050 ti, gives
    6 whatever is reported); the reported values are used for every vendor,
    and the order of section 4.2 is followed whenever the vendor is not an
    integrated one or nothing above the floor is reported. *)
Theorem vram_resolution_order (gpu : Controller) :
  let model := toLowerCase (str_or (model gpu) "") in
  let vendor := toLowerCase (str_or (vendor gpu) "") in
  getGPUVRAM gpu = Spec.vram_resolution_sensors_first gpu
  /\ (forall gb, Spec.known_model model vendor = Some gb -> getGPUVRAM gpu = gb)
  /\ (includes model "3060" = true -> includes model "ga107m" = false ->
      includes model "3050 ti" = false -> getGPUVRAM gpu = 6)
  /\ (Spec.known_model model vendor = None ->
      forall gb, Spec.reported_GB (vram gpu) = Some gb -> getGPUVRAM gpu = gb)
  /\ (Spec.known_model model vendor = None ->
      Spec.reported_GB (vram gpu) = None ->
      getGPUVRAM gpu = default 0 (Spec.reported_GB (memoryTotal gpu)))
  /\ (Spec.integrated_vendor vendor = false
      \/ (Spec.reported_GB (vram gpu) = None
          /\ Spec.reported_GB (memoryTotal gpu) = None) ->
      getGPUVRAM gpu = Spec.vram_resolution gpu).
Proof.
  intros m v. rewrite getGPUVRAM_sensors_first.
  unfold Spec.vram_resolution_sensors_first, Spec.vram_resolution.
  fold m v.
  split; [reflexivity|].
  split; [intros gb ->; reflexivity|].
  split.
  { intros E1 E2 E3. unfold Spec.known_model.
    cbn [find Spec.model_table fst snd]. rewrite E2, E3, E1. reflexivity. }
  split; [intros -> gb ->; reflexivity|].
  split; [intros -> ->; reflexivity|].
  intros [Hv | [Hr Ha]]; destruct (Spec.known_model m v); try reflexivity.
  - rewrite Hv. reflexivity.
  - rewrite Hr, Ha. destruct (Spec.integrated_vendor v); reflexivity.
Qed.

Lemma vram_resolution_order_witness :
  getGPUVRAM Examples.rtx3060 = 6
  /\ getGPUVRAM Examples.matrox = 2
  /\ getGPUVRAM Examples.matrox = Spec.vram_resolution Examples.matrox.
Proof.
  split; [|split].
  - destruct (vram_resolution_order Examples.rtx3060) as (_ & _ & H & _).
    apply H; reflexivity.
  - destruct (vram_resolution_order Examples.matrox) as (_ & _ & _ & H & _).
    apply H; reflexivity.
  - destruct (vram_resolution_order Examples.matrox) as (_ & _ & _ & _ & _ & H).
    apply H. left. reflexivity.
Defined.

(** C3 as stated fails: an integrated Intel GPU with no table entry that
    reports 1024 MB has 1 GB, where the stated order gives 0. *)
Lemma vram_resolution_order_counterexample :
  Spec.known_model "uhd graphics 630" "intel" = None
  /\ Spec.integrated_vendor "intel" = true
  /\ getGPUVRAM Examples.uhd630 = 1
  /\ Spec.vram_resolution Examples.uhd630 = 0.
Proof. repeat split. Qed.

Lemma determineGPUType_rules (model vendor : option string) :
  let m := toLowerCase (str_or model "") in
  let v := toLowerCase (str_or vendor "") in
  determineGPUType model vendor
  = if str_not model then integrated
    else if Spec.rule_b m v || Spec.rule_c m v || Spec.rule_d m then dedicated
    else if Spec.has_any m Spec.apple_tokens then apple_unified
    else integrated.
Proof.
  intros m v. unfold determineGPUType. fold m v.
  destruct (str_not model); [reflexivity|].
  unfold Spec.rule_b, Spec.rule_c, Spec.rule_d, Spec.has_any, Spec.apple_tokens.
  cbn [existsb].
  generalize m v. clear. intros m v.
  includes_cases; reflexivity.
Qed.

(** C4, amended.  The GPU type is decided in this order: an absent or empty
    model is integrated, whatever the vendor; else the dedicated rules (b),
    (c) and (d); else a model with an Apple token (apple, m1, m2, m3) is
    apple_unified; else integrated.  The vendor is not searched for Apple
    tokens, and this agrees with the priority list of section 4.2 for a
    model that is not empty when no Apple token occurs at all, or when one
    occurs in the model and no dedicated rule applies. *)
Theorem gpu_type_priority (model vendor : option string) :
  let m := toLowerCase (str_or model "") in
  let v := toLowerCase (str_or vendor "") in
  let is_dedicated := Spec.rule_b m v || Spec.rule_c m v || Spec.rule_d m in
  let is_apple := Spec.has_any m Spec.apple_tokens in
  (str_not model = true -> determineGPUType model vendor = integrated)
  /\ (str_not model = false ->
      (determineGPUType model vendor = dedicated <-> is_dedicated = true)
      /\ (determineGPUType model vendor = apple_unified
          <-> is_dedicated = false /\ is_apple = true)
      /\ (determineGPUType model vendor = integrated
          <-> is_dedicated = false /\ is_apple = false)
      /\ (Spec.rule_a m v = false \/ (is_apple = true /\ is_dedicated = false) ->
          determineGPUType model vendor = Spec.gpu_type_by_priority model vendor)).
Proof.
  intros m v is_dedicated is_apple.
  rewrite determineGPUType_rules. fold m v is_dedicated is_apple.
  split; [intros ->; reflexivity|].
  intros ->.
  unfold Spec.gpu_type_by_priority, Spec.rule_a. fold m v is_apple.
  subst is_dedicated.
  destruct (Spec.rule_b m v), (Spec.rule_c m v), (Spec.rule_d m), is_apple,
    (Spec.has_any v Spec.apple_tokens); cbn [orb];
    repeat split; try discriminate; try reflexivity;
    intuition discriminate.
Qed.

Lemma gpu_type_priority_witness :
  determineGPUType None (Some "NVIDIA") = integrated
  /\ determineGPUType (Some "NVIDIA GeForce RTX 3060") (Some "NVIDIA")
     = Spec.gpu_type_by_priority (Some "NVIDIA GeForce RTX 3060") (Some "NVIDIA").
Proof.
  split.
  - destruct (gpu_type_priority None (Some "NVIDIA")) as [H _].
    apply H. reflexivity.
  - destruct (gpu_type_priority (Some "NVIDIA GeForce RTX 3060") (Some "NVIDIA"))
      as [_ H].
    destruct (H eq_refl) as (_ & _ & _ & H'). apply H'. left. reflexivity.
Defined.

(** C4 as stated fails: a vendor of nvidia with an empty model is integrated,
    not dedicated; a model with a dedicated token and an Apple token (the m3
    of M370X, the m1 of M1200) is dedicated, not apple_unified; an Apple token
    in the vendor alone does not make the GPU apple_unified. *)
Lemma gpu_type_priority_counterexample :
  (determineGPUType (Some "") (Some "nvidia") = integrated
   /\ Spec.gpu_type_by_priority (Some "") (Some "nvidia") = dedicated)
  /\ (determineGPUType (Some "AMD Radeon R9 M370X") (Some "AMD") = dedicated
      /\ Spec.gpu_type_by_priority (Some "AMD Radeon R9 M370X") (Some "AMD")
         = apple_unified)
  /\ (determineGPUType (Some "Quadro M1200") (Some "NVIDIA") = dedicated
      /\ Spec.gpu_type_by_priority (Some "Quadro M1200") (Some "NVIDIA")
         = apple_unified)
  /\ (determineGPUType (Some "Display Adapter") (Some "Apple") = integrated
      /\ Spec.gpu_type_by_priority (Some "Display Adapter") (Some "Apple")
         = apple_unified).
Proof. repeat split. Qed.

(** ** The realtime broadcast loop *)

Import ApiServer.

Section Loop.

Lemma startRealtimeUpdates_tracked s :
  timers_tracked s -> timers_tracked (startRealtimeUpdates s).
Proof.
  unfold timers_tracked, startRealtimeUpdates.
  destruct (realtimeInterval s) eqn:E; cbn; [now rewrite E|].
  intros ->. rewrite insert_empty. eauto.
Qed.

Lemma stopRealtimeUpdates_tracked s :
  timers_tracked s -> timers_tracked (stopRealtimeUpdates s).
Proof.
  unfold timers_tracked, stopRealtimeUpdates.
  destruct (realtimeInterval s) eqn:E; cbn; [|now rewrite E].
  intros [t ->]. apply delete_singleton_eq.
Qed.

Lemma on_close_tracked ws s :
  timers_tracked s -> timers_tracked (on_close ws s).
Proof.
  unfold timers_tracked, on_close. cbn.
  destruct (Set_delete ws (clients s)), (realtimeInterval s) eqn:E; cbn;
    rewrite ?E; try done.
  intros [t ->]. apply delete_singleton_eq.
Qed.

Lemma timer_fires_tracked h s :
  timers_tracked s -> timers_tracked (timer_fires h s).
Proof.
  unfold timers_tracked, timer_fires.
  destruct (intervals s !! h) as [iv|] eqn:L; [|done].
  destruct (due iv <=? now s); [|done]. cbn.
  destruct (realtimeInterval s) as [h'|].
  - intros [t Ht]. rewrite Ht in L |- *.
    apply lookup_singleton_Some in L as [<- <-]. cbn.
    rewrite insert_singleton_eq. eauto.
  - intros Ht. rewrite Ht in L. now rewrite lookup_empty in L.
Qed.

Lemma stats_settled_tracked stats s :
  timers_tracked s -> timers_tracked (stats_settled stats s).
Proof.
  unfold timers_tracked, stats_settled.
  destruct (in_flight s); [done|]. destruct stats; done.
Qed.

Lemma step_tracked s e : timers_tracked s -> timers_tracked (step s e).
Proof.
  destruct e; cbn [step]; try done.
  - case_bool_decide; [apply on_close_tracked | done].
  - case_bool_decide; [|done].
    destruct data; cbn;
      auto using startRealtimeUpdates_tracked, stopRealtimeUpdates_tracked.
  - apply timer_fires_tracked.
  - apply stats_settled_tracked.
  - apply stopRealtimeUpdates_tracked.
Qed.

Lemma run_snoc t0 events e : run t0 (events ++ [e]) = step (run t0 events) e.
Proof. unfold run. apply foldl_snoc. Qed.

Lemma run_tracked t0 events : timers_tracked (run t0 events).
Proof.
  induction events as [|e events IH] using rev_ind.
  - reflexivity.
  - rewrite run_snoc. now apply step_tracked.
Qed.

Lemma start_when_active s : loop_state s = ACTIVE -> startRealtimeUpdates s = s.
Proof.
  unfold loop_state, startRealtimeUpdates. now destruct (realtimeInterval s).
Qed.

Lemma stop_when_idle s : loop_state s = IDLE -> stopRealtimeUpdates s = s.
Proof.
  unfold loop_state, stopRealtimeUpdates. now destruct (realtimeInterval s).
Qed.

Lemma start_makes_active s : loop_state (startRealtimeUpdates s) = ACTIVE.
Proof.
  unfold loop_state, startRealtimeUpdates.
  destruct (realtimeInterval s) eqn:E; cbn; now rewrite ?E.
Qed.

Lemma start_repeated s n :
  Nat.iter (S n) startRealtimeUpdates s = startRealtimeUpdates s.
Proof.
  induction n as [|n IH]; [reflexivity|].
  change (Nat.iter (S (S n)) startRealtimeUpdates s)
    with (startRealtimeUpdates (Nat.iter (S n) startRealtimeUpdates s)).
  rewrite IH. apply start_when_active, start_makes_active.
Qed.

Lemma tick_not_repeated s h dt :
  timers_tracked s -> timer_fires h s <> s -> dt < 2000 ->
  timer_fires h (step (timer_fires h s) (Elapse dt)) = step (timer_fires h s) (Elapse dt).
Proof.
  intros Ht Hfired Hdt. unfold timer_fires in *.
  destruct (intervals s !! h) as [iv|] eqn:L; [|done].
  destruct (due iv <=? now s) eqn:Hdue; [|done].
  cbn. rewrite lookup_insert_eq. cbn.
  assert (delay iv = 2000) as ->.
  { unfold timers_tracked in Ht. destruct (realtimeInterval s).
    - destruct Ht as [t Ht]. rewrite Ht in L.
      now apply lookup_singleton_Some in L as [_ <-].
    - rewrite Ht in L. now rewrite lookup_empty in L. }
  destruct (now s + 2000 <=? now s + Z.max 0 dt) eqn:E; [|done].
  apply Z.leb_le in E. lia.
Qed.

End Loop.

(** C6.  Starting the loop while it is active changes nothing and stopping
    it while it is idle changes nothing; in every state the server reaches
    at most one timer is armed, the one the server holds, with a delay of
    2000 ms; any number of starts in a row is one start, with one timer; and
    once the timer has ticked it does not tick again before 2000 ms have
    gone by. *)
Theorem realtime_loop_single_timer :
  (forall s, loop_state s = ACTIVE -> startRealtimeUpdates s = s)
  /\ (forall s, loop_state s = IDLE -> stopRealtimeUpdates s = s)
  /\ (forall t0 events,
        let s := run t0 events in
        (size (intervals s) <= 1)%nat
        /\ (forall h iv, intervals s !! h = Some iv ->
              realtimeInterval s = Some h /\ delay iv = 2000))
  /\ (forall t0 events n,
        let s := run t0 events in
        Nat.iter (S n) startRealtimeUpdates s = startRealtimeUpdates s
        /\ exists h t,
             intervals (Nat.iter (S n) startRealtimeUpdates s)
             = {[h := {| delay := 2000; due := t |}]})
  /\ (forall t0 events h dt,
        let s := run t0 events in
        timer_fires h s <> s -> dt < 2000 ->
        timer_fires h (step (timer_fires h s) (Elapse dt))
        = step (timer_fires h s) (Elapse dt)).
Proof.
  split; [exact start_when_active|].
  split; [exact stop_when_idle|].
  split; [|split].
  - intros t0 events s. pose proof (run_tracked t0 events) as Ht. fold s in Ht.
    unfold timers_tracked in Ht. destruct (realtimeInterval s) as [h0|].
    + destruct Ht as [t ->]. split; [rewrite map_size_singleton; lia|].
      intros h iv L. now apply lookup_singleton_Some in L as [<- <-].
    + rewrite Ht. split; [rewrite map_size_empty; lia|].
      intros h iv L. now rewrite lookup_empty in L.
  - intros t0 events n s. rewrite start_repeated. split; [reflexivity|].
    pose proof (startRealtimeUpdates_tracked s (run_tracked t0 events)) as Ht.
    pose proof (start_makes_active s) as Ha.
    unfold timers_tracked in Ht. unfold loop_state in Ha.
    destruct (realtimeInterval (startRealtimeUpdates s)) as [h|]; [|done].
    destruct Ht as [t Ht]. eauto.
  - intros t0 events h dt s. apply tick_not_repeated, run_tracked.
Qed.

Lemma realtime_loop_single_timer_witness :
  startRealtimeUpdates Examples.streaming = Examples.streaming
  /\ stopRealtimeUpdates (ApiServer.constructor 0) = ApiServer.constructor 0
  /\ timer_fires 1%nat (step (timer_fires 1%nat Examples.tick_due) (Elapse 1999))
     = step (timer_fires 1%nat Examples.tick_due) (Elapse 1999).
Proof.
  split; [|split].
  - apply (proj1 realtime_loop_single_timer). reflexivity.
  - apply (proj1 (proj2 realtime_loop_single_timer)). reflexivity.
  - destruct realtime_loop_single_timer as (_ & _ & _ & _ & H).
    apply (H 0 [Connection; Message 0%nat start_realtime; Elapse 2000] 1%nat);
      [|lia].
    intros E. apply (f_equal in_flight) in E. vm_compute in E. discriminate E.
Defined.

(** A callback that is waiting when the last subscriber detaches still sends
    its sample to whoever has attached by the time the sample is there. *)
Example sample_after_last_detach :
  let s :=
    run 0 [Connection; Message 0%nat start_realtime; Elapse 2000; TimerFires 1%nat;
           Close 0%nat; Connection; StatsSettled (Some "sample")] in
  loop_state s = IDLE /\ intervals s = ∅ /\ sent s = [(1%nat, "sample")].
Proof. repeat split. Qed.

Section Detach.

Lemma filter_none {A} (P : A -> Prop) `{forall x, Decision (P x)} (l : list A) :
  Forall (fun x => ~ P x) l -> filter P l = [].
Proof.
  induction 1 as [|x l Hx Hl IH]; [reflexivity|].
  now rewrite filter_cons_False.
Qed.

Lemma broadcast_sent_to ws messageStr s :
  ws ∉ clients s -> sent_to ws (broadcast messageStr s) = sent_to ws s.
Proof.
  intros Hws. unfold sent_to, broadcast. cbn. rewrite filter_app.
  match goal with |- (_ ++ ?x = _)%list => assert (x = []) as -> end;
    [|apply app_nil_r].
  apply filter_none, Forall_forall. intros [c m] Hin.
  apply list_elem_of_fmap in Hin as (c' & [= -> ->] & Hc').
  apply list_elem_of_filter in Hc' as [_ Hc']. cbn. congruence.
Qed.

Lemma Set_delete_subseteq ws c l : c ∈ Set_delete ws l -> c ∈ l.
Proof. unfold Set_delete. rewrite list_elem_of_filter. tauto. Qed.

Lemma step_gone ws s e :
  gone ws s -> gone ws (step s e) /\ sent_to ws (step s e) = sent_to ws s.
Proof.
  intros [Hc Hn]. unfold gone.
  destruct e as [ | ws' | ws' | ws' data | h | stats | dt | ]; cbn [step].
  - unfold on_connection, Set_add, sent_to. cbn.
    case_bool_decide; (split; [split|]; [ | lia | reflexivity ]); [done|].
    rewrite elem_of_app, list_elem_of_singleton. intros [?|?]; [done|lia].
  - done.
  - case_bool_decide; [|done]. unfold on_close. cbn.
    assert (ws ∉ Set_delete ws' (clients s))
      by (intros Hin; now apply Set_delete_subseteq in Hin).
    destruct (Set_delete ws' (clients s)) eqn:Ed, (realtimeInterval s); done.
  - case_bool_decide; [|done].
    destruct data; cbn; try done.
    + unfold startRealtimeUpdates. destruct (realtimeInterval s); done.
    + unfold stopRealtimeUpdates. destruct (realtimeInterval s); done.
  - unfold timer_fires. destruct (intervals s !! h); [|done].
    destruct (due _ <=? now s); done.
  - unfold stats_settled. destruct (in_flight s); [done|].
    destruct stats as [m|]; [|done].
    split; [done|]. now rewrite broadcast_sent_to.
  - done.
  - unfold stopRealtimeUpdates. destruct (realtimeInterval s); done.
Qed.

Lemma foldl_step_gone ws later s :
  gone ws s -> sent_to ws (foldl step s later) = sent_to ws s.
Proof.
  revert s. induction later as [|e later IH]; intros s Hg; [reflexivity|].
  cbn [foldl]. destruct (step_gone ws s e Hg) as [Hg' <-]. now apply IH.
Qed.

Lemma step_at_rest s e :
  at_rest s -> asks_start e = false -> at_rest (step s e) /\ sent (step s e) = sent s.
Proof.
  intros (Hr & Hi & Hf) He. unfold at_rest.
  destruct e as [ | ws' | ws' | ws' data | h | stats | dt | ]; cbn [step]; try done.
  - case_bool_decide; [|done]. unfold on_close. cbn. rewrite Hr.
    destruct (Set_delete ws' (clients s)); done.
  - case_bool_decide; [|done]. destruct data; try done.
    cbn. unfold stopRealtimeUpdates. now rewrite Hr.
  - unfold timer_fires. now rewrite Hi, lookup_empty.
  - unfold stats_settled. now rewrite Hf.
  - unfold stopRealtimeUpdates. now rewrite Hr.
Qed.

Lemma foldl_step_at_rest later s :
  at_rest s -> Forall (fun e => asks_start e = false) later ->
  sent (foldl step s later) = sent s.
Proof.
  revert s. induction later as [|e later IH]; intros s Hs Hl; [reflexivity|].
  inversion Hl as [|? ? He Hl']; subst. cbn [foldl].
  destruct (step_at_rest s e Hs He) as [Hs' <-]. now apply IH.
Qed.

Lemma step_allocated s e : clients_allocated s -> clients_allocated (step s e).
Proof.
  unfold clients_allocated. intros Ha.
  destruct e as [ | ws' | ws' | ws' data | h | stats | dt | ]; cbn [step]; try done.
  - unfold on_connection, Set_add. cbn.
    assert (Forall (fun ws => (ws < S (next_ws s))%nat) (clients s))
      by (eapply Forall_impl; [exact Ha | cbn; lia]).
    case_bool_decide; [done|]. apply Forall_app. split; [done|].
    apply Forall_singleton. lia.
  - case_bool_decide; [|done]. unfold on_close. cbn.
    assert (Forall (fun ws => (ws < next_ws s)%nat) (Set_delete ws' (clients s)))
      by (apply Forall_forall; intros c Hc; apply Set_delete_subseteq in Hc;
          revert c Hc; now apply Forall_forall).
    destruct (Set_delete ws' (clients s)), (realtimeInterval s); done.
  - case_bool_decide; [|done]. destruct data; cbn; try done.
    + unfold startRealtimeUpdates. destruct (realtimeInterval s); done.
    + unfold stopRealtimeUpdates. destruct (realtimeInterval s); done.
  - unfold timer_fires. destruct (intervals s !! h); [|done].
    destruct (due _ <=? now s); done.
  - unfold stats_settled. destruct (in_flight s); [done|].
    destruct stats; done.
  - unfold stopRealtimeUpdates. destruct (realtimeInterval s); done.
Qed.

Lemma run_allocated t0 events : clients_allocated (run t0 events).
Proof.
  induction events as [|e events IH] using rev_ind.
  - constructor.
  - rewrite run_snoc. now apply step_allocated.
Qed.

End Detach.

(** C5, amended.  A subscriber that attaches leaves the loop as it is.  The
    loop goes from IDLE to ACTIVE when an attached subscriber asks for
    realtime updates: one timer of 2000 ms is armed, due one period later, and
    it ticks once that period has gone by.  The last subscriber that detaches
    takes the loop from ACTIVE to IDLE: no timer stays armed, no tick begins,
    the subscriber receives nothing further, and once no callback is waiting
    nothing is sent to anyone until a start is asked for. *)
Theorem broadcast_lifecycle (t0 : Z) (events : list Event) :
  let s := run t0 events in
  (loop_state (step s Connection) = loop_state s
   /\ intervals (step s Connection) = intervals s)
  /\ (forall ws, ws ∈ clients s -> loop_state s = IDLE ->
        let s' := step s (Message ws start_realtime) in
        loop_state s' = ACTIVE
        /\ exists h,
             realtimeInterval s' = Some h
             /\ intervals s' = {[h := {| delay := 2000; due := now s + 2000 |}]}
             /\ in_flight (step (step s' (Elapse 2000)) (TimerFires h))
                = S (in_flight s))
  /\ (forall ws, clients s = [ws] ->
        let s' := step s (Close ws) in
        loop_state s' = IDLE
        /\ clients s' = []
        /\ intervals s' = ∅
        /\ (forall h, step s' (TimerFires h) = s')
        /\ (forall later, sent_to ws (foldl step s' later) = sent_to ws s')
        /\ (forall later,
              in_flight s' = 0%nat ->
              Forall (fun e => asks_start e = false) later ->
              sent (foldl step s' later) = sent s')).
Proof.
  intros s.
  pose proof (run_tracked t0 events) as Ht. fold s in Ht.
  pose proof (run_allocated t0 events) as Ha. fold s in Ha.
  split; [done|]. split.
  - intros ws Hws Hidle s'. subst s'. cbn [step].
    rewrite bool_decide_eq_true_2 by done. cbn.
    unfold loop_state in Hidle. unfold timers_tracked in Ht.
    unfold startRealtimeUpdates.
    destruct (realtimeInterval s); [done|]. cbn.
    split; [reflexivity|]. exists (next_handle s).
    rewrite Ht, insert_empty. split; [reflexivity|]. split; [reflexivity|].
    unfold timer_fires. cbn. rewrite lookup_singleton_eq. cbn.
    rewrite (proj2 (Z.leb_le _ _)) by lia. reflexivity.
  - intros ws Hc s'.
    assert (ws ∈ clients s) as Hin by (rewrite Hc; apply list_elem_of_singleton; done).
    assert (s' = on_close ws s) as Es
      by (subst s'; cbn [step]; now rewrite bool_decide_eq_true_2).
    clearbody s'.
    assert (clients s' = [] /\ realtimeInterval s' = None /\ intervals s' = ∅
            /\ next_ws s' = next_ws s) as (Ec & Er & Ei & En).
    { rewrite Es. unfold on_close. cbn. rewrite Hc. unfold Set_delete.
      rewrite filter_cons_False by (intros Hne; now apply Hne).
      rewrite filter_nil.
      unfold timers_tracked in Ht.
      destruct (realtimeInterval s) as [h|]; cbn.
      - destruct Ht as [t ->]. now rewrite delete_singleton_eq.
      - done. }
    assert (gone ws s') as Hg.
    { split; [rewrite Ec; apply not_elem_of_nil|]. rewrite En.
      unfold clients_allocated in Ha. rewrite Forall_forall in Ha. now apply Ha. }
    split; [unfold loop_state; now rewrite Er|].
    split; [exact Ec|]. split; [exact Ei|].
    split; [intros h; cbn [step]; unfold timer_fires; now rewrite Ei, lookup_empty|].
    split; [intros later; now apply foldl_step_gone|].
    intros later Hf Hl. now apply foldl_step_at_rest.
Qed.

Lemma broadcast_lifecycle_witness :
  loop_state (step Examples.attached (Message 0%nat start_realtime)) = ACTIVE
  /\ loop_state (step Examples.streaming (Close 0%nat)) = IDLE.
Proof.
  split.
  - destruct (broadcast_lifecycle 0 [Connection]) as (_ & H & _).
    apply (H 0%nat); [apply list_elem_of_singleton; reflexivity | reflexivity].
  - destruct (broadcast_lifecycle 0 [Connection; Message 0%nat start_realtime])
      as (_ & _ & H).
    apply (H 0%nat). reflexivity.
Defined.

(** C5 as stated fails: the first subscriber to attach leaves the loop
    idle, with no timer armed. *)
Lemma attach_activates_counterexample :
  clients (run 0 []) = []
  /\ clients (step (run 0 []) Connection) = [0%nat]
  /\ loop_state (step (run 0 []) Connection) = IDLE
  /\ intervals (step (run 0 []) Connection) = ∅
  /\ ~ Spec.attach_activates.
Proof.
  repeat split. intros H. specialize (H 0 [] eq_refl). discriminate H.
Qed.

(** ** The fingerprint encoding *)

Section Encoding.
Local Open Scope N_scope.

Lemma base64_value_digit (n : N) :
  n < 64 -> Spec.base64_value (base64_digit n) = Some n /\ Spec.is_pad (base64_digit n) = false.
Proof.
  intros H.
  assert (exists k, (k < 64)%nat /\ n = N.of_nat k) as (k & Hk & ->)
    by (exists (N.to_nat n); lia).
  clear H. do 64 (destruct k as [|k]; [split; reflexivity|]). lia.
Qed.

Lemma utf8_decode_Buffer_from (s : string) :
  Spec.utf8_decode (Buffer_from s) = Some s.
Proof.
  induction s as [|c s IH]; [reflexivity|].
  cbn [Buffer_from]. unfold utf8_unit.
  pose proof (N_ascii_bounded c) as Hc.
  destruct (N_of_ascii c <? 128) eqn:E.
  - cbn [app Spec.utf8_decode]. rewrite E, IH. cbn.
    now rewrite ascii_N_embedding.
  - apply N.ltb_ge in E. cbn [app Spec.utf8_decode].
    assert ((192 + N_of_ascii c / 64 <? 128) = false) as ->
      by (apply N.ltb_ge; generalize (N_of_ascii c / 64); lia).
    rewrite IH. cbn. f_equal. f_equal.
    rewrite <- (ascii_N_embedding c) at 3. f_equal.
    pose proof (N.div_mod (N_of_ascii c) 64 ltac:(discriminate)) as Hdm.
    revert Hdm. generalize (N_of_ascii c / 64), (N_of_ascii c mod 64). lia.
Qed.

Lemma Buffer_from_bytes (s : string) : Forall (fun b => b < 256) (Buffer_from s).
Proof.
  induction s as [|c s IH]; [constructor|].
  cbn [Buffer_from]. apply Forall_app. split; [|exact IH].
  unfold utf8_unit. pose proof (N_ascii_bounded c) as Hc.
  pose proof (N.div_mod (N_of_ascii c) 64 ltac:(discriminate)) as Hdm.
  pose proof (N.mod_lt (N_of_ascii c) 64 ltac:(discriminate)) as Hm.
  revert Hdm Hm. generalize (N_of_ascii c / 64), (N_of_ascii c mod 64).
  intros q r Hdm Hm.
  destruct (N_of_ascii c <? 128); repeat constructor; lia.
Qed.

Lemma div_mod_digits (k q r : N) :
  k <> 0 -> r < k -> (q * k + r) / k = q /\ (q * k + r) mod k = r.
Proof.
  intros Hk Hr. split.
  - symmetry. apply (N.div_unique _ k q r); lia.
  - symmetry. apply (N.mod_unique _ k q r); lia.
Qed.

Lemma base64_group (a b c : N) :
  a < 256 -> b < 256 -> c < 256 ->
  (a / 4 < 64 /\ a mod 4 * 16 + b / 16 < 64
   /\ b mod 16 * 4 + c / 64 < 64 /\ c mod 64 < 64)
  /\ a / 4 * 4 + (a mod 4 * 16 + b / 16) / 16 = a
  /\ (a mod 4 * 16 + b / 16) mod 16 * 16 + (b mod 16 * 4 + c / 64) / 4 = b
  /\ (b mod 16 * 4 + c / 64) mod 4 * 64 + c mod 64 = c.
Proof.
  intros Ha Hb Hc.
  pose proof (N.div_mod a 4 ltac:(discriminate)) as Ea.
  pose proof (N.mod_lt a 4 ltac:(discriminate)) as Ra.
  pose proof (N.div_mod b 16 ltac:(discriminate)) as Eb.
  pose proof (N.mod_lt b 16 ltac:(discriminate)) as Rb.
  pose proof (N.div_mod c 64 ltac:(discriminate)) as Ec.
  pose proof (N.mod_lt c 64 ltac:(discriminate)) as Rc.
  revert Ea Ra Eb Rb Ec Rc.
  generalize (a / 4), (a mod 4), (b / 16), (b mod 16), (c / 64), (c mod 64).
  intros qa ra qb rb qc rc Ea Ra Eb Rb Ec Rc.
  assert (qb < 16) as Qb by lia. assert (qc < 4) as Qc by lia.
  destruct (div_mod_digits 16 ra qb ltac:(discriminate) Qb) as [-> ->].
  destruct (div_mod_digits 4 rb qc ltac:(discriminate) Qc) as [-> ->].
  lia.
Qed.

Lemma list_ind3 {A} (P : list A -> Prop) :
  P [] -> (forall a, P [a]) -> (forall a b, P [a; b]) ->
  (forall a b c l, P l -> P (a :: b :: c :: l)) ->
  forall l, P l.
Proof.
  intros H0 H1 H2 H3 l.
  enough (P l /\ (forall a, P (a :: l)) /\ (forall a b, P (a :: b :: l))) by tauto.
  induction l as [|x l (IH0 & IH1 & IH2)]; [auto|].
  split; [apply IH1|]. split; [intros a; apply IH2|].
  intros a b. now apply H3.
Qed.

Lemma base64_decode_encode (bytes : list N) :
  Forall (fun b => b < 256) bytes ->
  Spec.base64_decode (toString_base64 bytes) = Some bytes.
Proof.
  induction bytes as [|a|a b|a b c bytes IH] using list_ind3; intros Hb.
  - reflexivity.
  - apply Forall_cons in Hb as [Ha _].
    destruct (base64_group a 0 0 Ha) as ((D1 & D2 & _) & E1 & _); [reflexivity..|].
    rewrite N.add_0_r in D2, E1.
    cbn [toString_base64 Spec.base64_decode].
    rewrite (proj1 (base64_value_digit _ D1)), (proj1 (base64_value_digit _ D2)).
    cbn. now rewrite E1.
  - apply Forall_cons in Hb as [Ha Hb]. apply Forall_cons in Hb as [Hb _].
    destruct (base64_group a b 0 Ha Hb) as ((D1 & D2 & D3 & _) & E1 & E2 & _);
      [reflexivity|].
    rewrite N.add_0_r in D3, E2.
    cbn [toString_base64 Spec.base64_decode].
    rewrite (proj1 (base64_value_digit _ D1)), (proj1 (base64_value_digit _ D2)),
      (proj1 (base64_value_digit _ D3)), (proj2 (base64_value_digit _ D3)).
    cbn. now rewrite E1, E2.
  - apply Forall_cons in Hb as [Ha Hb]. apply Forall_cons in Hb as [Hb Hc].
    apply Forall_cons in Hc as [Hc Hrest].
    destruct (base64_group a b c Ha Hb Hc) as ((D1 & D2 & D3 & D4) & E1 & E2 & E3).
    cbn [toString_base64 Spec.base64_decode].
    rewrite (proj1 (base64_value_digit _ D1)), (proj1 (base64_value_digit _ D2)),
      (proj1 (base64_value_digit _ D3)), (proj2 (base64_value_digit _ D3)),
      (proj1 (base64_value_digit _ D4)), (proj2 (base64_value_digit _ D4)).
    cbn. rewrite (IH Hrest). cbn. now rewrite E1, E2, E3.
Qed.

Lemma decode_encode (s : string) : Spec.decode (Spec.encode s) = Some s.
Proof.
  unfold Spec.decode, Spec.encode.
  rewrite (base64_decode_encode _ (Buffer_from_bytes s)). cbn.
  apply utf8_decode_Buffer_from.
Qed.

End Encoding.

(** ** The full analysis *)

Section Analysis.

Lemma rejected_message_all {A B} (p : Settled A) (rest : Settled B) e :
  e ∈ rejected_message (Promise_all p rest) ->
  e ∈ rejected_message p \/ e ∈ rejected_message rest.
Proof.
  destruct p as [a|t1 e1], rest as [b|t2 e2]; unfold Promise_all;
    try destruct (t2 <? t1)%nat; cbn [rejected_message]; tauto.
Qed.

Lemma Promise_all_fulfilled {A B} (p : Settled A) (rest : Settled B) v :
  Promise_all p rest = Fulfilled v -> p = Fulfilled v.1 /\ rest = Fulfilled v.2.
Proof.
  destruct p as [a|t1 e1], rest as [b|t2 e2]; unfold Promise_all;
    try destruct (t2 <? t1)%nat; try discriminate.
  now intros [= <-].
Qed.

Lemma inventory_rejected (si : Collaborators) t e :
  inventory si = Rejected t e -> e ∈ awaited_rejections si.
Proof.
  intros E.
  assert (e ∈ rejected_message (inventory si)) as H
    by (rewrite E; apply list_elem_of_here).
  unfold inventory in H. unfold awaited_rejections. rewrite !elem_of_app.
  repeat (apply rejected_message_all in H as [H|H]; [tauto|]). tauto.
Qed.

Lemma inventory_fulfilled (si : Collaborators) v :
  inventory si = Fulfilled v ->
  si_cpu si = Fulfilled v.1
  /\ si_mem si = Fulfilled v.2.1
  /\ si_graphics si = Fulfilled v.2.2.1
  /\ si_osInfo si = Fulfilled v.2.2.2.1
  /\ si_system si = Fulfilled v.2.2.2.2.1
  /\ si_diskLayout si = Fulfilled v.2.2.2.2.2.1
  /\ si_networkInterfaces si = Fulfilled v.2.2.2.2.2.2.1
  /\ si_battery si = Fulfilled v.2.2.2.2.2.2.2.
Proof.
  unfold inventory. intros E.
  repeat (apply Promise_all_fulfilled in E as [-> E]). rewrite E. tauto.
Qed.

Lemma first_failure_rejected (si : Collaborators) e :
  first_failure si = Some e -> e ∈ awaited_rejections si.
Proof.
  unfold first_failure.
  destruct (inventory si) as [v|t e'] eqn:E;
    [|intros [= <-]; eapply inventory_rejected, E].
  unfold awaited_rejections. rewrite !elem_of_app.
  destruct (si_currentLoad si) as [?|? ?];
    [|intros [= <-]; cbn; rewrite list_elem_of_singleton; tauto].
  destruct (si_cpuTemperature si) as [?|? ?];
    [|intros [= <-]; cbn; rewrite list_elem_of_singleton; tauto].
  destruct (si_memLayout si) as [?|? ?];
    [discriminate|intros [= <-]; cbn; rewrite list_elem_of_singleton; tauto].
Qed.

Lemma first_failure_none (si : Collaborators) :
  first_failure si = None <-> awaited_rejections si = [].
Proof.
  unfold first_failure, awaited_rejections. split.
  - destruct (inventory si) as [v|t e'] eqn:E; [|discriminate].
    apply inventory_fulfilled in E as (-> & -> & -> & -> & -> & -> & -> & ->).
    destruct (si_currentLoad si), (si_cpuTemperature si), (si_memLayout si);
      done.
  - intros H.
    repeat (apply app_eq_nil in H as [? H]).
    destruct (inventory si) as [v|t e'] eqn:E.
    + destruct (si_currentLoad si), (si_cpuTemperature si), (si_memLayout si);
        done.
    + apply inventory_rejected in E. unfold awaited_rejections in E.
      rewrite !elem_of_app in E.
      repeat match goal with
             | H : ?l = [] |- _ => rewrite H in E; clear H
             end.
      repeat (destruct E as [E|E]; [now apply elem_of_nil in E|]).
      now apply elem_of_nil in E.
Qed.

Lemma detectHardware_thrown (si : Collaborators) (env : Env) (this : Detector) e :
  first_failure si = Some e ->
  detectHardware si env this
  = (this, Thrown ("Hardware detection failed: " ++ e)%string).
Proof.
  unfold first_failure, detectHardware. fold (inventory si).
  destruct (inventory si) as [v|t e'] eqn:E; [|intros [= <-]; reflexivity].
  destruct v as (cpu & memory & graphics & osInfo & system & diskLayout
                 & networkInterfaces & battery).
  destruct (si_currentLoad si) as [load|? ?]; [|intros [= <-]; reflexivity].
  destruct (si_cpuTemperature si) as [cpuTemp|? ?]; [|intros [= <-]; reflexivity].
  destruct (si_memLayout si) as [memLayout|? ?]; [|intros [= <-]; reflexivity].
  discriminate.
Qed.

Lemma detectHardware_returned (si : Collaborators) (env : Env) (this : Detector) :
  first_failure si = None ->
  exists analysis,
    detectHardware si env this
    = ({| lastAnalysis := Some analysis;
          this_analysisTimestamp := Some (clock_stored env) |},
       Returned analysis).
Proof.
  unfold first_failure, detectHardware. fold (inventory si).
  destruct (inventory si) as [v|t e'] eqn:E; [|discriminate].
  destruct v as (cpu & memory & graphics & osInfo & system & diskLayout
                 & networkInterfaces & battery).
  destruct (si_currentLoad si) as [load|? ?]; [|discriminate].
  destruct (si_cpuTemperature si) as [cpuTemp|? ?]; [|discriminate].
  destruct (si_memLayout si) as [memLayout|? ?]; [|discriminate].
  intros _. unfold getAvailableStorage.
  destruct (si_fsSize si) as [fsSize|? ?]; [destruct fsSize|]; eexists; reflexivity.
Qed.

End Analysis.

(** C7.  When a query that the full analysis awaits is rejected, the
    analysis fails with an error whose message carries the message of a
    rejected query, and the detector, with its cached analysis, is exactly as
    before the call; whenever the analysis fails this is the case, and
    whenever it returns an analysis that whole analysis is the one cached. *)
Theorem failed_analysis_keeps_cache
    (si : Collaborators) (env : Env) (this : Detector) :
  (awaited_rejections si <> [] ->
   exists cause,
     cause ∈ awaited_rejections si
     /\ detectHardware si env this
        = (this, Thrown ("Hardware detection failed: " ++ cause)%string))
  /\ (forall this' message,
        detectHardware si env this = (this', Thrown message) ->
        this' = this
        /\ lastAnalysis this' = lastAnalysis this
        /\ exists cause,
             cause ∈ awaited_rejections si
             /\ message = ("Hardware detection failed: " ++ cause)%string)
  /\ (forall this' analysis,
        detectHardware si env this = (this', Returned analysis) ->
        awaited_rejections si = [] /\ lastAnalysis this' = Some analysis).
Proof.
  destruct (first_failure si) as [e|] eqn:E.
  - pose proof (detectHardware_thrown si env this e E) as H.
    pose proof (first_failure_rejected si e E) as Hin.
    split; [eauto|]. split.
    + intros this' message H'. rewrite H in H'. injection H' as <- <-. eauto.
    + intros this' analysis H'. rewrite H in H'. discriminate.
  - destruct (detectHardware_returned si env this E) as [analysis H].
    apply first_failure_none in E.
    split; [done|]. split.
    + intros this' message H'. rewrite H in H'. discriminate.
    + intros this' analysis' H'. rewrite H in H'. injection H' as <- <-. done.
Qed.

Lemma failed_analysis_keeps_cache_witness :
  (exists cause,
     cause ∈ awaited_rejections Examples.no_graphics
     /\ detectHardware Examples.no_graphics Examples.env Examples.analysed
        = (Examples.analysed, Thrown ("Hardware detection failed: " ++ cause)%string))
  /\ lastAnalysis Examples.analysed = Some Examples.analysis.
Proof.
  split.
  - apply (proj1 (failed_analysis_keeps_cache
                    Examples.no_graphics Examples.env Examples.analysed)).
    vm_compute. discriminate.
  - destruct (failed_analysis_keeps_cache
                Examples.inventory_ok Examples.env HardwareDetector.constructor)
      as (_ & _ & H).
    apply (H Examples.analysed Examples.analysis). reflexivity.
Defined.

Section Fingerprint.

Lemma sort_insert_Forall {A} (compare : A -> A -> Z) (P : A -> Prop) x l :
  P x -> Forall P l -> Forall P (sort_insert compare x l).
Proof.
  intros Hx. induction 1 as [|y l Hy Hl IH]; cbn [sort_insert].
  - now repeat constructor.
  - destruct (compare x y <=? 0); repeat constructor; assumption.
Qed.

Lemma Array_sort_Forall {A} (compare : A -> A -> Z) (P : A -> Prop) l :
  Forall P l -> Forall P (Array_sort compare l).
Proof.
  induction 1 as [|x l Hx Hl IH]; [constructor|].
  now apply sort_insert_Forall.
Qed.

Lemma Array_sort_nil {A} (compare : A -> A -> Z) l :
  Array_sort compare l = [] <-> l = [].
Proof.
  split; [|now intros ->].
  destruct l as [|x l]; [reflexivity|]. unfold Array_sort. cbn [foldr].
  destruct (foldr (sort_insert compare) [] l) as [|y l']; cbn [sort_insert];
    [discriminate|].
  destruct (compare x y <=? 0); discriminate.
Qed.

Lemma str_or_not_empty (o : option string) (d : string) :
  d <> EmptyString -> str_or o d <> EmptyString.
Proof. destruct o as [[|c s]|]; cbn; try done. Qed.

End Fingerprint.

(** ** The analysis as a whole *)

Section Whole.
Import Pipeline.

Lemma detectHardware_pipeline
    (si : Collaborators) (env : Env) (this : Detector) (x : Answers) :
  answered si x ->
  detectHardware si env this
  = ({| lastAnalysis := Some (analysis_of x env);
        this_analysisTimestamp := Some (clock_stored env) |},
     Returned (analysis_of x env)).
Proof.
  intros (H1 & H2 & H3 & H4 & H5 & H6 & H7 & H8 & H9 & H10 & H11 & H12).
  unfold detectHardware, getAvailableStorage.
  rewrite H1, H2, H3, H4, H5, H6, H7, H8, H9, H10, H11, H12.
  destruct x as [? ? ? ? ? ? ? ? ? ? ? fs]. cbn [a_fsSize].
  destruct fs as [[|fs rest]|? ?]; reflexivity.
Qed.

End Whole.

(** ** More on the performance scorer *)

Section ScorerMore.
Import Pipeline.
Local Open Scope Q_scope.






End ScorerMore.







(** ** More on the classifiers *)

Section ClassifiersMore.

Lemma extractGPUBrand_cases (v : string) :
  v <> EmptyString ->
  extractGPUBrand (Some v)
  = let vendorLower := toLowerCase v in
    if includes vendorLower "nvidia" || includes vendorLower "geforce" then "NVIDIA"
    else if includes vendorLower "amd" || includes vendorLower "ati"
            || includes vendorLower "radeon" then "AMD"
    else if includes vendorLower "intel" && negb (includes vendorLower "nvidia")
         then "Intel"
    else if includes vendorLower "apple" then "Apple"
    else v.
Proof. destruct v; [congruence | reflexivity]. Qed.

Lemma includes_empty (t : string) : t <> EmptyString -> includes "" t = false.
Proof. destruct t; [congruence | reflexivity]. Qed.

Lemma reported_GB_positive (reported : option Q) (gb : Z) :
  Spec.reported_GB reported = Some gb -> 1 <= gb.
Proof.
  unfold Spec.reported_GB, present_gt, num_or, gt.
  destruct reported as [v|]; [|discriminate].
  destruct (truthy v); [|discriminate]. cbn [andb].
  destruct (Qle_bool v 512) eqn:E; [discriminate|]. cbn [negb].
  intros [= <-].
  assert (512 < v)%Q by (apply Qnot_le_lt; rewrite <- Qle_bool_iff, E; discriminate).
  change 1 with (Math_round (1 # 2)). apply Math_round_mono.
  apply Qle_shift_div_l; [reflexivity | lra].
Qed.

Lemma known_model_positive (m v : string) (gb : Z) :
  Spec.known_model m v = Some gb -> 4 <= gb <= 16.
Proof.
  unfold Spec.known_model.
  cbn [find Spec.model_table Spec.vendor_table fst snd fmap option_fmap option_map].
  includes_cases; intros [= <-]; lia.
Qed.

End ClassifiersMore.

(** X4.  The brand of a GPU is never empty, it is one of NVIDIA, AMD, Intel,
    Apple and Unknown or else the vendor string as it came, and it is a normal
    form: the brand of a brand is that brand. *)
Theorem brand_normal_form (vendor : option string) :
  let brand := extractGPUBrand vendor in
  brand <> EmptyString
  /\ (In brand ["NVIDIA"; "AMD"; "Intel"; "Apple"; "Unknown"] \/ vendor = Some brand)
  /\ extractGPUBrand (Some brand) = brand.
Proof.
  intros brand. subst brand.
  destruct vendor as [v|]; [|cbn; intuition discriminate].
  destruct (string_dec v "") as [->|Hv]; [cbn; intuition discriminate|].
  rewrite (extractGPUBrand_cases v Hv). cbv zeta.
  destruct (includes (toLowerCase v) "nvidia" || includes (toLowerCase v) "geforce")
    eqn:E1; [cbn; intuition discriminate|].
  destruct (includes (toLowerCase v) "amd" || includes (toLowerCase v) "ati"
            || includes (toLowerCase v) "radeon") eqn:E2;
    [cbn; intuition discriminate|].
  destruct (includes (toLowerCase v) "intel" && negb (includes (toLowerCase v) "nvidia"))
    eqn:E3; [cbn; intuition discriminate|].
  destruct (includes (toLowerCase v) "apple") eqn:E4; [cbn; intuition discriminate|].
  split; [exact Hv|]. split; [now right|].
  rewrite (extractGPUBrand_cases v Hv). cbv zeta. now rewrite E1, E2, E3, E4.
Qed.

(** X5.  A vendor string in which "ati" occurs is never given the brand
    Intel or Apple: it is NVIDIA when nvidia or geforce occurs too, else AMD.
    "Intel Corporation" is such a string. *)
Theorem brand_ati_precedence (vendor : string) :
  includes (toLowerCase vendor) "ati" = true ->
  extractGPUBrand (Some vendor)
  = if includes (toLowerCase vendor) "nvidia" || includes (toLowerCase vendor) "geforce"
    then "NVIDIA" else "AMD".
Proof.
  intros H.
  assert (vendor <> EmptyString) as Hv by (intros ->; discriminate H).
  rewrite (extractGPUBrand_cases vendor Hv). cbv zeta. rewrite H.
  destruct (includes (toLowerCase vendor) "nvidia" || includes (toLowerCase vendor) "geforce");
    [reflexivity|].
  now rewrite orb_true_r.
Qed.

Lemma brand_ati_precedence_witness :
  extractGPUBrand (Some Cases.intel_corporation) = "AMD".
Proof.
  apply (brand_ati_precedence Cases.intel_corporation). reflexivity.
Defined.

(** X6.  The VRAM the detector resolves is never negative; it is 0 exactly
    when the model is in no table and neither reported value is above 512 MB,
    a table hit gives between 4 and 16 GB, and a reported value above the
    floor gives at least 1 GB. *)
Theorem vram_non_negative (gpu : Controller) :
  let model := toLowerCase (str_or (model gpu) "") in
  let vendor := toLowerCase (str_or (vendor gpu) "") in
  0 <= getGPUVRAM gpu
  /\ (getGPUVRAM gpu = 0
      <-> Spec.known_model model vendor = None
          /\ Spec.reported_GB (vram gpu) = None
          /\ Spec.reported_GB (memoryTotal gpu) = None)
  /\ (forall gb, Spec.known_model model vendor = Some gb -> 4 <= getGPUVRAM gpu <= 16)
  /\ (Spec.known_model model vendor = None ->
      (exists gb, Spec.reported_GB (vram gpu) = Some gb)
      \/ (exists gb, Spec.reported_GB (memoryTotal gpu) = Some gb) ->
      1 <= getGPUVRAM gpu).
Proof.
  intros m v. rewrite getGPUVRAM_sensors_first.
  unfold Spec.vram_resolution_sensors_first. fold m v.
  destruct (Spec.known_model m v) as [gb|] eqn:K.
  - pose proof (known_model_positive m v gb K).
    split; [lia|]. split; [|split].
    + split; [lia | intros [? _]; discriminate].
    + intros gb' [= <-]. lia.
    + discriminate.
  - destruct (Spec.reported_GB (vram gpu)) as [g1|] eqn:R1.
    + pose proof (reported_GB_positive _ _ R1).
      split; [lia|]. split; [|split].
      * split; [lia | intros (_ & ? & _); discriminate].
      * discriminate.
      * intros _ _. lia.
    + destruct (Spec.reported_GB (memoryTotal gpu)) as [g2|] eqn:R2; simpl.
      * pose proof (reported_GB_positive _ _ R2).
        split; [lia|]. split; [|split].
        -- split; [lia | intros (_ & _ & ?); discriminate].
        -- discriminate.
        -- intros _ _. lia.
      * split; [lia|]. split; [|split].
        -- split; auto.
        -- discriminate.
        -- intros _ [[? ?]|[? ?]]; discriminate.
Qed.

Lemma vram_non_negative_witness :
  4 <= getGPUVRAM Examples.rtx3060 <= 16 /\ 1 <= getGPUVRAM Examples.matrox.
Proof.
  split.
  - destruct (vram_non_negative Examples.rtx3060) as (_ & _ & H & _).
    apply (H 6). reflexivity.
  - destruct (vram_non_negative Examples.matrox) as (_ & _ & _ & H).
    apply H; [reflexivity|]. left. exists 2. reflexivity.
Defined.

(** X7.  The two variants of the GPU type classifier differ only where the
    richer one says dedicated: on every model and vendor they agree, or the
    richer one answers dedicated; and what the simpler one calls dedicated the
    richer one calls dedicated too. *)
Theorem gpu_type_variants (model vendor : option string) :
  (determineGPUType model vendor = SimpleDetector.determineGPUType model vendor
   \/ determineGPUType model vendor = dedicated)
  /\ (SimpleDetector.determineGPUType model vendor = dedicated ->
      determineGPUType model vendor = dedicated).
Proof.
  unfold determineGPUType, SimpleDetector.determineGPUType.
  destruct (str_not model); [split; [now left | discriminate]|].
  generalize (toLowerCase (str_or model "")) as m.
  generalize (toLowerCase (str_or vendor "")) as v.
  intros v m.
  includes_cases; split; auto; discriminate.
Qed.

Lemma gpu_type_variants_witness :
  determineGPUType (Some "NVIDIA GeForce RTX 3060") (Some "NVIDIA") = dedicated.
Proof.
  apply (proj2 (gpu_type_variants (Some "NVIDIA GeForce RTX 3060") (Some "NVIDIA"))).
  reflexivity.
Defined.

(** ** The analysis: the order of the GPUs, success, and what it returns *)

Section AnalysisMore.
Import Pipeline.

Lemma compareGPUs_total (a b : GpuInfo) :
  ~ compareGPUs a b <= 0 -> compareGPUs b a <= 0.
Proof.
  unfold compareGPUs. destruct (is_dedicated a), (is_dedicated b); cbn; lia.
Qed.

Lemma compareGPUs_trans (a b c : GpuInfo) :
  compareGPUs a b <= 0 -> compareGPUs b c <= 0 -> compareGPUs a c <= 0.
Proof.
  unfold compareGPUs.
  destruct (is_dedicated a), (is_dedicated b), (is_dedicated c); cbn; lia.
Qed.

Lemma compareGPUs_le (a b : GpuInfo) :
  compareGPUs a b <= 0 <->
  (type b = dedicated -> type a = dedicated)
  /\ ((type a = dedicated <-> type b = dedicated) -> vramGB b <= vramGB a).
Proof.
  unfold compareGPUs, is_dedicated.
  destruct (type a), (type b); cbn; intuition (try discriminate; try lia).
Qed.

Lemma sort_insert_sorted {A} (compare : A -> A -> Z) (x : A) (l : list A) :
  (forall a b, ~ compare a b <= 0 -> compare b a <= 0) ->
  (forall a b c, compare a b <= 0 -> compare b c <= 0 -> compare a c <= 0) ->
  StronglySorted (fun a b => compare a b <= 0) l ->
  StronglySorted (fun a b => compare a b <= 0) (sort_insert compare x l).
Proof.
  intros Htotal Htrans. induction 1 as [|y l Hl IH Hy]; cbn [sort_insert].
  - repeat constructor.
  - destruct (Z.leb_spec (compare x y) 0) as [Hxy|Hxy].
    + constructor; [now constructor|]. constructor; [exact Hxy|].
      eapply Forall_impl; [exact Hy|]. intros z Hz. now apply (Htrans x y z).
    + constructor; [exact IH|].
      apply sort_insert_Forall; [|exact Hy].
      apply Htotal. lia.
Qed.

Lemma Array_sort_sorted {A} (compare : A -> A -> Z) (l : list A) :
  (forall a b, ~ compare a b <= 0 -> compare b a <= 0) ->
  (forall a b c, compare a b <= 0 -> compare b c <= 0 -> compare a c <= 0) ->
  StronglySorted (fun a b => compare a b <= 0) (Array_sort compare l).
Proof.
  intros Htotal Htrans. induction l as [|x l IH]; [constructor|].
  now apply sort_insert_sorted.
Qed.

Lemma StronglySorted_lookup {A} (R : A -> A -> Prop) (l : list A) i j a b :
  StronglySorted R l -> (i < j)%nat -> l !! i = Some a -> l !! j = Some b -> R a b.
Proof.
  intros Hl. revert i j. induction Hl as [|x l Hl IH Hx]; intros i j Hij Hi Hj.
  - now rewrite lookup_nil in Hi.
  - destruct j as [|j]; [lia|]. cbn in Hj. destruct i as [|i].
    + cbn in Hi. injection Hi as <-.
      rewrite Forall_forall in Hx. apply Hx. eapply list_elem_of_lookup_2, Hj.
    + cbn in Hi. apply (IH i j); [lia | exact Hi | exact Hj].
Qed.

Lemma first_failure_answered (si : Collaborators) :
  first_failure si = None -> exists x, answered si x.
Proof.
  unfold first_failure.
  destruct (inventory si) as [v|t e'] eqn:E; [|discriminate].
  apply inventory_fulfilled in E as (H1 & H2 & H3 & H4 & H5 & H6 & H7 & H8).
  destruct (si_currentLoad si) as [load|? ?] eqn:H9; [|discriminate].
  destruct (si_cpuTemperature si) as [cpuTemp|? ?] eqn:H10; [|discriminate].
  destruct (si_memLayout si) as [memLayout|? ?] eqn:H11; [|discriminate].
  intros _.
  exists {| a_cpu := v.1; a_memory := v.2.1; a_graphics := v.2.2.1;
            a_osInfo := v.2.2.2.1; a_system := v.2.2.2.2.1;
            a_diskLayout := v.2.2.2.2.2.1;
            a_networkInterfaces := v.2.2.2.2.2.2.1;
            a_battery := v.2.2.2.2.2.2.2;
            a_load := load; a_cpuTemp := cpuTemp; a_memLayout := memLayout;
            a_fsSize := si_fsSize si |}.
  unfold answered. cbn. tauto.
Qed.

Lemma detectHardware_returned_pipeline
    (si : Collaborators) (env : Env) (this this' : Detector) (a : Analysis) :
  detectHardware si env this = (this', Returned a) ->
  exists x, answered si x /\ a = analysis_of x env.
Proof.
  intros H. destruct (first_failure si) as [e|] eqn:E.
  - rewrite (detectHardware_thrown si env this e E) in H. discriminate.
  - destruct (first_failure_answered si E) as [x Hx].
    rewrite (detectHardware_pipeline si env this x Hx) in H.
    exists x. split; [exact Hx|]. congruence.
Qed.

Lemma scores_of_reported_gpu cpu memory (g : option GpuInfo) storage :
  calculatePerformanceScores cpu memory (gpu_arg g) storage
  = calculatePerformanceScores cpu memory (gpu_arg (Some (default no_gpu g))) storage.
Proof. destruct g; reflexivity. Qed.

End AnalysisMore.

(** ** The fingerprint of a returned analysis *)

Section FingerprintOfAnalysis.
Import Pipeline.

Lemma substring0_first_characters (n : nat) (s : string) :
  Spec.first_characters n s (substring0 n s).
Proof.
  unfold Spec.first_characters, substring0. revert s.
  induction n as [|n IH]; intros [|c s]; cbn [String.substring String.length Nat.min].
  - split; [now exists "" | reflexivity].
  - split; [now exists (String c s) | reflexivity].
  - split; [now exists "" | reflexivity].
  - destruct (IH s) as [[rest Hrest] Hlen]. split.
    + exists rest. now rewrite Hrest at 1.
    + now rewrite Hlen.
Qed.

Lemma gpu_entry_shown (c : Controller) :
  driver (gpu_entry c) <> None /\ gpu_model (gpu_entry c) <> EmptyString.
Proof. split; [discriminate|]. cbn. now apply str_or_not_empty. Qed.

Lemma fingerprint_of_analysis
    (si : Collaborators) (env : Env) (this this' : Detector) (a : Analysis)
    (graphics : list Controller) :
  detectHardware si env this = (this', Returned a) ->
  si_graphics si = Fulfilled graphics ->
  hardwareFingerprint a = substring0 16 (Spec.encode (Spec.canonical_of a))
  /\ Spec.shows_gpu a = Spec.has_gpu graphics.
Proof.
  intros H Hg. apply detectHardware_returned_pipeline in H as (x & Hx & ->).
  destruct Hx as (_ & _ & Hx & _). rewrite Hg in Hx. injection Hx as Hx.
  unfold Spec.encode, Spec.canonical_of, Spec.canonical,
    Spec.primaryGpuModelOrIntegrated, Spec.shows_gpu, fingerprintData.
  cbn [hardwareFingerprint hardwareSpecs analysis_of cpu memory gpu system].
  unfold fingerprintData. rewrite <- Hx. clear Hx.
  assert (Forall (fun g => driver g <> None /\ gpu_model g <> EmptyString)
            (gpuInfo_of graphics)) as Hall
    by (apply Array_sort_Forall, Forall_fmap, Forall_forall; intros c _;
        apply gpu_entry_shown).
  destruct (gpuInfo_of graphics) as [|g gpuInfo] eqn:E.
  - apply Array_sort_nil, fmap_nil_inv in E. subst graphics.
    split; reflexivity.
  - assert (graphics <> []) as Hne
      by (intros ->; discriminate E).
    apply Forall_cons in Hall as [[Hd Hm] _].
    cbn [head default from_option id fmap option_fmap option_map].
    destruct (driver g); [|done]. destruct (gpu_model g) eqn:Em; [done|].
    split; [reflexivity|]. now destruct graphics.
Qed.

End FingerprintOfAnalysis.

(** C8, amended.  The fingerprint of an analysis is the first 16 characters
    of the encoding of the canonical string
    logicalCores-totalMemoryGB-primaryGpuModelOrIntegrated-osPlatform, whose
    third part is the model of the primary GPU when the inventory has a
    controller and the literal "integrated" when it has none; the encoding can
    be reversed; and two analyses with the same logical core count, total
    memory, third part and OS have the same fingerprint. *)
Theorem fingerprint_canonical_deterministic :
  (forall si env this this' a graphics,
      detectHardware si env this = (this', Returned a) ->
      si_graphics si = Fulfilled graphics ->
      Spec.first_characters 16 (Spec.encode (Spec.canonical_of a)) (hardwareFingerprint a)
      /\ Spec.shows_gpu a = Spec.has_gpu graphics)
  /\ (forall s, Spec.decode (Spec.encode s) = Some s)
  /\ (forall si1 env1 this1 this1' a1 graphics1 si2 env2 this2 this2' a2 graphics2,
      detectHardware si1 env1 this1 = (this1', Returned a1) ->
      si_graphics si1 = Fulfilled graphics1 ->
      detectHardware si2 env2 this2 = (this2', Returned a2) ->
      si_graphics si2 = Fulfilled graphics2 ->
      logicalCores (cpu (hardwareSpecs a1)) = logicalCores (cpu (hardwareSpecs a2)) ->
      totalMemoryGB (memory (hardwareSpecs a1))
      = totalMemoryGB (memory (hardwareSpecs a2)) ->
      Spec.primaryGpuModelOrIntegrated a1 = Spec.primaryGpuModelOrIntegrated a2 ->
      os (system (hardwareSpecs a1)) = os (system (hardwareSpecs a2)) ->
      hardwareFingerprint a1 = hardwareFingerprint a2).
Proof.
  split; [|split].
  - intros si env this this' a graphics H Hg.
    destruct (fingerprint_of_analysis si env this this' a graphics H Hg) as [-> Hs].
    split; [apply substring0_first_characters | exact Hs].
  - exact decode_encode.
  - intros si1 env1 this1 this1' a1 graphics1 si2 env2 this2 this2' a2 graphics2
      H1 Hg1 H2 Hg2 Hc Hm Hp Ho.
    destruct (fingerprint_of_analysis _ _ _ _ _ _ H1 Hg1) as [-> _].
    destruct (fingerprint_of_analysis _ _ _ _ _ _ H2 Hg2) as [-> _].
    unfold Spec.canonical_of. now rewrite Hc, Hm, Hp, Ho.
Qed.

Lemma fingerprint_canonical_deterministic_witness :
  Spec.first_characters 16 (Spec.encode "8-32-NVIDIA GeForce RTX 3070-linux")
    (hardwareFingerprint Examples.analysis)
  /\ hardwareFingerprint Examples.analysis = "OC0zMi1OVklESUEg"
  /\ hardwareFingerprint Examples.analysis = hardwareFingerprint Examples.analysis_later.
Proof.
  split; [|split].
  - destruct fingerprint_canonical_deterministic as [H _].
    apply (H Examples.inventory_ok Examples.env HardwareDetector.constructor
             Examples.analysed Examples.analysis
             [Examples.uhd630;
              Examples.controller "NVIDIA GeForce RTX 3070" "NVIDIA" (Some 16%Q)]);
      reflexivity.
  - reflexivity.
  - destruct fingerprint_canonical_deterministic as (_ & _ & H).
    apply (H Examples.inventory_ok Examples.env HardwareDetector.constructor
             Examples.analysed Examples.analysis
             [Examples.uhd630;
              Examples.controller "NVIDIA GeForce RTX 3070" "NVIDIA" (Some 16%Q)]
             Examples.inventory_later Examples.env_later Examples.analysed
             (detectHardware Examples.inventory_later Examples.env_later
                Examples.analysed).1
             Examples.analysis_later
             [Examples.controller "NVIDIA GeForce RTX 3070" "NVIDIA" None]);
      reflexivity.
Defined.

(** C8 as stated fails: a machine without a controller and a machine whose
    only controller is named Integrated Graphics give analyses with the same
    logical core count, total memory, GPU model and OS, and with different
    fingerprints. *)
Lemma fingerprint_canonical_deterministic_counterexample :
  detectHardware Cases.no_controller Examples.env HardwareDetector.constructor
  = ((detectHardware Cases.no_controller Examples.env HardwareDetector.constructor).1,
     Returned Cases.no_controller_analysis)
  /\ gpu_model (gpu (hardwareSpecs Cases.no_controller_analysis))
     = gpu_model (gpu (hardwareSpecs Cases.named_integrated_analysis))
  /\ hardwareFingerprint Cases.no_controller_analysis = "OC0zMi1pbnRlZ3Jh"
  /\ hardwareFingerprint Cases.named_integrated_analysis = "OC0zMi1JbnRlZ3Jh"
  /\ ~ Spec.same_model_same_fingerprint.
Proof.
  repeat split. intros H.
  specialize (H Cases.no_controller Cases.named_integrated Examples.env Examples.env
                HardwareDetector.constructor
                (detectHardware Cases.no_controller Examples.env
                   HardwareDetector.constructor).1
                HardwareDetector.constructor
                (detectHardware Cases.named_integrated Examples.env
                   HardwareDetector.constructor).1
                Cases.no_controller_analysis Cases.named_integrated_analysis
                eq_refl eq_refl eq_refl eq_refl eq_refl eq_refl).
  discriminate H.
Qed.

(** X8.  The GPU list of an analysis holds exactly the entries of the
    inventory's controllers, every dedicated entry stands before every other
    one, and among the dedicated ones and among the others the VRAM never
    goes up along the list.  So the first entry, the GPU the analysis scores,
    exists when the inventory has a controller, is dedicated when any
    controller is, and has at least the VRAM of every controller of its own
    class. *)
Theorem gpus_dedicated_first (graphics : list Controller) :
  let gpuInfo := Pipeline.gpuInfo_of graphics in
  gpuInfo ≡ₚ Pipeline.gpu_entry <$> graphics
  /\ (forall i j a b,
        (i < j)%nat -> gpuInfo !! i = Some a -> gpuInfo !! j = Some b ->
        (type b = dedicated -> type a = dedicated)
        /\ ((type a = dedicated <-> type b = dedicated) -> vramGB b <= vramGB a))
  /\ (forall c, c ∈ graphics ->
        exists g,
          head gpuInfo = Some g
          /\ (determineGPUType (model c) (vendor c) = dedicated -> type g = dedicated)
          /\ ((type g = dedicated <-> determineGPUType (model c) (vendor c) = dedicated)
              -> getGPUVRAM c <= vramGB g)).
Proof.
  intros gpuInfo.
  assert (gpuInfo ≡ₚ Pipeline.gpu_entry <$> graphics) as Hperm
    by apply Array_sort_Permutation.
  assert (StronglySorted (fun a b => compareGPUs a b <= 0) gpuInfo) as Hsorted
    by (apply Array_sort_sorted; [apply compareGPUs_total | apply compareGPUs_trans]).
  split; [exact Hperm|]. split.
  - intros i j a b Hij Hi Hj. apply compareGPUs_le.
    exact (StronglySorted_lookup _ _ i j a b Hsorted Hij Hi Hj).
  - intros c Hc.
    assert (Pipeline.gpu_entry c ∈ gpuInfo) as Hin
      by (rewrite Hperm; now apply list_elem_of_fmap_2).
    destruct gpuInfo as [|g rest]; [now apply elem_of_nil in Hin|].
    exists g. split; [reflexivity|].
    apply elem_of_cons in Hin as [<-|Hin];
      [cbn [type vramGB Pipeline.gpu_entry]; split; [tauto | intros _; lia]|].
    apply StronglySorted_inv in Hsorted as [_ Hg]. rewrite Forall_forall in Hg.
    apply (compareGPUs_le g (Pipeline.gpu_entry c)), Hg, Hin.
Qed.

(** X9.  When none of the eleven queries that the analysis awaits is
    rejected, the analysis returns an analysis, whatever [si.fsSize()] does
    and whatever the detector held before; the detector then caches that
    analysis and the time; and when [si.fsSize()] is rejected or lists no
    file system the available space is reported as 0. *)
Theorem analysis_succeeds (si : Collaborators) (env : Env) :
  awaited_rejections si = [] ->
  exists a,
    (forall this,
        detectHardware si env this
        = ({| lastAnalysis := Some a;
              this_analysisTimestamp := Some (clock_stored env) |},
           Returned a))
    /\ analysisTimestamp a = clock_analysis env
    /\ ((forall fs, si_fsSize si = Fulfilled fs -> fs = []) ->
        availableSpaceGB (storage (hardwareSpecs a)) = 0).
Proof.
  intros H. apply first_failure_none in H.
  destruct (first_failure_answered si H) as [x Hx].
  exists (Pipeline.analysis_of x env). split; [|split].
  - intros this. now apply detectHardware_pipeline.
  - reflexivity.
  - intros Hfs. cbn.
    destruct Hx as (_ & _ & _ & _ & _ & _ & _ & _ & _ & _ & _ & Hx).
    rewrite <- Hx. destruct (si_fsSize si) as [[|fs rest]|? ?]; try reflexivity.
    now specialize (Hfs _ eq_refl).
Qed.

Lemma analysis_succeeds_witness :
  exists a,
    detectHardware Examples.inventory_ok Examples.env HardwareDetector.constructor
    = ({| lastAnalysis := Some a;
          this_analysisTimestamp := Some (clock_stored Examples.env) |},
       Returned a).
Proof.
  destruct (analysis_succeeds Examples.inventory_ok Examples.env) as (a & H & _);
    [reflexivity|].
  exists a. apply H.
Defined.

(** X10.  The scores and the tier of a returned analysis can be computed
    again from the hardware specifications it returns: the scores are those
    of its CPU, its memory, its GPU entry and its first drive, the tier is
    that of its overall score, the total space is the sum of the sizes of its
    drives, and the storage type is that of the first drive. *)
Theorem analysis_recomputable
    (si : Collaborators) (env : Env) (this this' : Detector) (a : Analysis) :
  detectHardware si env this = (this', Returned a) ->
  let specs := hardwareSpecs a in
  performanceScores a
  = calculatePerformanceScores (cpu specs) (memory specs)
      (gpu_arg (Some (gpu specs))) (storage_arg (head (drives (storage specs))))
  /\ hardwareTier a
     = calculateHardwareTier (inject_Z (overallScore (performanceScores a)))
  /\ totalSpaceGB (storage specs)
     = foldl (fun sum disk => sum + sizeGB disk) 0 (drives (storage specs))
  /\ storageType (storage specs)
     = default SSD (drive_type <$> head (drives (storage specs))).
Proof.
  intros H. apply detectHardware_returned_pipeline in H as (x & _ & ->).
  cbn. split; [|tauto]. apply scores_of_reported_gpu.
Qed.

Lemma analysis_recomputable_witness :
  hardwareTier Examples.analysis
  = calculateHardwareTier (inject_Z (overallScore (performanceScores Examples.analysis))).
Proof.
  destruct (analysis_recomputable Examples.inventory_ok Examples.env
              HardwareDetector.constructor Examples.analysed Examples.analysis)
    as (_ & H & _); [reflexivity|].
  exact H.
Defined.

(** X11.  The storage score of a returned analysis is 85 when the type of
    the first disk of the inventory is exactly the string SSD and 60
    otherwise, also for a disk of type NVMe; with no disk at all the analysis
    reports the storage type SSD and yet the storage score 60. *)
Theorem storage_score_first_disk
    (si : Collaborators) (env : Env) (this this' : Detector) (a : Analysis)
    (diskLayout : list SiDisk) :
  detectHardware si env this = (this', Returned a) ->
  si_diskLayout si = Fulfilled diskLayout ->
  storageScore (performanceScores a)
  = (if bool_decide (disk_type <$> head diskLayout = Some "SSD") then 85 else 60)
  /\ length (drives (storage (hardwareSpecs a))) = length diskLayout
  /\ (diskLayout = [] ->
      storageType (storage (hardwareSpecs a)) = SSD
      /\ storageScore (performanceScores a) = 60).
Proof.
  intros H Hd. apply detectHardware_returned_pipeline in H as (x & Hx & ->).
  destruct Hx as (_ & _ & _ & _ & _ & Hx & _). rewrite Hd in Hx.
  injection Hx as Hx. cbn. rewrite <- Hx, length_fmap.
  split; [|split; [reflexivity|]].
  - destruct diskLayout as [|d rest]; [reflexivity|]. cbn.
    destruct (String.eqb_spec (disk_type d) "SSD") as [->|Hne].
    + reflexivity.
    + rewrite bool_decide_false; [reflexivity|]. intros [= ?]. done.
  - intros ->. split; reflexivity.
Qed.

Lemma storage_score_first_disk_witness :
  storageScore (performanceScores Cases.nvme_analysis) = 60.
Proof.
  destruct (storage_score_first_disk Cases.nvme Examples.env
              HardwareDetector.constructor
              (detectHardware Cases.nvme Examples.env HardwareDetector.constructor).1
              Cases.nvme_analysis
              [{| disk_type := "NVMe"; disk_size := 1000000000000%Q;
                  name := "WD Black"; interfaceType := "PCIe" |}])
    as [H _]; [reflexivity | reflexivity |].
  exact H.
Defined.

(** ** The realtime sample and the hardware routes *)

Section RoutesMore.
Import Routes.

Lemma detectHardware_outcome (si : Collaborators) (env : Env) (this : Detector) :
  (awaited_rejections si = []
   /\ exists a,
        detectHardware si env this
        = ({| lastAnalysis := Some a;
              this_analysisTimestamp := Some (clock_stored env) |},
           Returned a))
  \/ (exists cause,
        cause ∈ awaited_rejections si
        /\ detectHardware si env this
           = (this, Thrown ("Hardware detection failed: " ++ cause)%string)).
Proof.
  destruct (first_failure si) as [e|] eqn:E.
  - right. exists e. split; [now apply first_failure_rejected|].
    now apply detectHardware_thrown.
  - left. split; [now apply first_failure_none|].
    now apply detectHardware_returned.
Qed.

Lemma getRealtimeStats_outcome (si : Realtime.Queries) (this : Detector) :
  exists r,
    Realtime.getRealtimeStats si this = (this, Returned r)
    /\ (r = None <-> Realtime.rejections si <> []).
Proof.
  unfold Realtime.getRealtimeStats, Realtime.rejections.
  destruct (Realtime.q_currentLoad si) as [currentLoad|t1 e1],
    (Realtime.q_mem si) as [memory|t2 e2],
    (Realtime.q_cpuTemperature si) as [cpuTemp|t3 e3],
    (Realtime.q_graphics si) as [gpu|t4 e4];
    unfold Promise_all;
    repeat match goal with
           | |- context [(?a <? ?b)%nat] => destruct (a <? b)%nat
           end;
    eexists; (split; [reflexivity|]); cbn; split; try done.
Qed.

(** What a handler does to the cache and what its reply carries. *)
Lemma handle_cache (request : Request) (this : Detector) :
  exists this' reply,
    handle request this = (this', Returned reply)
    /\ lastAnalysis this'
       = from_option Some (lastAnalysis this) (carried reply).
Proof.
  destruct request as [si env| |si| |si env]; unfold handle.
  - unfold hardware_analyze.
    destruct (detectHardware_outcome si env this) as [[_ [a H]]|(cause & _ & H)];
      do 2 eexists; (split; [cbv [mbind async_bind bind try_catch]; rewrite H;
                             reflexivity|]); reflexivity.
  - unfold hardware_info. destruct (lastAnalysis this) as [a|] eqn:E;
      do 2 eexists; (split; [cbv [mbind async_bind bind]; rewrite E; reflexivity|]);
      cbn; now rewrite E.
  - unfold hardware_realtime.
    destruct (getRealtimeStats_outcome si this) as (r & H & _).
    do 2 eexists. split; [cbv [mbind async_bind bind try_catch]; rewrite H;
                          reflexivity|].
    reflexivity.
  - unfold ws_initial_hardware. destruct (lastAnalysis this) as [a|] eqn:E;
      do 2 eexists; (split; [cbv [mbind async_bind bind]; rewrite E; reflexivity|]);
      cbn; now rewrite E.
  - unfold ws_get_hardware.
    destruct (detectHardware_outcome si env this) as [[_ [a H]]|(cause & _ & H)];
      do 2 eexists; (split; [cbv [mbind async_bind bind try_catch]; rewrite H;
                             reflexivity|]); reflexivity.
Qed.

Lemma last_carried_cons (reply : Reply) (replies : list Reply) (cached : option Analysis) :
  from_option Some (from_option Some cached (carried reply)) (last_carried replies)
  = from_option Some cached (last_carried (reply :: replies)).
Proof.
  unfold last_carried. cbn [omap list_omap].
  destruct (carried reply) as [a|]; [|reflexivity].
  cbn [from_option]. destruct (omap carried replies) as [|b l] eqn:E.
  - reflexivity.
  - change (last (a :: b :: l)) with (last (b :: l)).
    destruct (last (b :: l)) as [c|] eqn:El; [reflexivity|].
    now apply last_None in El.
Qed.

End RoutesMore.

(** X12.  [getRealtimeStats] never throws and never touches the detector:
    it returns a sample, or [null] exactly when one of its four queries is
    rejected.  A sample carries the reading of the clock, one entry for each
    controller and one load for each core. *)
Theorem realtime_stats_or_null (si : Realtime.Queries) (this : Detector) :
  exists r,
    Realtime.getRealtimeStats si this = (this, Returned r)
    /\ (r = None <-> Realtime.rejections si <> [])
    /\ (forall stats, r = Some stats ->
          Realtime.timestamp stats = Realtime.q_clock si
          /\ (forall controllers,
                Realtime.q_graphics si = Fulfilled controllers ->
                length (Realtime.stats_gpu stats) = length controllers)
          /\ (forall currentLoad cores,
                Realtime.q_currentLoad si = Fulfilled currentLoad ->
                Realtime.cpus currentLoad = Some cores ->
                length (Realtime.stats_cores (Realtime.stats_cpu stats))
                = length cores)).
Proof.
  destruct (getRealtimeStats_outcome si this) as (r & H & Hr).
  exists r. split; [exact H|]. split; [exact Hr|].
  intros stats ->. revert H.
  unfold Realtime.getRealtimeStats.
  destruct (Realtime.q_currentLoad si) as [currentLoad|t1 e1],
    (Realtime.q_mem si) as [memory|t2 e2],
    (Realtime.q_cpuTemperature si) as [cpuTemp|t3 e3],
    (Realtime.q_graphics si) as [gpu|t4 e4];
    unfold Promise_all;
    repeat match goal with
           | |- context [(?a <? ?b)%nat] => destruct (a <? b)%nat
           end;
    try discriminate.
  intros [= <-]. cbn. split; [reflexivity|]. split.
  - intros controllers [= <-]. apply length_fmap.
  - intros currentLoad' cores [= <-] ->. apply length_fmap.
Qed.



(** X14.  No hardware route and no hardware message handler throws.  The
    analysis route answers 200 with the analysis when no awaited query is
    rejected, and otherwise 500 with the message of the failed analysis,
    leaving the detector as it was; the info route answers 200 with the cached
    analysis, or 404 when there is none, and never changes the detector; the
    realtime route always answers 200, with [null] as data when a query is
    rejected; a [get_hardware] message is answered with the analysis or with
    an error message that carries the cause. *)
Theorem hardware_routes_answers (this : Detector) :
  (forall si env,
      (awaited_rejections si = [] /\
       exists a,
         Routes.hardware_analyze si env this
         = ({| lastAnalysis := Some a;
               this_analysisTimestamp := Some (clock_stored env) |},
            Returned (Routes.res_json (Routes.success (Routes.analysis_data a))))
         /\ Routes.ws_get_hardware si env this
            = ({| lastAnalysis := Some a;
                  this_analysisTimestamp := Some (clock_stored env) |},
               Returned [Routes.hardware_info_message a]))
      \/ (exists cause,
            cause ∈ awaited_rejections si
            /\ Routes.hardware_analyze si env this
               = (this,
                  Returned
                    (Routes.res_status_json 500
                       (Routes.failure ("Hardware detection failed: " ++ cause)%string)))
            /\ Routes.ws_get_hardware si env this
               = (this,
                  Returned
                    [Routes.error_message
                       ("Hardware detection failed: " ++ cause)%string])))
  /\ (exists response,
        Routes.hardware_info this = (this, Returned response)
        /\ (Routes.status response = 200 \/ Routes.status response = 404)
        /\ (Routes.status response = 404 <-> lastAnalysis this = None)
        /\ (forall a, lastAnalysis this = Some a ->
              Routes.body response = Routes.success (Routes.analysis_data a)))
  /\ (forall si,
        exists stats,
          Routes.hardware_realtime si this
          = (this, Returned (Routes.res_json (Routes.success (Routes.stats_data stats))))
          /\ (stats = None <-> Realtime.rejections si <> [])).
Proof.
  split; [|split].
  - intros si env. unfold Routes.hardware_analyze, Routes.ws_get_hardware.
    destruct (detectHardware_outcome si env this) as [[Hr [a H]]|(cause & Hc & H)].
    + left. split; [exact Hr|]. exists a.
      cbv [mbind async_bind bind try_catch]. rewrite H. split; reflexivity.
    + right. exists cause. split; [exact Hc|].
      cbv [mbind async_bind bind try_catch]. rewrite H. split; reflexivity.
  - unfold Routes.hardware_info. destruct (lastAnalysis this) as [a|].
    + eexists. split; [reflexivity|]. cbn. split; [now left|].
      split; [split; discriminate|]. now intros a' [= <-].
    + eexists. split; [reflexivity|]. cbn. split; [now right|].
      split; [split; reflexivity|]. discriminate.
  - intros si. unfold Routes.hardware_realtime.
    destruct (getRealtimeStats_outcome si this) as (r & H & Hr).
    exists r. split; [|exact Hr].
    cbv [mbind async_bind bind try_catch]. rewrite H. reflexivity.
Qed.

(** X15.  Whatever requests the hardware routes and the WebSocket part have
    handled, every one of them was answered, and the cached analysis is the
    one that the last reply with an analysis carried, or the one cached at
    the start when no reply carried one.  So on a new server the info route
    answers 404 until an analysis succeeds, and then it answers with the most
    recent successful analysis, whatever failed after it. *)
Theorem info_serves_last_analysis (requests : list Routes.Request) (this : Detector) :
  let result := Routes.serve requests this in
  length result.2 = length requests
  /\ lastAnalysis result.1
     = from_option Some (lastAnalysis this) (Routes.last_carried result.2)
  /\ (lastAnalysis this = None ->
      Routes.hardware_info result.1
      = (result.1,
         Returned
           match Routes.last_carried result.2 with
           | Some a => Routes.res_json (Routes.success (Routes.analysis_data a))
           | None =>
               Routes.res_status_json 404
                 (Routes.failure
                    "No hardware analysis available. Run /api/hardware/analyze first.")
           end)).
Proof.
  cbv zeta.
  assert (length (Routes.serve requests this).2 = length requests
          /\ lastAnalysis (Routes.serve requests this).1
             = from_option Some (lastAnalysis this)
                 (Routes.last_carried (Routes.serve requests this).2)) as [Hl Hc].
  { revert this. induction requests as [|request rest IH]; intros this.
    - split; reflexivity.
    - destruct (handle_cache request this) as (this' & reply & H & Hcache).
      cbn [Routes.serve]. rewrite H.
      destruct (IH this') as [IHl IHc].
      destruct (Routes.serve rest this') as [this'' replies]. cbn in *.
      split; [now rewrite IHl|].
      rewrite IHc, Hcache. apply last_carried_cons. }
  split; [exact Hl|]. split; [exact Hc|].
  intros Hnone. rewrite Hnone in Hc. unfold Routes.hardware_info. rewrite Hc.
  destruct (Routes.last_carried (Routes.serve requests this).2); reflexivity.
Qed.

Lemma info_serves_last_analysis_witness :
  Routes.status
    (match
       (Routes.hardware_info
          (Routes.serve
             [Routes.GET_analyze Examples.inventory_ok Examples.env;
              Routes.GET_analyze Examples.no_graphics Examples.env_later]
             HardwareDetector.constructor).1).2
     with
     | Returned response => response
     | Thrown _ => Routes.res_status_json 0 (Routes.failure "")
     end) = 200.
Proof.
  destruct (info_serves_last_analysis
              [Routes.GET_analyze Examples.inventory_ok Examples.env;
               Routes.GET_analyze Examples.no_graphics Examples.env_later]
              HardwareDetector.constructor) as (_ & _ & H).
  rewrite (H eq_refl). reflexivity.
Defined.

(** ** The sockets and the loop in the states the server reaches *)

Section ReachedMore.
Import Reached.

Lemma Set_add_NoDup ws l : NoDup l -> NoDup (Set_add ws l).
Proof.
  intros Hl. unfold Set_add. case_bool_decide; [exact Hl|].
  apply NoDup_app. split; [exact Hl|]. split; [|apply NoDup_singleton].
  intros c Hc Hc'. apply list_elem_of_singleton in Hc'. now subst.
Qed.

Lemma Set_add_elem_of ws c l : c ∈ Set_add ws l <-> c = ws \/ c ∈ l.
Proof.
  unfold Set_add. case_bool_decide.
  - split; [tauto|]. now intros [->|?].
  - rewrite elem_of_app, list_elem_of_singleton. tauto.
Qed.

Lemma step_attached s e : clients_attached s -> clients_attached (step s e).
Proof.
  unfold clients_attached. intros (Hn & Ho & Ht).
  destruct e as [ | ws' | ws' | ws' data | h | stats | dt | ]; cbn [step].
  - unfold on_connection. cbn. split; [now apply Set_add_NoDup|]. split.
    + intros ws. rewrite elem_of_union, elem_of_singleton, Set_add_elem_of.
      intros [?|?]; auto.
    + intros _ E.
      assert (next_ws s ∈ Set_add (next_ws s) (clients s)) as Hin
        by (apply Set_add_elem_of; now left).
      rewrite E in Hin. now apply elem_of_nil in Hin.
  - cbn. split; [exact Hn|]. split; [|exact Ht].
    intros ws. rewrite elem_of_difference. intros [? _]. now apply Ho.
  - case_bool_decide; [|auto]. unfold on_close. cbn.
    assert (NoDup (Set_delete ws' (clients s))) as Hn' by now apply NoDup_filter.
    assert (forall ws, ws ∈ open_sockets s ∖ {[ws']} -> ws ∈ Set_delete ws' (clients s))
      as Ho'.
    { intros ws. rewrite elem_of_difference, elem_of_singleton.
      intros [? ?]. apply list_elem_of_filter. split; [done|]. now apply Ho. }
    destruct (Set_delete ws' (clients s)) eqn:Ed, (realtimeInterval s) eqn:E; cbn;
      rewrite ?Ed, ?E; (split; [|split]); auto; done.
  - case_bool_decide as Hin; [|auto]. destruct data; cbn; auto.
    + unfold startRealtimeUpdates. destruct (realtimeInterval s) eqn:E; cbn;
        [rewrite E; auto|].
      split; [exact Hn|]. split; [exact Ho|].
      intros _ Ec. rewrite Ec in Hin. now apply elem_of_nil in Hin.
    + unfold stopRealtimeUpdates. destruct (realtimeInterval s) eqn:E; cbn;
        rewrite ?E; (split; [|split]); auto; done.
  - unfold timer_fires. destruct (intervals s !! h); [|auto].
    destruct (due _ <=? now s); auto.
  - unfold stats_settled. destruct (in_flight s); [auto|].
    destruct stats; auto.
  - auto.
  - unfold stopRealtimeUpdates. destruct (realtimeInterval s) eqn:E; cbn;
      rewrite ?E; (split; [|split]); auto; done.
Qed.

Lemma run_attached t0 events : clients_attached (run t0 events).
Proof.
  induction events as [|e events IH] using rev_ind.
  - split; [constructor|]. split; [|done].
    intros ws Hws. cbn in Hws. now apply elem_of_empty in Hws.
  - rewrite run_snoc. now apply step_attached.
Qed.

Lemma filter_deliveries (ws : Ws) (m : Stats) (P : Ws -> Prop)
    `{forall c, Decision (P c)} (l : list Ws) :
  NoDup l ->
  filter (fun d : Ws * Stats => d.1 = ws) ((fun c => (c, m)) <$> filter P l)
  = if bool_decide (ws ∈ l /\ P ws) then [(ws, m)] else [].
Proof.
  induction 1 as [|c l Hc Hl IH].
  - rewrite bool_decide_false; [reflexivity|]. intros [Hin _].
    now apply elem_of_nil in Hin.
  - destruct (decide (P c)) as [HP|HP].
    + rewrite filter_cons_True by done. cbn [fmap list_fmap].
      destruct (decide (c = ws)) as [->|Hne].
      * rewrite filter_cons_True by done.
        rewrite (bool_decide_true (ws ∈ ws :: l /\ P ws))
          by (split; [apply list_elem_of_here | done]).
        f_equal. change (list_fmap _ _ ?f ?x) with (f <$> x). rewrite IH.
        rewrite bool_decide_false; [reflexivity|]. tauto.
      * rewrite filter_cons_False by done.
        change (list_fmap _ _ ?f ?x) with (f <$> x). rewrite IH.
        assert (bool_decide (ws ∈ l /\ P ws) = bool_decide (ws ∈ c :: l /\ P ws))
          as -> by (apply bool_decide_ext; rewrite elem_of_cons; intuition congruence).
        reflexivity.
    + rewrite filter_cons_False by done. rewrite IH.
      assert (bool_decide (ws ∈ l /\ P ws) = bool_decide (ws ∈ c :: l /\ P ws))
        as -> by (apply bool_decide_ext; rewrite elem_of_cons; intuition congruence).
      reflexivity.
Qed.

Lemma broadcast_not_open ws messageStr s :
  ws ∉ open_sockets s -> sent_to ws (broadcast messageStr s) = sent_to ws s.
Proof.
  intros Hws. unfold sent_to, broadcast. cbn. rewrite filter_app.
  match goal with |- (_ ++ ?x = _)%list => assert (x = []) as -> end;
    [|apply app_nil_r].
  apply filter_none, Forall_forall. intros [c m] Hin.
  apply list_elem_of_fmap in Hin as (c' & [= -> ->] & Hc').
  apply list_elem_of_filter in Hc' as [Hc' _]. cbn. congruence.
Qed.

Lemma step_not_open ws s e :
  not_open ws s -> not_open ws (step s e) /\ sent_to ws (step s e) = sent_to ws s.
Proof.
  intros [Ho Hn]. unfold not_open.
  destruct e as [ | ws' | ws' | ws' data | h | stats | dt | ]; cbn [step].
  - unfold on_connection, sent_to. cbn.
    split; [split; [|lia] | reflexivity].
    rewrite elem_of_union, elem_of_singleton. intros [?|?]; [lia|done].
  - cbn. split; [split; [|done] | reflexivity].
    rewrite elem_of_difference. tauto.
  - case_bool_decide; [|done]. unfold on_close. cbn.
    assert (ws ∉ open_sockets s ∖ {[ws']})
      by (rewrite elem_of_difference; tauto).
    destruct (Set_delete ws' (clients s)) eqn:Ed, (realtimeInterval s); done.
  - case_bool_decide; [|done].
    destruct data; cbn; try done.
    + unfold startRealtimeUpdates. destruct (realtimeInterval s); done.
    + unfold stopRealtimeUpdates. destruct (realtimeInterval s); done.
  - unfold timer_fires. destruct (intervals s !! h); [|done].
    destruct (due _ <=? now s); done.
  - unfold stats_settled. destruct (in_flight s); [done|].
    destruct stats as [m|]; [|done].
    split; [done|]. now rewrite broadcast_not_open.
  - done.
  - unfold stopRealtimeUpdates. destruct (realtimeInterval s); done.
Qed.

Lemma foldl_step_not_open ws later s :
  not_open ws s -> sent_to ws (foldl step s later) = sent_to ws s.
Proof.
  revert s. induction later as [|e later IH]; intros s Hg; [reflexivity|].
  cbn [foldl]. destruct (step_not_open ws s e Hg) as [Hg' <-]. now apply IH.
Qed.

End ReachedMore.

(** X16.  In every state the server reaches the clients are distinct
    sockets that have connected, every open socket is among them, and the
    loop is active only while a client is attached: the timer never runs for
    nobody. *)
Theorem loop_needs_client (t0 : Z) (events : list Event) :
  let s := run t0 events in
  NoDup (clients s)
  /\ (forall ws, ws ∈ clients s -> (ws < next_ws s)%nat)
  /\ (forall ws, ws ∈ open_sockets s -> ws ∈ clients s)
  /\ (loop_state s = ACTIVE -> clients s <> [] /\ intervals s <> ∅)
  /\ (clients s = [] -> loop_state s = IDLE /\ intervals s = ∅).
Proof.
  intros s.
  destruct (run_attached t0 events) as (Hn & Ho & Ht). fold s in Hn, Ho, Ht.
  pose proof (run_allocated t0 events) as Ha. fold s in Ha.
  pose proof (run_tracked t0 events) as Hk. fold s in Hk.
  unfold clients_allocated in Ha. rewrite Forall_forall in Ha.
  unfold timers_tracked, loop_state in *.
  split; [exact Hn|]. split; [exact Ha|]. split; [exact Ho|].
  destruct (realtimeInterval s) as [h|].
  - split; [|intros Hc; now destruct Ht].
    intros _. split; [now apply Ht|].
    destruct Hk as [t ->]. apply insert_non_empty.
  - split; [discriminate|]. now intros _.
Qed.

(** X17.  When a tick's sample is there, it is sent exactly once to every
    client whose socket is open, and to nobody else; a tick whose sample is
    [null] sends nothing, and without a waiting callback nothing is sent. *)
Theorem sample_sent_once (t0 : Z) (events : list Event) (ws : Ws) (m : Stats) :
  let s := run t0 events in
  (in_flight s <> 0%nat ->
   sent_to ws (step s (StatsSettled (Some m)))
   = (sent_to ws s ++ Reached.delivery ws m s)%list)
  /\ sent (step s (StatsSettled None)) = sent s
  /\ (in_flight s = 0%nat -> step s (StatsSettled (Some m)) = s).
Proof.
  intros s. destruct (run_attached t0 events) as (Hn & _). fold s in Hn.
  cbn [step]. unfold stats_settled. split; [|split].
  - intros Hf. destruct (in_flight s) as [|n]; [done|].
    unfold sent_to, broadcast, Reached.delivery. cbn. rewrite filter_app. f_equal.
    now apply filter_deliveries.
  - now destruct (in_flight s).
  - now intros ->.
Qed.

Lemma sample_sent_once_witness :
  sent_to 0%nat
    (step (step Examples.tick_due (TimerFires 1%nat)) (StatsSettled (Some "sample")))
  = [(0%nat, "sample")].
Proof.
  apply (proj1 (sample_sent_once 0
                  [Connection; Message 0%nat start_realtime; Elapse 2000;
                   TimerFires 1%nat] 0%nat "sample")).
  vm_compute. discriminate.
Defined.

(** X18.  Once a socket that has connected is no longer open, because it is
    closing or has closed, no sample is sent to it, whatever happens
    afterwards. *)
Theorem closing_socket_receives_nothing
    (t0 : Z) (events later : list Event) (ws : Ws) :
  let s := run t0 events in
  (ws < next_ws s)%nat -> ws ∉ open_sockets s ->
  sent_to ws (foldl step s later) = sent_to ws s.
Proof.
  intros s Hn Ho. now apply foldl_step_not_open.
Qed.

Lemma closing_socket_receives_nothing_witness :
  sent_to 0%nat
    (foldl step (step Examples.streaming (Closing 0%nat))
       [Elapse 2000; TimerFires 1%nat; StatsSettled (Some "sample")])
  = sent_to 0%nat (step Examples.streaming (Closing 0%nat)).
Proof.
  apply (closing_socket_receives_nothing 0
           [Connection; Message 0%nat start_realtime; Closing 0%nat]
           [Elapse 2000; TimerFires 1%nat; StatsSettled (Some "sample")] 0%nat).
  - vm_compute. lia.
  - vm_compute. discriminate.
Defined.

(** X19.  A [stop_realtime] message of any one client, and [stop()], stop
    the loop for all clients: no timer stays armed and no tick begins, while
    every client stays attached.  A client that detaches while another one is
    attached leaves the loop and its timer as they are. *)
Theorem stop_by_one_stops_all (t0 : Z) (events : list Event) (ws : Ws) :
  let s := run t0 events in
  ws ∈ clients s ->
  (forall e, e = Message ws stop_realtime \/ e = Stop ->
     let s' := step s e in
     loop_state s' = IDLE
     /\ intervals s' = ∅
     /\ clients s' = clients s
     /\ (forall h, step s' (TimerFires h) = s'))
  /\ (clients s <> [ws] ->
      let s' := step s (Close ws) in
      loop_state s' = loop_state s
      /\ intervals s' = intervals s
      /\ clients s' <> []).
Proof.
  intros s Hin.
  pose proof (run_tracked t0 events) as Hk. fold s in Hk.
  destruct (run_attached t0 events) as (Hn & _). fold s in Hn.
  split.
  - intros e He s'.
    assert (s' = stopRealtimeUpdates s) as ->.
    { subst s'. destruct He as [-> | ->]; cbn [step]; [|reflexivity].
      now rewrite bool_decide_eq_true_2. }
    pose proof (stopRealtimeUpdates_tracked s Hk) as Hk'.
    unfold timers_tracked in Hk, Hk'. unfold loop_state.
    assert (realtimeInterval (stopRealtimeUpdates s) = None) as Er
      by (unfold stopRealtimeUpdates; destruct (realtimeInterval s) eqn:E;
          cbn; now rewrite ?E).
    rewrite Er in Hk' |- *.
    split; [reflexivity|]. split; [exact Hk'|]. split.
    + unfold stopRealtimeUpdates. now destruct (realtimeInterval s).
    + intros h. cbn [step]. unfold timer_fires. now rewrite Hk', lookup_empty.
  - intros Hne s'. subst s'. cbn [step]. rewrite bool_decide_eq_true_2 by done.
    unfold on_close, loop_state. cbn.
    assert (Set_delete ws (clients s) <> []) as Hd.
    { intros E. apply Hne.
      destruct (clients s) as [|c l] eqn:Ec; [now apply elem_of_nil in Hin|].
      assert (forall x, x ∈ c :: l -> x = ws) as Hall.
      { intros x Hx. destruct (decide (x = ws)) as [?|Hx']; [done|].
        assert (x ∈ Set_delete ws (c :: l)) as Hx''
          by (apply list_elem_of_filter; done).
        rewrite E in Hx''. now apply elem_of_nil in Hx''. }
      assert (c = ws) as -> by (apply Hall, list_elem_of_here).
      destruct l as [|c' l]; [reflexivity|].
      assert (c' = ws) as -> by (apply Hall; do 2 constructor).
      apply NoDup_cons in Hn as [Hn _]. exfalso. apply Hn, list_elem_of_here. }
    destruct (Set_delete ws (clients s)) eqn:Ed; [done|].
    cbn. done.
Qed.

Lemma stop_by_one_stops_all_witness :
  loop_state
    (step (step Examples.streaming Connection) (Message 1%nat stop_realtime)) = IDLE
  /\ loop_state (step (step Examples.streaming Connection) (Close 0%nat)) = ACTIVE.
Proof.
  destruct (stop_by_one_stops_all 0
              [Connection; Message 0%nat start_realtime; Connection] 1%nat)
    as [H1 _]; [vm_compute; do 2 constructor|].
  destruct (stop_by_one_stops_all 0
              [Connection; Message 0%nat start_realtime; Connection] 0%nat)
    as [_ H2]; [vm_compute; constructor|].
  split.
  - apply (H1 (Message 1%nat stop_realtime)). now left.
  - destruct H2 as [H2 _]; [vm_compute; discriminate|]. exact H2.
Defined.

(** ** The fingerprint keeps twelve bytes *)

Section FingerprintMore.
Import Pipeline.

Lemma substring0_toString_base64 (bytes : list N) :
  substring0 16 (toString_base64 bytes) = toString_base64 (take 12 bytes).
Proof.
  do 12 (destruct bytes as [|? bytes]; [reflexivity|]).
  cbn. now destruct (toString_base64 bytes).
Qed.

Lemma toString_base64_inj (l1 l2 : list N) :
  Forall (fun b => (b < 256)%N) l1 -> Forall (fun b => (b < 256)%N) l2 ->
  toString_base64 l1 = toString_base64 l2 -> l1 = l2.
Proof.
  intros H1 H2 E. apply (f_equal Spec.base64_decode) in E.
  rewrite !base64_decode_encode in E by assumption. congruence.
Qed.

Lemma detectHardware_answered
    (si : Collaborators) (env : Env) (this this' : Detector) (a : Analysis)
    (x : Answers) :
  detectHardware si env this = (this', Returned a) -> answered si x ->
  a = analysis_of x env.
Proof.
  intros H Hx. rewrite (detectHardware_pipeline si env this x Hx) in H. congruence.
Qed.

End FingerprintMore.

(** X20.  The fingerprint of an analysis is the encoding of the first twelve
    bytes of the string logicalCores-totalMemoryGB-model-os, and of nothing
    else: two analyses have the same fingerprint exactly when these strings
    agree on their first twelve bytes.  So two machines with 8 cores, 32 GB
    and any two GPUs whose model begins with NVIDIA and a space have the same
    fingerprint, whatever the rest of the model and the OS are. *)
Theorem fingerprint_first_twelve_bytes
    (si1 si2 : Collaborators) (env1 env2 : Env) (this1 this1' this2 this2' : Detector)
    (a1 a2 : Analysis) (x1 x2 : Pipeline.Answers) :
  detectHardware si1 env1 this1 = (this1', Returned a1) -> Pipeline.answered si1 x1 ->
  detectHardware si2 env2 this2 = (this2', Returned a2) -> Pipeline.answered si2 x2 ->
  hardwareFingerprint a1
  = toString_base64 (take 12 (Buffer_from (Pipeline.fingerprintData_of x1 env1)))
  /\ (hardwareFingerprint a1 = hardwareFingerprint a2
      <-> take 12 (Buffer_from (Pipeline.fingerprintData_of x1 env1))
          = take 12 (Buffer_from (Pipeline.fingerprintData_of x2 env2))).
Proof.
  intros H1 Hx1 H2 Hx2.
  rewrite (detectHardware_answered _ _ _ _ _ _ H1 Hx1),
    (detectHardware_answered _ _ _ _ _ _ H2 Hx2).
  cbn [hardwareFingerprint Pipeline.analysis_of].
  fold (Pipeline.fingerprintData_of x1 env1). fold (Pipeline.fingerprintData_of x2 env2).
  rewrite !substring0_toString_base64.
  split; [reflexivity|]. split.
  - apply toString_base64_inj; apply Forall_take, Buffer_from_bytes.
  - now intros ->.
Qed.

Lemma fingerprint_first_twelve_bytes_witness :
  hardwareFingerprint Examples.analysis = hardwareFingerprint Cases.workstation_analysis.
Proof.
  apply (fingerprint_first_twelve_bytes
           Examples.inventory_ok Cases.workstation Examples.env Examples.env_later
           HardwareDetector.constructor Examples.analysed
           HardwareDetector.constructor
           (detectHardware Cases.workstation Examples.env_later
              HardwareDetector.constructor).1
           Examples.analysis Cases.workstation_analysis
           Cases.answers_ok Cases.answers_workstation).
  - vm_compute. reflexivity.
  - repeat split.
  - vm_compute. reflexivity.
  - repeat split.
  - vm_compute. reflexivity.
Defined.

(** X21.  The two variants of the brand classifier agree on every vendor
    string in which neither geforce nor radeon occurs; where they differ the
    richer one answers NVIDIA, for geforce, or AMD, for radeon.  The test for
    nvidia that the richer one adds to its Intel rule changes nothing. *)
Theorem brand_variants (vendor : option string) :
  let lower := toLowerCase (str_or vendor "") in
  (includes lower "geforce" = false -> includes lower "radeon" = false ->
   extractGPUBrand vendor = SimpleDetector.extractGPUBrand vendor)
  /\ (extractGPUBrand vendor = SimpleDetector.extractGPUBrand vendor
      \/ (includes lower "geforce" = true /\ extractGPUBrand vendor = "NVIDIA")
      \/ (includes lower "radeon" = true /\ extractGPUBrand vendor = "AMD")).
Proof.
  destruct vendor as [v|]; [|cbn; intuition].
  destruct (string_dec v "") as [->|Hv]; [cbn; intuition|].
  assert (str_or (Some v) "" = v) as -> by (destruct v; [done|reflexivity]).
  assert (SimpleDetector.extractGPUBrand (Some v)
          = let vendorLower := toLowerCase v in
            if includes vendorLower "nvidia" then "NVIDIA"
            else if includes vendorLower "amd" || includes vendorLower "ati" then "AMD"
            else if includes vendorLower "intel" then "Intel"
            else if includes vendorLower "apple" then "Apple"
            else v) as -> by (destruct v; [done|reflexivity]).
  rewrite (extractGPUBrand_cases v Hv). cbv zeta.
  generalize (toLowerCase v) as lower. intros lower.
  includes_cases; cbn; intuition discriminate.
Qed.

Lemma brand_variants_witness :
  extractGPUBrand (Some "GeForce GTX 1650") = "NVIDIA"
  /\ SimpleDetector.extractGPUBrand (Some "GeForce GTX 1650") = "GeForce GTX 1650"
  /\ extractGPUBrand (Some "Intel Iris Xe") = SimpleDetector.extractGPUBrand (Some "Intel Iris Xe").
Proof.
  split; [|split].
  - destruct (brand_variants (Some "GeForce GTX 1650")) as [_ [H|[[_ H]|[H _]]]].
    + vm_compute in H. discriminate H.
    + exact H.
    + vm_compute in H. discriminate H.
  - reflexivity.
  - apply (proj1 (brand_variants (Some "Intel Iris Xe"))); reflexivity.
Defined.

(** ** The Ollama monitor and its routes *)

Section OllamaMore.
Import OllamaMonitor.

Lemma append_nil_l (s : string) : ("" ++ s)%string = s.
Proof. reflexivity. Qed.

Lemma append_cons (c : ascii) (s s' : string) :
  (String c s ++ s')%string = String c (s ++ s').
Proof. reflexivity. Qed.

Lemma append_nil_r (s : string) : (s ++ "")%string = s.
Proof. induction s as [|c s IH]; [reflexivity|]. now rewrite append_cons, IH. Qed.

Lemma prefix_sep (t a b : string) (c : ascii) :
  (forall x, In x (list_ascii_of_string t) -> x <> c) ->
  String.prefix t (a ++ String c b) = String.prefix t a.
Proof.
  revert a. induction t as [|x t IH]; intros a Ht.
  - now destruct a.
  - destruct a as [|d a]; rewrite ?append_nil_l, ?append_cons; cbn [String.prefix].
    + destruct (ascii_dec x c) as [->|_]; [|reflexivity].
      exfalso. apply (Ht c); [now left | reflexivity].
    + destruct (ascii_dec x d); [|reflexivity].
      apply IH. intros y Hy. apply Ht. now right.
Qed.

Lemma includes_sep (t a b : string) (c : ascii) :
  t <> EmptyString ->
  (forall x, In x (list_ascii_of_string t) -> x <> c) ->
  includes (a ++ String c b) t = includes a t || includes b t.
Proof.
  intros Hne Ht. induction a as [|d a IH].
  - rewrite append_nil_l. cbn [includes].
    rewrite <- (append_nil_l (String c b)) at 1.
    rewrite (prefix_sep t "" b c Ht).
    now destruct t.
  - rewrite append_cons. cbn [includes].
    rewrite <- append_cons, (prefix_sep t (String d a) b c Ht), IH.
    now destruct (String.prefix t (String d a)).
Qed.

Lemma includes_skip (t s : string) (c : ascii) :
  t <> EmptyString ->
  (forall x, In x (list_ascii_of_string t) -> x <> c) ->
  includes (String c s) t = includes s t.
Proof.
  intros Hne Ht. rewrite <- (append_nil_l (String c s)).
  now rewrite includes_sep, includes_empty.
Qed.

Lemma not_space (t : string) (c : ascii) :
  (forall x, In x (list_ascii_of_string t) -> is_space x = false) ->
  is_space c = true ->
  forall x, In x (list_ascii_of_string t) -> x <> c.
Proof. intros Ht Hc x Hx ->. rewrite (Ht c Hx) in Hc. discriminate. Qed.

Lemma includes_trimStart (t s : string) :
  t <> EmptyString ->
  (forall x, In x (list_ascii_of_string t) -> is_space x = false) ->
  includes (trimStart s) t = includes s t.
Proof.
  intros Hne Ht. induction s as [|c s IH]; [reflexivity|].
  cbn [trimStart]. destruct (is_space c) eqn:Hc; [|reflexivity].
  rewrite IH. symmetry. apply includes_skip; [exact Hne|]. now apply not_space.
Qed.

Lemma trimEnd_app (s : string) :
  exists spaces,
    s = (trimEnd s ++ spaces)%string
    /\ forall x, In x (list_ascii_of_string spaces) -> is_space x = true.
Proof.
  induction s as [|c s (spaces & Hs & Hspaces)].
  - exists "". split; [reflexivity | intros x []].
  - cbn [trimEnd]. destruct (trimEnd s) as [|d rest] eqn:E.
    + destruct (is_space c) eqn:Hc.
      * exists (String c spaces). rewrite append_nil_l in Hs |- *.
        split; [now rewrite Hs|].
        intros x [<-|Hx]; [exact Hc | now apply Hspaces].
      * exists spaces. rewrite append_nil_l in Hs.
        rewrite append_cons, append_nil_l.
        split; [now rewrite Hs | exact Hspaces].
    + exists spaces. rewrite append_cons.
      split; [now rewrite Hs at 1 | exact Hspaces].
Qed.

Lemma includes_spaces (t spaces : string) :
  t <> EmptyString ->
  (forall x, In x (list_ascii_of_string t) -> is_space x = false) ->
  (forall x, In x (list_ascii_of_string spaces) -> is_space x = true) ->
  includes spaces t = false.
Proof.
  intros Hne Ht. induction spaces as [|c spaces IH]; intros Hs.
  - now apply includes_empty.
  - rewrite includes_skip; [|exact Hne|].
    + apply IH. intros x Hx. apply Hs. now right.
    + apply not_space; [exact Ht|]. apply Hs. now left.
Qed.

Lemma includes_app_spaces (t s spaces : string) :
  t <> EmptyString ->
  (forall x, In x (list_ascii_of_string t) -> is_space x = false) ->
  (forall x, In x (list_ascii_of_string spaces) -> is_space x = true) ->
  includes (s ++ spaces) t = includes s t.
Proof.
  intros Hne Ht Hs. destruct spaces as [|c spaces].
  - now rewrite append_nil_r.
  - rewrite includes_sep; [|exact Hne|].
    + rewrite (includes_spaces t spaces Hne Ht), orb_false_r; [reflexivity|].
      intros x Hx. apply Hs. now right.
    + apply not_space; [exact Ht|]. apply Hs. now left.
Qed.

Lemma includes_trim (t s : string) :
  t <> EmptyString ->
  (forall x, In x (list_ascii_of_string t) -> is_space x = false) ->
  includes (trim s) t = includes s t.
Proof.
  intros Hne Ht. unfold trim.
  destruct (trimEnd_app (trimStart s)) as (spaces & Hs & Hspaces).
  rewrite <- (includes_trimStart t s Hne Ht). rewrite Hs at 2.
  symmetry. now apply includes_app_spaces.
Qed.

Lemma split_lines_head (s : string) :
  exists line lines,
    split_lines s = line :: lines
    /\ (s = line \/ exists rest, s = (line ++ String newline rest)%string).
Proof.
  induction s as [|c s (line & lines & E & Hs)].
  - exists "", []. split; [reflexivity | now left].
  - cbn [split_lines]. destruct (Ascii.eqb_spec c newline) as [->|Hc].
    + exists "", (split_lines s). split; [reflexivity|]. right. now exists s.
    + rewrite E. exists (String c line), lines. split; [reflexivity|].
      destruct Hs as [Hs|[rest Hs]]; [left; now rewrite Hs at 1|].
      right. exists rest. now rewrite append_cons, <- Hs.
Qed.

Lemma includes_split_lines (t s : string) :
  t <> EmptyString ->
  (forall x, In x (list_ascii_of_string t) -> x <> newline) ->
  existsb (fun line => includes line t) (split_lines s) = includes s t.
Proof.
  intros Hne Ht. induction s as [|c s IH].
  - cbn. apply orb_false_r.
  - cbn [split_lines]. destruct (Ascii.eqb_spec c newline) as [->|Hc].
    + cbn [existsb]. rewrite IH, includes_empty by exact Hne.
      symmetry. now apply includes_skip.
    + destruct (split_lines_head s) as (line & lines & E & Hs).
      rewrite E in IH |- *. cbn [existsb] in IH |- *. cbn [includes].
      assert (String.prefix t (String c line) = String.prefix t (String c s)) as ->.
      { destruct Hs as [->|[rest ->]]; [reflexivity|].
        rewrite <- append_cons. symmetry. now apply prefix_sep. }
      rewrite <- IH. now destruct (String.prefix t (String c s)).
Qed.

Lemma filter_length_existsb {A} (f : A -> bool) (l : list A) :
  (0 <? length (List.filter f l))%nat = existsb f l.
Proof.
  induction l as [|x l IH]; [reflexivity|].
  cbn. destruct (f x); [reflexivity | exact IH].
Qed.

Lemma filter_length_le {A} (f : A -> bool) (l : list A) :
  (length (List.filter f l) <= length l)%nat.
Proof.
  induction l as [|x l IH]; [reflexivity|].
  cbn. destruct (f x); cbn; lia.
Qed.

Lemma getOllamaProcessInfo_returns (w : World) (this : Monitor) :
  exists info, getOllamaProcessInfo w this = (this, Returned info).
Proof.
  unfold getOllamaProcessInfo.
  destruct (execAsync w) as [stdout|t e] eqn:E;
    cbv [try_catch mbind async_bind bind await ret throw mret async_ret].
  - destruct (String.eqb (process_platform w) "win32"); eexists; reflexivity.
  - eexists. reflexivity.
Qed.


End OllamaMore.

(** X22.  On a platform other than win32 the process check reports Ollama
    as running exactly when the process list contains the lower-case text
    ollama: a list that names it only with a capital letter, which the
    case-insensitive grep of the command lets through, counts as not running.
    The count is the number of lines with that text.  On win32 the test is
    for ollama.exe in any case; a command that fails reports not running and
    never makes the check throw. *)
Theorem process_check_case_sensitive (w : OllamaMonitor.World) (this : OllamaMonitor.Monitor) :
  (forall stdout,
      OllamaMonitor.execAsync w = Fulfilled stdout ->
      String.eqb (OllamaMonitor.process_platform w) "win32" = false ->
      exists info,
        OllamaMonitor.getOllamaProcessInfo w this = (this, Returned info)
        /\ OllamaMonitor.isRunning info = includes stdout "ollama"
        /\ exists n, OllamaMonitor.processCount info = Some n
             /\ (n <= length (OllamaMonitor.split_lines (OllamaMonitor.trim stdout)))%nat
             /\ (OllamaMonitor.isRunning info = true <-> (0 < n)%nat))
  /\ (forall stdout,
        OllamaMonitor.execAsync w = Fulfilled stdout ->
        String.eqb (OllamaMonitor.process_platform w) "win32" = true ->
        exists info,
          OllamaMonitor.getOllamaProcessInfo w this = (this, Returned info)
          /\ OllamaMonitor.isRunning info = includes (toLowerCase stdout) "ollama.exe")
  /\ (forall t e,
        OllamaMonitor.execAsync w = Rejected t e ->
        exists info,
          OllamaMonitor.getOllamaProcessInfo w this = (this, Returned info)
          /\ OllamaMonitor.isRunning info = false
          /\ OllamaMonitor.details info = e).
Proof.
  unfold OllamaMonitor.getOllamaProcessInfo. split; [|split].
  - intros stdout -> ->.
    cbv [try_catch mbind async_bind bind await ret throw mret async_ret].
    eexists. split; [reflexivity|].
    cbn [OllamaMonitor.isRunning OllamaMonitor.processCount]. split.
    + rewrite filter_length_existsb, includes_split_lines, includes_trim;
        try discriminate; try reflexivity.
      * intros x Hx. cbn in Hx.
        repeat (destruct Hx as [<-|Hx]; [reflexivity|]). destruct Hx.
      * intros x Hx. cbn in Hx.
        repeat (destruct Hx as [<-|Hx]; [discriminate|]). destruct Hx.
    + eexists. split; [reflexivity|]. split; [apply filter_length_le|].
      rewrite Nat.ltb_lt. reflexivity.
  - intros stdout -> ->.
    cbv [try_catch mbind async_bind bind await ret throw mret async_ret].
    eexists. split; reflexivity.
  - intros t e ->.
    cbv [try_catch mbind async_bind bind await ret throw mret async_ret].
    eexists. split; [reflexivity|]. split; reflexivity.
Qed.

Lemma process_check_case_sensitive_witness :
  exists info,
    OllamaMonitor.getOllamaProcessInfo Cases.mac (OllamaMonitor.constructor Cases.mac)
    = (OllamaMonitor.constructor Cases.mac, Returned info)
    /\ OllamaMonitor.isRunning info = false.
Proof.
  destruct (process_check_case_sensitive Cases.mac (OllamaMonitor.constructor Cases.mac))
    as [H _].
  destruct (H _ eq_refl eq_refl) as (info & Hinfo & Hrun & _).
  exists info. split; [exact Hinfo|]. rewrite Hrun. reflexivity.
Defined.

(** X23.  The status check never throws, and the monitor then holds the
    status it returned.  Ollama is reported reachable exactly when the
    request for the model list succeeds; it is then reported as running
    whatever the process check found, with a version that is never empty and
    a model count that is the length of the model list, also when the version
    request fails.  When the request fails, running is what the process check
    found, and the error is one of four kinds with a message that is never
    empty. *)
Theorem status_check_never_throws (w : OllamaMonitor.World) (this : OllamaMonitor.Monitor) :
  exists status,
    OllamaMonitor.checkOllamaStatus w this
    = ({| OllamaMonitor.ollamaHost := OllamaMonitor.ollamaHost this;
          OllamaMonitor.lastStatus := Some status |},
       Returned status)
    /\ OllamaMonitor.host status = OllamaMonitor.ollamaHost this
    /\ OllamaMonitor.lastChecked status = OllamaMonitor.clock w
    /\ (OllamaMonitor.isReachable status = true
        <-> exists data, OllamaMonitor.get_tags w = OllamaMonitor.Resolved data)
    /\ (OllamaMonitor.isReachable status = true ->
        OllamaMonitor.status_isRunning status = true
        /\ OllamaMonitor.status_error status = None
        /\ (exists v, OllamaMonitor.status_version status = Some v /\ v <> EmptyString)
        /\ exists installed,
             OllamaMonitor.installedModels status = Some installed
             /\ OllamaMonitor.modelsCount status = Some (length installed))
    /\ (OllamaMonitor.isReachable status = false ->
        OllamaMonitor.status_isRunning status
        = OllamaMonitor.isRunning (OllamaMonitor.processInfo status)
        /\ exists info,
             OllamaMonitor.status_error status = Some info
             /\ In (OllamaMonitor.error_type info)
                  ["CONNECTION_REFUSED"; "HOST_NOT_FOUND"; "TIMEOUT"; "UNKNOWN"]
             /\ OllamaMonitor.error_message info <> EmptyString).
Proof.
  unfold OllamaMonitor.checkOllamaStatus.
  destruct (getOllamaProcessInfo_returns w this) as [info H].
  destruct (OllamaMonitor.get_tags w) as [data|error];
    cbv [mbind async_bind bind]; rewrite H;
    eexists; (split; [reflexivity|]); cbn;
    (split; [reflexivity|]); (split; [reflexivity|]).
  - split; [split; [eauto | reflexivity]|]. split; [|discriminate].
    intros _. split; [reflexivity|]. split; [reflexivity|]. split.
    + eexists. split; [reflexivity|]. now apply str_or_not_empty.
    + eexists. split; [reflexivity|]. now rewrite length_fmap.
  - split; [split; [discriminate | intros [? [=]]]|]. split; [discriminate|].
    intros _. split; [reflexivity|]. eexists. split; [reflexivity|].
    unfold OllamaMonitor.categorizeError.
    repeat match goal with
           | |- context [OllamaMonitor.code_is ?e ?c] =>
               destruct (OllamaMonitor.code_is e c)
           end; cbn; (split; [tauto|]); try discriminate.
    now apply str_or_not_empty.
Qed.

Lemma status_check_never_throws_witness :
  exists status,
    OllamaMonitor.checkOllamaStatus Cases.mac (OllamaMonitor.constructor Cases.mac)
    = ({| OllamaMonitor.ollamaHost := "http://localhost:11434";
          OllamaMonitor.lastStatus := Some status |},
       Returned status)
    /\ OllamaMonitor.status_isRunning status
       = OllamaMonitor.isRunning (OllamaMonitor.processInfo status).
Proof.
  destruct (status_check_never_throws Cases.mac (OllamaMonitor.constructor Cases.mac))
    as (status & H & _ & _ & Hreach & _ & Hdown).
  exists status. split; [exact H|]. apply Hdown.
  destruct (OllamaMonitor.isReachable status); [|reflexivity].
  destruct (proj1 Hreach eq_refl) as [data Hdata]. discriminate Hdata.
Defined.



(** ** The GPU that is scored *)

Section BestGpu.
Import Pipeline.

Lemma getGPUVRAM_nonneg (gpu : Controller) : 0 <= getGPUVRAM gpu.
Proof.
  rewrite getGPUVRAM_sensors_first. unfold Spec.vram_resolution_sensors_first.
  destruct (Spec.known_model _ _) as [gb|] eqn:K.
  - pose proof (known_model_positive _ _ gb K). lia.
  - destruct (Spec.reported_GB (vram gpu)) as [g1|] eqn:R1.
    + pose proof (reported_GB_positive _ _ R1). lia.
    + destruct (Spec.reported_GB (memoryTotal gpu)) as [g2|] eqn:R2; simpl; [|lia].
      pose proof (reported_GB_positive _ _ R2). lia.
Qed.

Lemma other_gpuScore cpu memory gpu storage :
  gpu_type gpu <> Some dedicated -> gpu_type gpu <> Some apple_unified ->
  gpuScore (calculatePerformanceScores cpu memory gpu storage) = 30.
Proof.
  intros Hd Ha. unfold calculatePerformanceScores, gpuScore.
  destruct (gpu_type gpu) as [[]|]; try done; reflexivity.
Qed.

End BestGpu.

(** X25.  When no controller of the inventory is classified as Apple
    unified memory, the GPU that the analysis scores is a best one: no
    controller of the inventory would have a higher GPU score. *)
Theorem best_gpu_scored
    (graphics : list Controller) (cpu : CpuInfo) (memory : MemoryInfo)
    (storage : StorageArg) (c : Controller) :
  (forall c', c' ∈ graphics -> determineGPUType (model c') (vendor c') <> apple_unified) ->
  c ∈ graphics ->
  gpuScore (calculatePerformanceScores cpu memory
              (gpu_arg (Some (Pipeline.gpu_entry c))) storage)
  <= gpuScore (calculatePerformanceScores cpu memory
                 (gpu_arg (head (Pipeline.gpuInfo_of graphics))) storage).
Proof.
  intros Hno Hc.
  assert (Pipeline.gpuInfo_of graphics ≡ₚ Pipeline.gpu_entry <$> graphics) as Hperm
    by apply Array_sort_Permutation.
  assert (StronglySorted (fun a b => compareGPUs a b <= 0) (Pipeline.gpuInfo_of graphics))
    as Hsorted
    by (apply Array_sort_sorted; [apply compareGPUs_total | apply compareGPUs_trans]).
  assert (Pipeline.gpu_entry c ∈ Pipeline.gpuInfo_of graphics) as Hin
    by (rewrite Hperm; now apply list_elem_of_fmap_2).
  destruct (Pipeline.gpuInfo_of graphics) as [|g rest] eqn:E;
    [now apply elem_of_nil in Hin|].
  assert (g ∈ Pipeline.gpu_entry <$> graphics) as Hg
    by (rewrite <- Hperm; apply list_elem_of_here).
  apply list_elem_of_fmap in Hg as (c0 & -> & Hc0).
  assert (compareGPUs (Pipeline.gpu_entry c0) (Pipeline.gpu_entry c) <= 0) as Hle.
  { apply elem_of_cons in Hin as [<-|Hin].
    - unfold compareGPUs. destruct (is_dedicated (Pipeline.gpu_entry c)); cbn; lia.
    - apply StronglySorted_inv in Hsorted as [_ Hall].
      rewrite Forall_forall in Hall. now apply Hall. }
  apply compareGPUs_le in Hle as [Hded Hvram].
  cbn [head gpu_arg]. cbn [type vramGB Pipeline.gpu_entry] in Hded, Hvram |- *.
  pose proof (Hno c Hc) as Hc'. pose proof (Hno c0 Hc0) as Hc0'.
  pose proof (getGPUVRAM_nonneg c0) as Hv0.
  destruct (determineGPUType (model c) (vendor c)) eqn:Tc; [| |done].
  - specialize (Hded eq_refl). rewrite Hded in Hvram |- *.
    rewrite !dedicated_gpuScore by reflexivity. cbn [gpu_vramGB].
    specialize (Hvram ltac:(tauto)). lia.
  - rewrite (other_gpuScore cpu memory _ storage) by (cbn; congruence).
    destruct (determineGPUType (model c0) (vendor c0)) eqn:Tc0; [| |done].
    + rewrite dedicated_gpuScore by reflexivity. cbn [gpu_vramGB]. lia.
    + rewrite other_gpuScore by (cbn; congruence). lia.
Qed.

Lemma best_gpu_scored_witness :
  gpuScore (calculatePerformanceScores Examples.cpu8 Examples.memory32
              (gpu_arg (Some (Pipeline.gpu_entry Examples.uhd630))) Examples.ssd)
  <= gpuScore (calculatePerformanceScores Examples.cpu8 Examples.memory32
                 (gpu_arg (head (Pipeline.gpuInfo_of [Examples.uhd630; Examples.rtx3060])))
                 Examples.ssd).
Proof.
  apply (best_gpu_scored [Examples.uhd630; Examples.rtx3060]).
  - intros c' Hc'. apply elem_of_cons in Hc' as [->|Hc'].
    + vm_compute. discriminate.
    + apply list_elem_of_singleton in Hc' as ->. vm_compute. discriminate.
  - apply list_elem_of_here.
Defined.

(** ** The answers on a socket *)

Section SocketMore.
Import Socket.


End SocketMore.

